(** * Verifiable Data Agent: resolution-and-routing core

    A shallow embedding of the Python sources of the agent
    (data_source_handler.py, carbon_footprint.py, reputation_score.py,
    education_credentials.py, supply_chain.py, chat_protocol_integration.py,
    main_agent.py, models.py, demo_client.py) and the properties its
    specification states about them.

    Conventions of the embedding.
    - A Python [str] is a [string]: the bytes of its UTF-8 encoding.
      [lower], [strip] and the slices work on its characters, with the
      Unicode data of the interpreter (Python 3.11, Unicode 14.0).
    - A JSON-like Python object is a [value]; a [dict] is an association
      list in insertion order with string keys.
    - Code that can raise returns a [result]; code that mutates the
      module-level caches is a function from the caches to the new caches.
    - [datetime.utcnow()] readings are inputs, in microseconds. *)

From stdpp Require Import base gmap strings list.
From Stdlib Require Import ZArith Ascii String Lia Wf_nat.

Open Scope string_scope.
Open Scope Z_scope.

(** ** Text as UTF-8

    A Python [str] is a sequence of code points; here it is the string of
    the bytes of their UTF-8 encodings, a lone surrogate encoded like any
    other code point of its size.  [units] cuts a text into its
    characters.  A byte that starts no well-formed sequence is a unit of
    its own and stands for no code point; no Python [str] has one. *)

Module Utf8.

Definition byte (c : ascii) : Z := Z.of_N (N_of_ascii c).

Definition is_continuation (c : ascii) : bool :=
  (128 <=? byte c) && (byte c <? 192).

(** The number of continuation bytes a first byte announces. *)
Definition announced (c : ascii) : nat :=
  let x := byte c in
  if x <? 194 then 0%nat
  else if x <? 224 then 1%nat
  else if x <? 240 then 2%nat
  else if x <? 245 then 3%nat
  else 0%nat.

(** The number of continuation bytes a text starts with. *)
Fixpoint continuation_prefix (s : string) : nat :=
  match s with
  | EmptyString => 0%nat
  | String c s' =>
      if is_continuation c then S (continuation_prefix s') else 0%nat
  end.

(** The number of bytes of the first character of a text: its first byte
    with the continuation bytes it announces when they follow, its first
    byte alone when they do not. *)
Definition unit_length (s : string) : nat :=
  match s with
  | EmptyString => 0%nat
  | String a s' =>
      if (announced a <=? continuation_prefix s')%nat
      then S (announced a) else 1%nat
  end.

Fixpoint first_bytes (n : nat) (s : string) : string :=
  match n, s with
  | S n', String c s' => String c (first_bytes n' s')
  | _, _ => EmptyString
  end.

Fixpoint skip_bytes (n : nat) (s : string) : string :=
  match n, s with
  | S n', String _ s' => skip_bytes n' s'
  | _, _ => s
  end.

(** The characters of a text, in order; [skip] counts the bytes still to
    step over of the character cut last. *)
Fixpoint units_from (skip : nat) (s : string) : list string :=
  match s with
  | EmptyString => []
  | String _ s' =>
      match skip with
      | S skip' => units_from skip' s'
      | O =>
          first_bytes (unit_length s) s
          :: units_from (unit_length s - 1) s'
      end
  end.

Definition units (s : string) : list string := units_from 0 s.

(** The text made of the characters [us]. *)
Fixpoint text (us : list string) : string :=
  match us with
  | [] => EmptyString
  | u :: rest => u +:+ text rest
  end.

(** The code point of a character; [-1] for a byte that is none. *)
Definition code_point (u : string) : Z :=
  match u with
  | String a EmptyString => if byte a <? 128 then byte a else -1
  | String a (String b EmptyString) =>
      if Nat.eqb (announced a) 1 && is_continuation b
      then (byte a - 192) * 64 + (byte b - 128)
      else -1
  | String a (String b (String c EmptyString)) =>
      if Nat.eqb (announced a) 2 && is_continuation b && is_continuation c
      then (byte a - 224) * 4096 + (byte b - 128) * 64 + (byte c - 128)
      else -1
  | String a (String b (String c (String d EmptyString))) =>
      if Nat.eqb (announced a) 3 && is_continuation b && is_continuation c
         && is_continuation d
      then (byte a - 240) * 262144 + (byte b - 128) * 4096
           + (byte c - 128) * 64 + (byte d - 128)
      else -1
  | _ => -1
  end.

Definition of_byte (x : Z) : ascii := ascii_of_N (Z.to_N x).

(** The character of a code point. *)
Definition encode (cp : Z) : string :=
  if cp <? 128 then String (of_byte cp) EmptyString
  else if cp <? 2048 then
    String (of_byte (192 + cp / 64))
      (String (of_byte (128 + cp mod 64)) EmptyString)
  else if cp <? 65536 then
    String (of_byte (224 + cp / 4096))
      (String (of_byte (128 + (cp / 64) mod 64))
         (String (of_byte (128 + cp mod 64)) EmptyString))
  else
    String (of_byte (240 + cp / 262144))
      (String (of_byte (128 + (cp / 4096) mod 64))
         (String (of_byte (128 + (cp / 64) mod 64))
            (String (of_byte (128 + cp mod 64)) EmptyString))).

Definition encode_all (cps : list Z) : string := text (map encode cps).

End Utf8.

(** ** Unicode

    The character data [str.lower] and [str.strip] work from, by code
    point: the simple lowercase mappings as runs, the two classes the rule
    for the final sigma asks about, and white space. *)

Module Unicode.

(** Runs [(first, last, step, delta)]: every code point from [first] to
    [last] in steps of [step] has the lowercase [code point + delta].  The
    letters A to Z are not listed. *)
Definition LOWERCASE_RUNS : list (Z * Z * Z * Z) :=
  [
    (0xC0, 0xD6, 1, 32); (0xD8, 0xDE, 1, 32); (0x100, 0x12E, 2, 1);
    (0x132, 0x136, 2, 1); (0x139, 0x147, 2, 1); (0x14A, 0x176, 2, 1);
    (0x178, 0x178, 1, -121); (0x179, 0x17D, 2, 1); (0x181, 0x181, 1, 210);
    (0x182, 0x184, 2, 1); (0x186, 0x186, 1, 206); (0x187, 0x187, 1, 1);
    (0x189, 0x18A, 1, 205); (0x18B, 0x18B, 1, 1); (0x18E, 0x18E, 1, 79);
    (0x18F, 0x18F, 1, 202); (0x190, 0x190, 1, 203); (0x191, 0x191, 1, 1);
    (0x193, 0x193, 1, 205); (0x194, 0x194, 1, 207); (0x196, 0x196, 1, 211);
    (0x197, 0x197, 1, 209); (0x198, 0x198, 1, 1); (0x19C, 0x19C, 1, 211);
    (0x19D, 0x19D, 1, 213); (0x19F, 0x19F, 1, 214); (0x1A0, 0x1A4, 2, 1);
    (0x1A6, 0x1A6, 1, 218); (0x1A7, 0x1A7, 1, 1); (0x1A9, 0x1A9, 1, 218);
    (0x1AC, 0x1AC, 1, 1); (0x1AE, 0x1AE, 1, 218); (0x1AF, 0x1AF, 1, 1);
    (0x1B1, 0x1B2, 1, 217); (0x1B3, 0x1B5, 2, 1); (0x1B7, 0x1B7, 1, 219);
    (0x1B8, 0x1B8, 1, 1); (0x1BC, 0x1BC, 1, 1); (0x1C4, 0x1C4, 1, 2);
    (0x1C5, 0x1C5, 1, 1); (0x1C7, 0x1C7, 1, 2); (0x1C8, 0x1C8, 1, 1);
    (0x1CA, 0x1CA, 1, 2); (0x1CB, 0x1DB, 2, 1); (0x1DE, 0x1EE, 2, 1);
    (0x1F1, 0x1F1, 1, 2); (0x1F2, 0x1F4, 2, 1); (0x1F6, 0x1F6, 1, -97);
    (0x1F7, 0x1F7, 1, -56); (0x1F8, 0x21E, 2, 1); (0x220, 0x220, 1, -130);
    (0x222, 0x232, 2, 1); (0x23A, 0x23A, 1, 10795); (0x23B, 0x23B, 1, 1);
    (0x23D, 0x23D, 1, -163); (0x23E, 0x23E, 1, 10792); (0x241, 0x241, 1, 1);
    (0x243, 0x243, 1, -195); (0x244, 0x244, 1, 69); (0x245, 0x245, 1, 71);
    (0x246, 0x24E, 2, 1); (0x370, 0x372, 2, 1); (0x376, 0x376, 1, 1);
    (0x37F, 0x37F, 1, 116); (0x386, 0x386, 1, 38); (0x388, 0x38A, 1, 37);
    (0x38C, 0x38C, 1, 64); (0x38E, 0x38F, 1, 63); (0x391, 0x3A1, 1, 32);
    (0x3A3, 0x3AB, 1, 32); (0x3CF, 0x3CF, 1, 8); (0x3D8, 0x3EE, 2, 1);
    (0x3F4, 0x3F4, 1, -60); (0x3F7, 0x3F7, 1, 1); (0x3F9, 0x3F9, 1, -7);
    (0x3FA, 0x3FA, 1, 1); (0x3FD, 0x3FF, 1, -130); (0x400, 0x40F, 1, 80);
    (0x410, 0x42F, 1, 32); (0x460, 0x480, 2, 1); (0x48A, 0x4BE, 2, 1);
    (0x4C0, 0x4C0, 1, 15); (0x4C1, 0x4CD, 2, 1); (0x4D0, 0x52E, 2, 1);
    (0x531, 0x556, 1, 48); (0x10A0, 0x10C5, 1, 7264);
    (0x10C7, 0x10C7, 1, 7264); (0x10CD, 0x10CD, 1, 7264);
    (0x13A0, 0x13EF, 1, 38864); (0x13F0, 0x13F5, 1, 8);
    (0x1C90, 0x1CBA, 1, -3008); (0x1CBD, 0x1CBF, 1, -3008);
    (0x1E00, 0x1E94, 2, 1); (0x1E9E, 0x1E9E, 1, -7615);
    (0x1EA0, 0x1EFE, 2, 1); (0x1F08, 0x1F0F, 1, -8); (0x1F18, 0x1F1D, 1, -8);
    (0x1F28, 0x1F2F, 1, -8); (0x1F38, 0x1F3F, 1, -8);
    (0x1F48, 0x1F4D, 1, -8); (0x1F59, 0x1F5F, 2, -8);
    (0x1F68, 0x1F6F, 1, -8); (0x1F88, 0x1F8F, 1, -8);
    (0x1F98, 0x1F9F, 1, -8); (0x1FA8, 0x1FAF, 1, -8);
    (0x1FB8, 0x1FB9, 1, -8); (0x1FBA, 0x1FBB, 1, -74);
    (0x1FBC, 0x1FBC, 1, -9); (0x1FC8, 0x1FCB, 1, -86);
    (0x1FCC, 0x1FCC, 1, -9); (0x1FD8, 0x1FD9, 1, -8);
    (0x1FDA, 0x1FDB, 1, -100); (0x1FE8, 0x1FE9, 1, -8);
    (0x1FEA, 0x1FEB, 1, -112); (0x1FEC, 0x1FEC, 1, -7);
    (0x1FF8, 0x1FF9, 1, -128); (0x1FFA, 0x1FFB, 1, -126);
    (0x1FFC, 0x1FFC, 1, -9); (0x2126, 0x2126, 1, -7517);
    (0x212A, 0x212A, 1, -8383); (0x212B, 0x212B, 1, -8262);
    (0x2132, 0x2132, 1, 28); (0x2160, 0x216F, 1, 16); (0x2183, 0x2183, 1, 1);
    (0x24B6, 0x24CF, 1, 26); (0x2C00, 0x2C2F, 1, 48); (0x2C60, 0x2C60, 1, 1);
    (0x2C62, 0x2C62, 1, -10743); (0x2C63, 0x2C63, 1, -3814);
    (0x2C64, 0x2C64, 1, -10727); (0x2C67, 0x2C6B, 2, 1);
    (0x2C6D, 0x2C6D, 1, -10780); (0x2C6E, 0x2C6E, 1, -10749);
    (0x2C6F, 0x2C6F, 1, -10783); (0x2C70, 0x2C70, 1, -10782);
    (0x2C72, 0x2C72, 1, 1); (0x2C75, 0x2C75, 1, 1);
    (0x2C7E, 0x2C7F, 1, -10815); (0x2C80, 0x2CE2, 2, 1);
    (0x2CEB, 0x2CED, 2, 1); (0x2CF2, 0x2CF2, 1, 1); (0xA640, 0xA66C, 2, 1);
    (0xA680, 0xA69A, 2, 1); (0xA722, 0xA72E, 2, 1); (0xA732, 0xA76E, 2, 1);
    (0xA779, 0xA77B, 2, 1); (0xA77D, 0xA77D, 1, -35332);
    (0xA77E, 0xA786, 2, 1); (0xA78B, 0xA78B, 1, 1);
    (0xA78D, 0xA78D, 1, -42280); (0xA790, 0xA792, 2, 1);
    (0xA796, 0xA7A8, 2, 1); (0xA7AA, 0xA7AA, 1, -42308);
    (0xA7AB, 0xA7AB, 1, -42319); (0xA7AC, 0xA7AC, 1, -42315);
    (0xA7AD, 0xA7AD, 1, -42305); (0xA7AE, 0xA7AE, 1, -42308);
    (0xA7B0, 0xA7B0, 1, -42258); (0xA7B1, 0xA7B1, 1, -42282);
    (0xA7B2, 0xA7B2, 1, -42261); (0xA7B3, 0xA7B3, 1, 928);
    (0xA7B4, 0xA7C2, 2, 1); (0xA7C4, 0xA7C4, 1, -48);
    (0xA7C5, 0xA7C5, 1, -42307); (0xA7C6, 0xA7C6, 1, -35384);
    (0xA7C7, 0xA7C9, 2, 1); (0xA7D0, 0xA7D0, 1, 1); (0xA7D6, 0xA7D8, 2, 1);
    (0xA7F5, 0xA7F5, 1, 1); (0xFF21, 0xFF3A, 1, 32);
    (0x10400, 0x10427, 1, 40); (0x104B0, 0x104D3, 1, 40);
    (0x10570, 0x1057A, 1, 39); (0x1057C, 0x1058A, 1, 39);
    (0x1058C, 0x10592, 1, 39); (0x10594, 0x10595, 1, 39);
    (0x10C80, 0x10CB2, 1, 64); (0x118A0, 0x118BF, 1, 32);
    (0x16E40, 0x16E5F, 1, 32); (0x1E900, 0x1E921, 1, 34)
  ].

(** The points of a run. *)
Definition run_points (run : Z * Z * Z * Z) : list (Z * list Z) :=
  let '(first, last, step, delta) := run in
  map (fun i => let cp := first + step * Z.of_nat i in (cp, [cp + delta]))
    (seq 0 (Z.to_nat ((last - first) / step) + 1)).

(** Code point by code point; U+0130 has a lowercase of two code points. *)
Definition LOWERCASE : list (Z * list Z) :=
  Eval vm_compute in
    (0x130, [0x69; 0x307]) :: flat_map run_points LOWERCASE_RUNS.

Fixpoint lowercase_in (table : list (Z * list Z)) (cp : Z)
  : option (list Z) :=
  match table with
  | [] => None
  | (key, mapped) :: rest =>
      if key =? cp then Some mapped else lowercase_in rest cp
  end.

(** The lowercase of a code point that has one of its own. *)
Definition lowercase (cp : Z) : option (list Z) := lowercase_in LOWERCASE cp.

Definition in_ranges (ranges : list (Z * Z)) (cp : Z) : bool :=
  existsb (fun '(first, last) => (first <=? cp) && (cp <=? last)) ranges.

(** The cased code points that are not case-ignorable. *)
Definition CASED : list (Z * Z) :=
  [
    (0x41, 0x5A); (0x61, 0x7A); (0xAA, 0xAA); (0xB5, 0xB5); (0xBA, 0xBA);
    (0xC0, 0xD6); (0xD8, 0xF6); (0xF8, 0x1BA); (0x1BC, 0x1BF);
    (0x1C4, 0x293); (0x295, 0x2AF); (0x370, 0x373); (0x376, 0x377);
    (0x37B, 0x37D); (0x37F, 0x37F); (0x386, 0x386); (0x388, 0x38A);
    (0x38C, 0x38C); (0x38E, 0x3A1); (0x3A3, 0x3F5); (0x3F7, 0x481);
    (0x48A, 0x52F); (0x531, 0x556); (0x560, 0x588); (0x10A0, 0x10C5);
    (0x10C7, 0x10C7); (0x10CD, 0x10CD); (0x10D0, 0x10FA); (0x10FD, 0x10FF);
    (0x13A0, 0x13F5); (0x13F8, 0x13FD); (0x1C80, 0x1C88); (0x1C90, 0x1CBA);
    (0x1CBD, 0x1CBF); (0x1D00, 0x1D2B); (0x1D6B, 0x1D77); (0x1D79, 0x1D9A);
    (0x1E00, 0x1F15); (0x1F18, 0x1F1D); (0x1F20, 0x1F45); (0x1F48, 0x1F4D);
    (0x1F50, 0x1F57); (0x1F59, 0x1F59); (0x1F5B, 0x1F5B); (0x1F5D, 0x1F5D);
    (0x1F5F, 0x1F7D); (0x1F80, 0x1FB4); (0x1FB6, 0x1FBC); (0x1FBE, 0x1FBE);
    (0x1FC2, 0x1FC4); (0x1FC6, 0x1FCC); (0x1FD0, 0x1FD3); (0x1FD6, 0x1FDB);
    (0x1FE0, 0x1FEC); (0x1FF2, 0x1FF4); (0x1FF6, 0x1FFC); (0x2102, 0x2102);
    (0x2107, 0x2107); (0x210A, 0x2113); (0x2115, 0x2115); (0x2119, 0x211D);
    (0x2124, 0x2124); (0x2126, 0x2126); (0x2128, 0x2128); (0x212A, 0x212D);
    (0x212F, 0x2134); (0x2139, 0x2139); (0x213C, 0x213F); (0x2145, 0x2149);
    (0x214E, 0x214E); (0x2160, 0x217F); (0x2183, 0x2184); (0x24B6, 0x24E9);
    (0x2C00, 0x2C7B); (0x2C7E, 0x2CE4); (0x2CEB, 0x2CEE); (0x2CF2, 0x2CF3);
    (0x2D00, 0x2D25); (0x2D27, 0x2D27); (0x2D2D, 0x2D2D); (0xA640, 0xA66D);
    (0xA680, 0xA69B); (0xA722, 0xA76F); (0xA771, 0xA787); (0xA78B, 0xA78E);
    (0xA790, 0xA7CA); (0xA7D0, 0xA7D1); (0xA7D3, 0xA7D3); (0xA7D5, 0xA7D9);
    (0xA7F5, 0xA7F6); (0xA7FA, 0xA7FA); (0xAB30, 0xAB5A); (0xAB60, 0xAB68);
    (0xAB70, 0xABBF); (0xFB00, 0xFB06); (0xFB13, 0xFB17); (0xFF21, 0xFF3A);
    (0xFF41, 0xFF5A); (0x10400, 0x1044F); (0x104B0, 0x104D3);
    (0x104D8, 0x104FB); (0x10570, 0x1057A); (0x1057C, 0x1058A);
    (0x1058C, 0x10592); (0x10594, 0x10595); (0x10597, 0x105A1);
    (0x105A3, 0x105B1); (0x105B3, 0x105B9); (0x105BB, 0x105BC);
    (0x10C80, 0x10CB2); (0x10CC0, 0x10CF2); (0x118A0, 0x118DF);
    (0x16E40, 0x16E7F); (0x1D400, 0x1D454); (0x1D456, 0x1D49C);
    (0x1D49E, 0x1D49F); (0x1D4A2, 0x1D4A2); (0x1D4A5, 0x1D4A6);
    (0x1D4A9, 0x1D4AC); (0x1D4AE, 0x1D4B9); (0x1D4BB, 0x1D4BB);
    (0x1D4BD, 0x1D4C3); (0x1D4C5, 0x1D505); (0x1D507, 0x1D50A);
    (0x1D50D, 0x1D514); (0x1D516, 0x1D51C); (0x1D51E, 0x1D539);
    (0x1D53B, 0x1D53E); (0x1D540, 0x1D544); (0x1D546, 0x1D546);
    (0x1D54A, 0x1D550); (0x1D552, 0x1D6A5); (0x1D6A8, 0x1D6C0);
    (0x1D6C2, 0x1D6DA); (0x1D6DC, 0x1D6FA); (0x1D6FC, 0x1D714);
    (0x1D716, 0x1D734); (0x1D736, 0x1D74E); (0x1D750, 0x1D76E);
    (0x1D770, 0x1D788); (0x1D78A, 0x1D7A8); (0x1D7AA, 0x1D7C2);
    (0x1D7C4, 0x1D7CB); (0x1DF00, 0x1DF09); (0x1DF0B, 0x1DF1E);
    (0x1E900, 0x1E943); (0x1F130, 0x1F149); (0x1F150, 0x1F169);
    (0x1F170, 0x1F189)
  ].

(** The case-ignorable code points. *)
Definition CASE_IGNORABLE : list (Z * Z) :=
  [
    (0x27, 0x27); (0x2E, 0x2E); (0x3A, 0x3A); (0x5E, 0x5E); (0x60, 0x60);
    (0xA8, 0xA8); (0xAD, 0xAD); (0xAF, 0xAF); (0xB4, 0xB4); (0xB7, 0xB8);
    (0x2B0, 0x36F); (0x374, 0x375); (0x37A, 0x37A); (0x384, 0x385);
    (0x387, 0x387); (0x483, 0x489); (0x559, 0x559); (0x55F, 0x55F);
    (0x591, 0x5BD); (0x5BF, 0x5BF); (0x5C1, 0x5C2); (0x5C4, 0x5C5);
    (0x5C7, 0x5C7); (0x5F4, 0x5F4); (0x600, 0x605); (0x610, 0x61A);
    (0x61C, 0x61C); (0x640, 0x640); (0x64B, 0x65F); (0x670, 0x670);
    (0x6D6, 0x6DD); (0x6DF, 0x6E8); (0x6EA, 0x6ED); (0x70F, 0x70F);
    (0x711, 0x711); (0x730, 0x74A); (0x7A6, 0x7B0); (0x7EB, 0x7F5);
    (0x7FA, 0x7FA); (0x7FD, 0x7FD); (0x816, 0x82D); (0x859, 0x85B);
    (0x888, 0x888); (0x890, 0x891); (0x898, 0x89F); (0x8C9, 0x902);
    (0x93A, 0x93A); (0x93C, 0x93C); (0x941, 0x948); (0x94D, 0x94D);
    (0x951, 0x957); (0x962, 0x963); (0x971, 0x971); (0x981, 0x981);
    (0x9BC, 0x9BC); (0x9C1, 0x9C4); (0x9CD, 0x9CD); (0x9E2, 0x9E3);
    (0x9FE, 0x9FE); (0xA01, 0xA02); (0xA3C, 0xA3C); (0xA41, 0xA42);
    (0xA47, 0xA48); (0xA4B, 0xA4D); (0xA51, 0xA51); (0xA70, 0xA71);
    (0xA75, 0xA75); (0xA81, 0xA82); (0xABC, 0xABC); (0xAC1, 0xAC5);
    (0xAC7, 0xAC8); (0xACD, 0xACD); (0xAE2, 0xAE3); (0xAFA, 0xAFF);
    (0xB01, 0xB01); (0xB3C, 0xB3C); (0xB3F, 0xB3F); (0xB41, 0xB44);
    (0xB4D, 0xB4D); (0xB55, 0xB56); (0xB62, 0xB63); (0xB82, 0xB82);
    (0xBC0, 0xBC0); (0xBCD, 0xBCD); (0xC00, 0xC00); (0xC04, 0xC04);
    (0xC3C, 0xC3C); (0xC3E, 0xC40); (0xC46, 0xC48); (0xC4A, 0xC4D);
    (0xC55, 0xC56); (0xC62, 0xC63); (0xC81, 0xC81); (0xCBC, 0xCBC);
    (0xCBF, 0xCBF); (0xCC6, 0xCC6); (0xCCC, 0xCCD); (0xCE2, 0xCE3);
    (0xD00, 0xD01); (0xD3B, 0xD3C); (0xD41, 0xD44); (0xD4D, 0xD4D);
    (0xD62, 0xD63); (0xD81, 0xD81); (0xDCA, 0xDCA); (0xDD2, 0xDD4);
    (0xDD6, 0xDD6); (0xE31, 0xE31); (0xE34, 0xE3A); (0xE46, 0xE4E);
    (0xEB1, 0xEB1); (0xEB4, 0xEBC); (0xEC6, 0xEC6); (0xEC8, 0xECD);
    (0xF18, 0xF19); (0xF35, 0xF35); (0xF37, 0xF37); (0xF39, 0xF39);
    (0xF71, 0xF7E); (0xF80, 0xF84); (0xF86, 0xF87); (0xF8D, 0xF97);
    (0xF99, 0xFBC); (0xFC6, 0xFC6); (0x102D, 0x1030); (0x1032, 0x1037);
    (0x1039, 0x103A); (0x103D, 0x103E); (0x1058, 0x1059); (0x105E, 0x1060);
    (0x1071, 0x1074); (0x1082, 0x1082); (0x1085, 0x1086); (0x108D, 0x108D);
    (0x109D, 0x109D); (0x10FC, 0x10FC); (0x135D, 0x135F); (0x1712, 0x1714);
    (0x1732, 0x1733); (0x1752, 0x1753); (0x1772, 0x1773); (0x17B4, 0x17B5);
    (0x17B7, 0x17BD); (0x17C6, 0x17C6); (0x17C9, 0x17D3); (0x17D7, 0x17D7);
    (0x17DD, 0x17DD); (0x180B, 0x180F); (0x1843, 0x1843); (0x1885, 0x1886);
    (0x18A9, 0x18A9); (0x1920, 0x1922); (0x1927, 0x1928); (0x1932, 0x1932);
    (0x1939, 0x193B); (0x1A17, 0x1A18); (0x1A1B, 0x1A1B); (0x1A56, 0x1A56);
    (0x1A58, 0x1A5E); (0x1A60, 0x1A60); (0x1A62, 0x1A62); (0x1A65, 0x1A6C);
    (0x1A73, 0x1A7C); (0x1A7F, 0x1A7F); (0x1AA7, 0x1AA7); (0x1AB0, 0x1ACE);
    (0x1B00, 0x1B03); (0x1B34, 0x1B34); (0x1B36, 0x1B3A); (0x1B3C, 0x1B3C);
    (0x1B42, 0x1B42); (0x1B6B, 0x1B73); (0x1B80, 0x1B81); (0x1BA2, 0x1BA5);
    (0x1BA8, 0x1BA9); (0x1BAB, 0x1BAD); (0x1BE6, 0x1BE6); (0x1BE8, 0x1BE9);
    (0x1BED, 0x1BED); (0x1BEF, 0x1BF1); (0x1C2C, 0x1C33); (0x1C36, 0x1C37);
    (0x1C78, 0x1C7D); (0x1CD0, 0x1CD2); (0x1CD4, 0x1CE0); (0x1CE2, 0x1CE8);
    (0x1CED, 0x1CED); (0x1CF4, 0x1CF4); (0x1CF8, 0x1CF9); (0x1D2C, 0x1D6A);
    (0x1D78, 0x1D78); (0x1D9B, 0x1DFF); (0x1FBD, 0x1FBD); (0x1FBF, 0x1FC1);
    (0x1FCD, 0x1FCF); (0x1FDD, 0x1FDF); (0x1FED, 0x1FEF); (0x1FFD, 0x1FFE);
    (0x200B, 0x200F); (0x2018, 0x2019); (0x2024, 0x2024); (0x2027, 0x2027);
    (0x202A, 0x202E); (0x2060, 0x2064); (0x2066, 0x206F); (0x2071, 0x2071);
    (0x207F, 0x207F); (0x2090, 0x209C); (0x20D0, 0x20F0); (0x2C7C, 0x2C7D);
    (0x2CEF, 0x2CF1); (0x2D6F, 0x2D6F); (0x2D7F, 0x2D7F); (0x2DE0, 0x2DFF);
    (0x2E2F, 0x2E2F); (0x3005, 0x3005); (0x302A, 0x302D); (0x3031, 0x3035);
    (0x303B, 0x303B); (0x3099, 0x309E); (0x30FC, 0x30FE); (0xA015, 0xA015);
    (0xA4F8, 0xA4FD); (0xA60C, 0xA60C); (0xA66F, 0xA672); (0xA674, 0xA67D);
    (0xA67F, 0xA67F); (0xA69C, 0xA69F); (0xA6F0, 0xA6F1); (0xA700, 0xA721);
    (0xA770, 0xA770); (0xA788, 0xA78A); (0xA7F2, 0xA7F4); (0xA7F8, 0xA7F9);
    (0xA802, 0xA802); (0xA806, 0xA806); (0xA80B, 0xA80B); (0xA825, 0xA826);
    (0xA82C, 0xA82C); (0xA8C4, 0xA8C5); (0xA8E0, 0xA8F1); (0xA8FF, 0xA8FF);
    (0xA926, 0xA92D); (0xA947, 0xA951); (0xA980, 0xA982); (0xA9B3, 0xA9B3);
    (0xA9B6, 0xA9B9); (0xA9BC, 0xA9BD); (0xA9CF, 0xA9CF); (0xA9E5, 0xA9E6);
    (0xAA29, 0xAA2E); (0xAA31, 0xAA32); (0xAA35, 0xAA36); (0xAA43, 0xAA43);
    (0xAA4C, 0xAA4C); (0xAA70, 0xAA70); (0xAA7C, 0xAA7C); (0xAAB0, 0xAAB0);
    (0xAAB2, 0xAAB4); (0xAAB7, 0xAAB8); (0xAABE, 0xAABF); (0xAAC1, 0xAAC1);
    (0xAADD, 0xAADD); (0xAAEC, 0xAAED); (0xAAF3, 0xAAF4); (0xAAF6, 0xAAF6);
    (0xAB5B, 0xAB5F); (0xAB69, 0xAB6B); (0xABE5, 0xABE5); (0xABE8, 0xABE8);
    (0xABED, 0xABED); (0xFB1E, 0xFB1E); (0xFBB2, 0xFBC2); (0xFE00, 0xFE0F);
    (0xFE13, 0xFE13); (0xFE20, 0xFE2F); (0xFE52, 0xFE52); (0xFE55, 0xFE55);
    (0xFEFF, 0xFEFF); (0xFF07, 0xFF07); (0xFF0E, 0xFF0E); (0xFF1A, 0xFF1A);
    (0xFF3E, 0xFF3E); (0xFF40, 0xFF40); (0xFF70, 0xFF70); (0xFF9E, 0xFF9F);
    (0xFFE3, 0xFFE3); (0xFFF9, 0xFFFB); (0x101FD, 0x101FD);
    (0x102E0, 0x102E0); (0x10376, 0x1037A); (0x10780, 0x10785);
    (0x10787, 0x107B0); (0x107B2, 0x107BA); (0x10A01, 0x10A03);
    (0x10A05, 0x10A06); (0x10A0C, 0x10A0F); (0x10A38, 0x10A3A);
    (0x10A3F, 0x10A3F); (0x10AE5, 0x10AE6); (0x10D24, 0x10D27);
    (0x10EAB, 0x10EAC); (0x10F46, 0x10F50); (0x10F82, 0x10F85);
    (0x11001, 0x11001); (0x11038, 0x11046); (0x11070, 0x11070);
    (0x11073, 0x11074); (0x1107F, 0x11081); (0x110B3, 0x110B6);
    (0x110B9, 0x110BA); (0x110BD, 0x110BD); (0x110C2, 0x110C2);
    (0x110CD, 0x110CD); (0x11100, 0x11102); (0x11127, 0x1112B);
    (0x1112D, 0x11134); (0x11173, 0x11173); (0x11180, 0x11181);
    (0x111B6, 0x111BE); (0x111C9, 0x111CC); (0x111CF, 0x111CF);
    (0x1122F, 0x11231); (0x11234, 0x11234); (0x11236, 0x11237);
    (0x1123E, 0x1123E); (0x112DF, 0x112DF); (0x112E3, 0x112EA);
    (0x11300, 0x11301); (0x1133B, 0x1133C); (0x11340, 0x11340);
    (0x11366, 0x1136C); (0x11370, 0x11374); (0x11438, 0x1143F);
    (0x11442, 0x11444); (0x11446, 0x11446); (0x1145E, 0x1145E);
    (0x114B3, 0x114B8); (0x114BA, 0x114BA); (0x114BF, 0x114C0);
    (0x114C2, 0x114C3); (0x115B2, 0x115B5); (0x115BC, 0x115BD);
    (0x115BF, 0x115C0); (0x115DC, 0x115DD); (0x11633, 0x1163A);
    (0x1163D, 0x1163D); (0x1163F, 0x11640); (0x116AB, 0x116AB);
    (0x116AD, 0x116AD); (0x116B0, 0x116B5); (0x116B7, 0x116B7);
    (0x1171D, 0x1171F); (0x11722, 0x11725); (0x11727, 0x1172B);
    (0x1182F, 0x11837); (0x11839, 0x1183A); (0x1193B, 0x1193C);
    (0x1193E, 0x1193E); (0x11943, 0x11943); (0x119D4, 0x119D7);
    (0x119DA, 0x119DB); (0x119E0, 0x119E0); (0x11A01, 0x11A0A);
    (0x11A33, 0x11A38); (0x11A3B, 0x11A3E); (0x11A47, 0x11A47);
    (0x11A51, 0x11A56); (0x11A59, 0x11A5B); (0x11A8A, 0x11A96);
    (0x11A98, 0x11A99); (0x11C30, 0x11C36); (0x11C38, 0x11C3D);
    (0x11C3F, 0x11C3F); (0x11C92, 0x11CA7); (0x11CAA, 0x11CB0);
    (0x11CB2, 0x11CB3); (0x11CB5, 0x11CB6); (0x11D31, 0x11D36);
    (0x11D3A, 0x11D3A); (0x11D3C, 0x11D3D); (0x11D3F, 0x11D45);
    (0x11D47, 0x11D47); (0x11D90, 0x11D91); (0x11D95, 0x11D95);
    (0x11D97, 0x11D97); (0x11EF3, 0x11EF4); (0x13430, 0x13438);
    (0x16AF0, 0x16AF4); (0x16B30, 0x16B36); (0x16B40, 0x16B43);
    (0x16F4F, 0x16F4F); (0x16F8F, 0x16F9F); (0x16FE0, 0x16FE1);
    (0x16FE3, 0x16FE4); (0x1AFF0, 0x1AFF3); (0x1AFF5, 0x1AFFB);
    (0x1AFFD, 0x1AFFE); (0x1BC9D, 0x1BC9E); (0x1BCA0, 0x1BCA3);
    (0x1CF00, 0x1CF2D); (0x1CF30, 0x1CF46); (0x1D167, 0x1D169);
    (0x1D173, 0x1D182); (0x1D185, 0x1D18B); (0x1D1AA, 0x1D1AD);
    (0x1D242, 0x1D244); (0x1DA00, 0x1DA36); (0x1DA3B, 0x1DA6C);
    (0x1DA75, 0x1DA75); (0x1DA84, 0x1DA84); (0x1DA9B, 0x1DA9F);
    (0x1DAA1, 0x1DAAF); (0x1E000, 0x1E006); (0x1E008, 0x1E018);
    (0x1E01B, 0x1E021); (0x1E023, 0x1E024); (0x1E026, 0x1E02A);
    (0x1E130, 0x1E13D); (0x1E2AE, 0x1E2AE); (0x1E2EC, 0x1E2EF);
    (0x1E8D0, 0x1E8D6); (0x1E944, 0x1E94B); (0x1F3FB, 0x1F3FF);
    (0xE0001, 0xE0001); (0xE0020, 0xE007F); (0xE0100, 0xE01EF)
  ].

Definition cased (cp : Z) : bool := in_ranges CASED cp.
Definition case_ignorable (cp : Z) : bool := in_ranges CASE_IGNORABLE cp.

(** The code points [str.isspace] accepts. *)
Definition WHITE_SPACE : list Z :=
  [
    0x9; 0xA; 0xB; 0xC; 0xD; 0x1C; 0x1D; 0x1E; 0x1F; 0x20; 0x85; 0xA0;
    0x1680; 0x2000; 0x2001; 0x2002; 0x2003; 0x2004; 0x2005; 0x2006; 0x2007;
    0x2008; 0x2009; 0x200A; 0x2028; 0x2029; 0x202F; 0x205F; 0x3000
  ].

Definition white_space (cp : Z) : bool := existsb (Z.eqb cp) WHITE_SPACE.

End Unicode.

(** ** Python strings *)

Module Str.

(** [c.lower()] for a character of one byte: the letters A to Z change. *)
Definition lower_ascii (c : ascii) : ascii :=
  let n := nat_of_ascii c in
  if ((65 <=? n) && (n <=? 90))%nat then ascii_of_nat (n + 32) else c.

(** Leaving out the case-ignorable characters, the first character of [us]
    is cased. *)
Fixpoint next_cased (us : list string) : bool :=
  match us with
  | [] => false
  | u :: rest =>
      if Unicode.case_ignorable (Utf8.code_point u) then next_cased rest
      else Unicode.cased (Utf8.code_point u)
  end.

(** The lowercase of one character; [seen] holds the characters before it,
    the nearest first, and [rest] those after it.  A capital sigma becomes
    the final sigma when a cased character precedes it and none follows,
    case-ignorable characters left out on both sides. *)
Definition lower_unit (seen : list string) (u : string) (rest : list string)
  : string :=
  match u with
  | String a EmptyString => String (lower_ascii a) EmptyString
  | _ =>
      if Utf8.code_point u =? 0x3A3 then
        if next_cased seen && negb (next_cased rest)
        then Utf8.encode 0x3C2 else Utf8.encode 0x3C3
      else
        match Unicode.lowercase (Utf8.code_point u) with
        | Some mapped => Utf8.encode_all mapped
        | None => u
        end
  end.

Fixpoint lower_units (seen us : list string) : string :=
  match us with
  | [] => EmptyString
  | u :: rest => lower_unit seen u rest +:+ lower_units (u :: seen) rest
  end.

(** [s.lower()] *)
Definition lower (s : string) : string := lower_units [] (Utf8.units s).

(** [s.replace(old, new)] for one-character [old] and [new]. *)
Fixpoint replace_char (old new : ascii) (s : string) : string :=
  match s with
  | EmptyString => EmptyString
  | String c s' =>
      String (if Ascii.eqb c old then new else c) (replace_char old new s')
  end.

(** [s.startswith(p)] *)
Definition startswith (s p : string) : bool := String.prefix p s.

(** [needle in hay] on two strings: [needle] occurs as a substring. *)
Fixpoint contains (needle hay : string) : bool :=
  String.prefix needle hay
  || match hay with
     | EmptyString => false
     | String _ hay' => contains needle hay'
     end.

(** Truth value of a string: non-empty. *)
Definition truthy (s : string) : bool :=
  match s with EmptyString => false | _ => true end.

(** [sep.join(parts)] *)
Fixpoint join (sep : string) (parts : list string) : string :=
  match parts with
  | [] => ""
  | [p] => p
  | p :: rest => p +:+ sep +:+ join sep rest
  end.

(** [s[:n]] *)
Definition take (n : nat) (s : string) : string :=
  Utf8.text (firstn n (Utf8.units s)).

(** The character is an ASCII capital letter. *)
Definition is_upper (c : ascii) : bool :=
  let n := nat_of_ascii c in ((65 <=? n) && (n <=? 90))%nat.

(** Some character of [s] satisfies [p]. *)
Fixpoint exists_char (p : ascii -> bool) (s : string) : bool :=
  match s with
  | EmptyString => false
  | String c s' => p c || exists_char p s'
  end.

End Str.

(** ** Python objects *)

(** Values of the JSON-like fragment of Python the agent manipulates.
    [VFloat num scale] is the decimal literal [num / 10^scale]. *)
#[local] Set Warnings "-register-all".
Inductive value : Type :=
| VNone
| VBool (b : bool)
| VInt (n : Z)
| VFloat (num : Z) (scale : nat)
| VStr (s : string)
| VList (items : list value)
| VDict (entries : list (string * value)).

Abbreviation dict := (list (string * value)).

(** Exceptions the modelled code can raise. *)
Inductive exn : Type :=
| KeyError (key : string)
| TypeError
| AttributeError
| ValidationError
| HTTPStatusError (status_code : Z) (text : string)
| RequestError (msg : string)
| OtherError (msg : string).

Inductive result (A : Type) : Type :=
| Ok (a : A)
| Raise (e : exn).
Arguments Ok {A} a.
Arguments Raise {A} e.

Definition bind {A B} (r : result A) (k : A -> result B) : result B :=
  match r with
  | Ok a => k a
  | Raise e => Raise e
  end.

Notation "'let*' x ':=' r 'in' k" := (bind r (fun x => k))
  (at level 10, x name, r at level 100, k at level 200).

Module Py.

(** Truth value of an object, as [if obj:] tests it. *)
Definition truthy (v : value) : bool :=
  match v with
  | VNone => false
  | VBool b => b
  | VInt n => negb (n =? 0)
  | VFloat num _ => negb (num =? 0)
  | VStr s => Str.truthy s
  | VList items => match items with [] => false | _ => true end
  | VDict entries => match entries with [] => false | _ => true end
  end.

(** [a or b] *)
Definition or_ (a b : value) : value := if truthy a then a else b.

(** The entry of key [k], first match. *)
Fixpoint lookup {A} (d : list (string * A)) (k : string) : option A :=
  match d with
  | [] => None
  | (k', v) :: d' => if String.eqb k' k then Some v else lookup d' k
  end.

(** [k in d] for a dict [d] *)
Definition mem {A} (k : string) (d : list (string * A)) : bool :=
  match lookup d k with Some _ => true | None => false end.

(** [d.keys()] *)
Definition keys {A} (d : list (string * A)) : list string := map fst d.

(** [d[k]] for a dict [d] *)
Definition getitem {A} (d : list (string * A)) (k : string) : result A :=
  match lookup d k with
  | Some v => Ok v
  | None => Raise (KeyError k)
  end.

(** [d.get(k)] *)
Definition get (d : dict) (k : string) : value :=
  match lookup d k with Some v => v | None => VNone end.

(** [d.get(k, default)] *)
Definition get_default (d : dict) (k : string) (default : value) : value :=
  match lookup d k with Some v => v | None => default end.

(** [k in obj] for an arbitrary object and a string [k]. *)
Definition contains (k : string) (obj : value) : result bool :=
  match obj with
  | VDict entries => Ok (mem k entries)
  | VList items =>
      Ok (existsb (fun it => match it with
                             | VStr s => String.eqb s k
                             | _ => false
                             end) items)
  | VStr s => Ok (Str.contains k s)
  | _ => Raise TypeError
  end.

(** [obj[k]] for an arbitrary object and a string [k]. *)
Definition subscript (obj : value) (k : string) : result value :=
  match obj with
  | VDict entries => getitem entries k
  | _ => Raise TypeError
  end.

(** [sep.join(obj)] for an object expected to be a list of strings. *)
Fixpoint strings_of (items : list value) : result (list string) :=
  match items with
  | [] => Ok []
  | VStr s :: rest => let* ss := strings_of rest in Ok (s :: ss)
  | _ :: _ => Raise TypeError
  end.

Definition join (sep : string) (obj : value) : result string :=
  match obj with
  | VList items => let* ss := strings_of items in Ok (Str.join sep ss)
  | VStr s => Ok (Str.join sep (map (fun c => String c "") (list_ascii_of_string s)))
  | VDict entries => Ok (Str.join sep (keys entries))
  | _ => Raise TypeError
  end.

End Py.

(** ** models.py *)

Record VerifiableDataRequest : Type := {
  req_session_id : string;
  data_type : string;
  identifier : string;
  query_details : option string
}.

Record VerifiableDataResponse : Type := {
  session_id : string;
  request_data_type : string;
  request_identifier : string;
  source_description : option string;
  timestamp : option string;
  data_payload : option dict;
  verification_summary : option string;
  error_message : option string
}.

Record ErrorMessage : Type := {
  err_session_id : string;
  error : string
}.

(** The chat protocol's messages (uagents_core.contrib.protocols.chat). *)
Inductive content_item : Type :=
| TextContent (text : string)
| StartSessionContent
| EndSessionContent.

Record ChatMessage : Type := {
  chat_timestamp : Z;
  msg_id : string;
  content : list content_item
}.

Record ChatAcknowledgement : Type := {
  ack_timestamp : Z;
  acknowledged_msg_id : string
}.

(** Whatever an agent handler can be handed or can send. *)
Inductive message : Type :=
| MsgRequest (r : VerifiableDataRequest)
| MsgResponse (r : VerifiableDataResponse)
| MsgError (e : ErrorMessage)
| MsgChat (m : ChatMessage)
| MsgAck (a : ChatAcknowledgement).

(** ** What the sources take from their libraries

    The digest, the base-32 encoder and Python's rendering of objects and
    exceptions as text are library code.  [render_report] stands for the
    report renderers of [format_response_for_chat] (the part of the function
    after its error guard: date formatting and the five per-type layouts);
    they raise on some payloads, as [float(price)] does with [TypeError] on
    a price that is a list. *)
Class Runtime : Type := {
  (** [hashlib.sha256(json.dumps(record).encode()).hexdigest()] *)
  sha256_hexdigest : dict -> string;
  (** [base64.b32encode(s.encode()).decode()] *)
  b32encode : string -> string;
  (** [str(obj)] for an object that is not a string *)
  repr_value : value -> string;
  (** [str(e)] for a raised exception *)
  str_exn : exn -> string;
  (** [str(m)] and [str(type(m))] for a message model *)
  repr_message : message -> string;
  repr_type : message -> string;
  (** the report layouts of [format_response_for_chat] *)
  render_report : VerifiableDataResponse -> result string
}.

(** An object interpolated in an f-string. *)
Definition fstr `{Runtime} (v : value) : string :=
  match v with
  | VStr s => s
  | _ => repr_value v
  end.

(** ** The module-level caches *)

(** One entry [{"data": ..., "cached_at": ...}]; [cached_at] is a
    [datetime.utcnow()] reading in microseconds. *)
Record cache_entry : Type := {
  data : dict;
  cached_at : Z
}.

Definition CACHE_EXPIRY_SECONDS : Z := 300.

(** [delta.total_seconds() < secs] for a [timedelta] of [delta_us]
    microseconds. *)
Definition total_seconds_lt (delta_us secs : Z) : bool :=
  delta_us <? secs * 1000000.

(** The readings of [datetime.utcnow()] one request takes: the one the
    router renders with [isoformat()], the one compared with [cached_at], and
    the one stored with a new entry. *)
Record clock : Type := {
  utcnow_iso : string;
  now_read : Z;
  now_write : Z
}.

(** [key in cache and (utcnow() - cache[key]["cached_at"]).total_seconds()
    < CACHE_EXPIRY_SECONDS] *)
Definition cache_fresh (cache : gmap string cache_entry) (key : string)
    (clk : clock) : bool :=
  match cache !! key with
  | Some e => total_seconds_lt (now_read clk - cached_at e) CACHE_EXPIRY_SECONDS
  | None => false
  end.

(** Truth value of a variable that holds [None] or a record. *)
Definition record_truthy (r : option dict) : bool :=
  match r with
  | Some (_ :: _) => true
  | _ => false
  end.


(** ** education_credentials.py *)

Module EducationCredentials.

Definition simulated_credentials : list (string * dict) :=
  [ ("john_smith",
        [ ("name", VStr "John Smith");
          ("credentials",
            VList
              [ VDict
                [ ("type", VStr "Degree");
                  ("name", VStr "Bachelor of Science in Computer Science");
                  ("issuer", VStr "Stanford University");
                  ("issueDate", VStr "2020-06-15");
                  ("verificationStatus", VStr "VERIFIED");
                  ("did", VStr "did:example:123456789abcdefghi");
                  ("proofMethod", VStr "BBS+ Signatures") ] ]) ]);
    ("jane_doe",
        [ ("name", VStr "Jane Doe");
          ("credentials",
            VList
              [ VDict
                [ ("type", VStr "Certificate");
                  ("name", VStr "Blockchain Developer Certification");
                  ("issuer", VStr "Fetch.ai Academy");
                  ("issueDate", VStr "2023-02-10");
                  ("verificationStatus", VStr "VERIFIED");
                  ("did", VStr "did:example:987654321zyxwvuts");
                  ("proofMethod", VStr "Ed25519 Signature") ];
                VDict
                [ ("type", VStr "Degree");
                  ("name", VStr "Master of Engineering");
                  ("issuer", VStr "MIT");
                  ("issueDate", VStr "2021-05-20");
                  ("verificationStatus", VStr "VERIFIED");
                  ("did", VStr "did:example:abcdef123456789");
                  ("proofMethod", VStr "ECDSA Signature") ] ]) ]);
    ("alex_chen",
        [ ("name", VStr "Alex Chen");
          ("credentials",
            VList
              [ VDict
                [ ("type", VStr "Certification");
                  ("name", VStr "Fetch.ai Certified Agent Developer");
                  ("issuer", VStr "Fetch.ai Foundation");
                  ("issueDate", VStr "2023-11-05");
                  ("verificationStatus", VStr "VERIFIED");
                  ("did", VStr "did:example:fetchai12345");
                  ("proofMethod", VStr "Secp256k1 Signature") ] ]) ]) ].
(** The cache block of [fetch_education_credential]: the record for
    [identifier], from [education_cache] when its entry is fresh, from
    [credentials] otherwise. *)
Definition cached_credential (credentials : list (string * dict))
    (identifier : string) (clk : clock)
    (education_cache : gmap string cache_entry)
  : option dict * gmap string cache_entry :=
  let cache_key := "education_" +:+ identifier in
  let recompute :=
    match Py.lookup credentials identifier with
    | Some edu_data =>
        (Some edu_data,
         <[cache_key := {| data := edu_data; cached_at := now_write clk |}]>
           education_cache)
    | None => (None, education_cache)
    end in
  match education_cache !! cache_key with
  | Some entry =>
      if cache_fresh education_cache cache_key clk
      then (Some (data entry), education_cache)
      else recompute
  | None => recompute
  end.

Definition fetch_education_credential `{Runtime} (identifier : string)
    (query_details : option string) (timestamp : string) (clk : clock)
    (education_cache : gmap string cache_entry)
  : gmap string cache_entry * result dict :=
  let '(edu_data, education_cache) :=
    cached_credential simulated_credentials identifier clk education_cache in
  if record_truthy edu_data then
    let edu_data := default [] edu_data in
    let verification_hash := sha256_hexdigest edu_data in
    (education_cache,
     let* name := Py.getitem edu_data "name" in
     let* credentials := Py.getitem edu_data "credentials" in
     Ok [ ("request_data_type", VStr "education_credential");
          ("request_identifier", VStr identifier);
          ("source_description",
            VStr "Verifiable Credentials System (Decentralized Identity Network)");
          ("data_payload",
            VDict
              [ ("profile",
                  VDict
                    [ ("name", name);
                      ("identifierDid",
                        VStr ("did:fetch:"
                              +:+ Str.lower (Str.take 16 (b32encode identifier)))) ]);
                ("credentials", credentials);
                ("verificationProof", VStr verification_hash) ]);
          ("verification_summary",
            VStr "Credentials verified using decentralized identity protocols. Digital signatures validated against issuer DIDs.");
          ("timestamp", VStr timestamp) ])
  else
    (education_cache,
     Ok [ ("request_data_type", VStr "education_credential");
          ("request_identifier", VStr identifier);
          ("source_description", VStr "Verifiable Credentials System");
          ("data_payload", VDict []);
          ("verification_summary",
            VStr "No verified credentials found for this identifier.");
          ("timestamp", VStr timestamp);
          ("error_message",
            VStr ("No education credentials found for identifier '"
                  +:+ identifier +:+ "'.")) ]).

End EducationCredentials.

(** ** supply_chain.py *)

Module SupplyChain.

Definition simulated_supply_chains : list (string * dict) :=
  [ ("costa_rica_coffee",
        [ ("name", VStr "Organic Fair Trade Coffee");
          ("manufacturer", VStr "Ethical Beans Co.");
          ("chain",
            VList
              [ VDict
                [ ("stage", VStr "Harvesting");
                  ("location", VStr "Costa Rica");
                  ("timestamp", VStr "2023-09-15T08:30:00Z");
                  ("verificationMethod", VStr "IoT Sensors + Blockchain");
                  ("verifier", VStr "AgriVerify DAO") ];
                VDict
                [ ("stage", VStr "Processing");
                  ("location", VStr "San Jose, Costa Rica");
                  ("timestamp", VStr "2023-09-20T14:20:00Z");
                  ("verificationMethod",
                    VStr "QR Code Scanning + Agent Verification");
                  ("verifier", VStr "SupplyTrust Network") ];
                VDict
                [ ("stage", VStr "Shipping");
                  ("location", VStr "Atlantic Ocean");
                  ("timestamp", VStr "2023-10-05T10:15:00Z");
                  ("verificationMethod",
                    VStr "GPS Tracking + Temperature Sensors");
                  ("verifier", VStr "ShipChain Collective") ];
                VDict
                [ ("stage", VStr "Distribution Center");
                  ("location", VStr "Miami, FL, USA");
                  ("timestamp", VStr "2023-10-15T16:40:00Z");
                  ("verificationMethod",
                    VStr "RFID + Blockchain Verification");
                  ("verifier", VStr "DistributionTrust Inc.") ] ]);
          ("certifications",
            VList
              [ VStr "Fair Trade";
                VStr "Organic";
                VStr "Rainforest Alliance" ]);
          ("carbonFootprint", VStr "2.3kg CO2e (verified)");
          ("blockchainRecords",
            VStr "fetch://supplychain/costa_rica_coffee") ]);
    ("ecophone_x1",
        [ ("name", VStr "EcoPhone X1");
          ("manufacturer", VStr "GreenTech Electronics");
          ("chain",
            VList
              [ VDict
                [ ("stage", VStr "Component Sourcing");
                  ("location", VStr "Multiple (see detailed report)");
                  ("timestamp", VStr "2023-08-10T09:00:00Z");
                  ("verificationMethod",
                    VStr "Supplier Attestations + Audits");
                  ("verifier", VStr "ComponentVerify Network") ];
                VDict
                [ ("stage", VStr "Assembly");
                  ("location", VStr "Vietnam");
                  ("timestamp", VStr "2023-08-25T13:45:00Z");
                  ("verificationMethod",
                    VStr "Manufacturing Process Verification");
                  ("verifier", VStr "ProductIntegrity DAO") ];
                VDict
                [ ("stage", VStr "Quality Control");
                  ("location", VStr "Vietnam");
                  ("timestamp", VStr "2023-08-27T10:30:00Z");
                  ("verificationMethod",
                    VStr "Automated Testing + Human Verification");
                  ("verifier", VStr "QualityChain Network") ];
                VDict
                [ ("stage", VStr "Distribution");
                  ("location", VStr "Global Distribution Network");
                  ("timestamp", VStr "2023-09-10T08:20:00Z");
                  ("verificationMethod",
                    VStr "Logistics Tracking + Blockchain");
                  ("verifier", VStr "LogisticsVerify Alliance") ] ]);
          ("certifications",
            VList
              [ VStr "Fair Labor";
                VStr "Sustainable Electronics";
                VStr "Conflict-Free Minerals" ]);
          ("carbonFootprint", VStr "18.5kg CO2e (verified)");
          ("blockchainRecords", VStr "fetch://supplychain/ecophone_x1") ]) ].
(** The cache block of [fetch_supply_chain_status]. *)
Definition cached_supply_chain (supply_chains : list (string * dict))
    (identifier : string) (clk : clock)
    (supply_chain_cache : gmap string cache_entry)
  : option dict * gmap string cache_entry :=
  let cache_key := "supply_chain_" +:+ identifier in
  let recompute :=
    match Py.lookup supply_chains identifier with
    | Some supply_data =>
        (Some supply_data,
         <[cache_key := {| data := supply_data; cached_at := now_write clk |}]>
           supply_chain_cache)
    | None => (None, supply_chain_cache)
    end in
  match supply_chain_cache !! cache_key with
  | Some entry =>
      if cache_fresh supply_chain_cache cache_key clk
      then (Some (data entry), supply_chain_cache)
      else recompute
  | None => recompute
  end.

Definition fetch_supply_chain_status `{Runtime} (identifier : string)
    (query_details : option string) (timestamp : string) (clk : clock)
    (supply_chain_cache : gmap string cache_entry)
  : gmap string cache_entry * result dict :=
  let '(supply_data, supply_chain_cache) :=
    cached_supply_chain simulated_supply_chains identifier clk
      supply_chain_cache in
  if record_truthy supply_data then
    let supply_data := default [] supply_data in
    let verification_hash := sha256_hexdigest supply_data in
    (supply_chain_cache,
     let* name := Py.getitem supply_data "name" in
     let* manufacturer := Py.getitem supply_data "manufacturer" in
     let* chain := Py.getitem supply_data "chain" in
     let* certifications := Py.getitem supply_data "certifications" in
     let* carbonFootprint := Py.getitem supply_data "carbonFootprint" in
     let* blockchainRecords := Py.getitem supply_data "blockchainRecords" in
     Ok [ ("request_data_type", VStr "supply_chain_status");
          ("request_identifier", VStr identifier);
          ("source_description",
            VStr "Distributed Supply Chain Verification Network");
          ("data_payload",
            VDict
              [ ("product",
                  VDict [ ("name", name); ("manufacturer", manufacturer) ]);
                ("supplyChain", chain);
                ("certifications", certifications);
                ("sustainability",
                  VDict [ ("carbonFootprint", carbonFootprint) ]);
                ("verificationProof",
                  VDict
                    [ ("method",
                        VStr "Decentralized Ledger + Agent Consensus");
                      ("hash", VStr verification_hash);
                      ("blockchainReference", blockchainRecords) ]) ]);
          ("verification_summary",
            VStr "Supply chain data verified through multiple attestation methods including IoT sensors, RFID tracking, and blockchain verification by independent verifier networks.");
          ("timestamp", VStr timestamp) ])
  else
    (supply_chain_cache,
     Ok [ ("request_data_type", VStr "supply_chain_status");
          ("request_identifier", VStr identifier);
          ("source_description", VStr "Supply Chain Verification Network");
          ("data_payload", VDict []);
          ("verification_summary",
            VStr "No supply chain data found for this product identifier.");
          ("timestamp", VStr timestamp);
          ("error_message",
            VStr ("No supply chain information found for product identifier '"
                  +:+ identifier +:+ "'.")) ]).

End SupplyChain.

(** ** carbon_footprint.py *)

Module CarbonFootprint.

Definition normalize_carbon_identifier (identifier : string) : string :=
  if negb (Str.truthy identifier) then identifier
  else Str.lower identifier.

Definition simulated_carbon_data : list (string * list (string * dict)) :=
  [ ("product",
        [ ("macbook_pro",
              [ ("name", VStr "EcoBook Pro 2023");
                ("manufacturer", VStr "GreenTech Inc.");
                ("totalFootprint", VFloat 1853 1);
                ("footprintBreakdown",
                  VDict
                    [ ("manufacturing", VFloat 1428 1);
                      ("transportation", VFloat 125 1);
                      ("usage", VFloat 300 1);
                      ("endOfLife", VFloat 0 1) ]);
                ("certifications",
                  VList
                    [ VStr "Carbon Trust";
                      VStr "Energy Star";
                      VStr "EPEAT Gold" ]);
                ("methodology", VStr "ISO 14067 / GHG Protocol");
                ("verificationBody", VStr "ClimateVerify Alliance");
                ("verificationDate", VStr "2023-07-15") ]);
          ("sustainable_blend",
              [ ("name", VStr "Sustainable Blend Coffee");
                ("manufacturer", VStr "EcoBeans Co.");
                ("totalFootprint", VFloat 15 2);
                ("footprintBreakdown",
                  VDict
                    [ ("farming", VFloat 5 2);
                      ("processing", VFloat 3 2);
                      ("packaging", VFloat 2 2);
                      ("transportation", VFloat 4 2);
                      ("preparation", VFloat 1 2) ]);
                ("offsetting",
                  VStr "100% offset through verified reforestation projects");
                ("certifications",
                  VList
                    [ VStr "Rainforest Alliance";
                      VStr "Carbon Neutral Product" ]);
                ("methodology", VStr "PAS 2050");
                ("verificationBody", VStr "GreenCertify DAO");
                ("verificationDate", VStr "2023-08-10") ]) ]);
    ("company",
        [ ("greencorp",
              [ ("name", VStr "GreenCorp Technologies");
                ("industry", VStr "Technology");
                ("totalEmissions", VFloat 125000 1);
                ("emissionsBreakdown",
                  VDict
                    [ ("scope1", VFloat 20000 1);
                      ("scope2", VFloat 80000 1);
                      ("scope3", VFloat 25000 1) ]);
                ("reductionTarget", VStr "50% by 2030, Net Zero by 2040");
                ("verificationStandard",
                  VStr "GHG Protocol Corporate Standard");
                ("verifier", VStr "ClimateAccounting Consortium");
                ("verificationDate", VStr "2023-04-20") ]);
          ("fashion_forward",
              [ ("name", VStr "FashionX Sustainable Apparel");
                ("industry", VStr "Fashion");
                ("totalEmissions", VFloat 187000 1);
                ("emissionsBreakdown",
                  VDict
                    [ ("scope1", VFloat 12000 1);
                      ("scope2", VFloat 45000 1);
                      ("scope3", VFloat 130000 1) ]);
                ("reductionActions",
                  VList
                    [ VStr "100% renewable energy in owned facilities";
                      VStr "Sustainable materials sourcing";
                      VStr "Supply chain optimization" ]);
                ("reductionTarget", VStr "Net Zero by 2035");
                ("verificationStandard",
                  VStr "Science Based Targets initiative (SBTi)");
                ("verifier", VStr "SustainableVerify Network");
                ("verificationDate", VStr "2023-03-15") ]) ]);
    ("activity",
        [ ("london_nyc_flight",
              [ ("type", VStr "Flight");
                ("route", VStr "London to New York (economy)");
                ("distance", VInt 5585);
                ("footprint", VFloat 9860 1);
                ("calculationMethod", VStr "DEFRA 2023 emission factors");
                ("verifier", VStr "TravelImpact Verifiers");
                ("offsetOptions",
                  VList
                    [ VDict
                      [ ("project", VStr "Wind Energy India");
                        ("cost", VStr "€12.50") ];
                      VDict
                      [ ("project", VStr "Reforestation Brazil");
                        ("cost", VStr "€15.75") ] ]) ]);
          ("california_electricity",
              [ ("type", VStr "Electricity Consumption");
                ("location", VStr "California, USA");
                ("amount", VInt 1000);
                ("footprint", VFloat 2100 1);
                ("gridMix",
                  VDict
                    [ ("renewable", VFloat 330 1);
                      ("natural_gas", VFloat 400 1);
                      ("nuclear", VFloat 150 1);
                      ("coal", VFloat 100 1);
                      ("other", VFloat 20 1) ]);
                ("calculationMethod", VStr "eGRID 2022 (location-based)");
                ("verifier", VStr "GridImpact Alliance");
                ("verificationDate", VStr "2023-02-10") ]) ]) ].
(** The scope [query_details] asks for, if any. *)
Definition requested_scope_of (query_details : option string)
  : option string :=
  match query_details with
  | Some details =>
      if Str.truthy details then
        if Str.contains "scope=company" details then Some "company"
        else if Str.contains "scope=product" details then Some "product"
        else if Str.contains "scope=activity" details then Some "activity"
        else None
      else None
  | None => None
  end.

(** [normalized_identifier in carbon_data[scope]] *)
Definition in_scope (carbon_data : list (string * list (string * dict)))
    (scope normalized_identifier : string) : result bool :=
  let* records := Py.getitem carbon_data scope in
  Ok (Py.mem normalized_identifier records).

(** The [for scope in [...]] loop with its [break]: the first scope of
    [scopes] whose records contain the identifier. *)
Fixpoint detect_scope (carbon_data : list (string * list (string * dict)))
    (scopes : list string) (normalized_identifier : string)
  : result (option string) :=
  match scopes with
  | [] => Ok None
  | scope :: rest =>
      let* found := in_scope carbon_data scope normalized_identifier in
      if found then Ok (Some scope)
      else detect_scope carbon_data rest normalized_identifier
  end.

Definition SCOPES : list string := ["product"; "company"; "activity"].

(** The three variables the resolution leaves behind. *)
Record resolution : Type := {
  requested_scope : option string;
  detected_scope : option string;
  data_scope : string
}.

(** Lines 134-162: the requested scope, the detected scope and the scope
    finally used. *)
Definition resolve_scope (carbon_data : list (string * list (string * dict)))
    (query_details : option string) (normalized_identifier : string)
  : result resolution :=
  let requested := requested_scope_of query_details in
  let* detected := detect_scope carbon_data SCOPES normalized_identifier in
  let fallback :=
    match detected with
    | Some scope => scope
    | None => "product"
    end in
  match requested with
  | Some scope =>
      let* present := in_scope carbon_data scope normalized_identifier in
      Ok {| requested_scope := requested;
            detected_scope := detected;
            data_scope := if present then scope else fallback |}
  | None =>
      Ok {| requested_scope := requested;
            detected_scope := detected;
            data_scope := fallback |}
  end.

(** [f"carbon_{data_scope}_{normalized_identifier}"] *)
Definition carbon_cache_key (data_scope normalized_identifier : string)
  : string :=
  "carbon_" +:+ data_scope +:+ "_" +:+ normalized_identifier.

(** Lines 164-180, the cache block: the record for the resolved key, from
    [carbon_footprint_cache] when its entry is fresh, from [carbon_data]
    otherwise. *)
Definition cached_carbon_data
    (carbon_data : list (string * list (string * dict)))
    (data_scope normalized_identifier : string) (clk : clock)
    (carbon_footprint_cache : gmap string cache_entry)
  : result (option dict) * gmap string cache_entry :=
  let cache_key := carbon_cache_key data_scope normalized_identifier in
  let recompute :=
    match Py.getitem carbon_data data_scope with
    | Raise e => (Raise e, carbon_footprint_cache)
    | Ok records =>
        match Py.lookup records normalized_identifier with
        | Some record =>
            (Ok (Some record),
             <[cache_key := {| data := record; cached_at := now_write clk |}]>
               carbon_footprint_cache)
        | None => (Ok None, carbon_footprint_cache)
        end
    end in
  match carbon_footprint_cache !! cache_key with
  | Some entry =>
      if cache_fresh carbon_footprint_cache cache_key clk
      then (Ok (Some (data entry)), carbon_footprint_cache)
      else recompute
  | None => recompute
  end.

(** The payload of a successful answer, by scope. *)
Definition carbon_payload `{Runtime} (data_scope : string)
    (carbon_data : dict) (timestamp : string) : result dict :=
  let verification_proof :=
    VDict [ ("method", VStr "Multi-Attestation Protocol");
            ("hash", VStr (sha256_hexdigest carbon_data));
            ("timestamp", VStr timestamp) ] in
  if String.eqb data_scope "product" then
    let* name := Py.getitem carbon_data "name" in
    let* manufacturer := Py.getitem carbon_data "manufacturer" in
    let* totalFootprint := Py.getitem carbon_data "totalFootprint" in
    let* footprintBreakdown := Py.getitem carbon_data "footprintBreakdown" in
    Ok [ ("productInfo",
           VDict [ ("name", name); ("manufacturer", manufacturer) ]);
         ("carbonFootprint",
           VDict [ ("total", totalFootprint);
                   ("unit", VStr "kg CO2e");
                   ("breakdown", footprintBreakdown) ]);
         ("certifications",
           Py.get_default carbon_data "certifications" (VList []));
         ("verification",
           VDict
             [ ("methodology", Py.get_default carbon_data "methodology" (VStr ""));
               ("verifier", Py.get_default carbon_data "verificationBody" (VStr ""));
               ("date", Py.get_default carbon_data "verificationDate" (VStr ""));
               ("proof", verification_proof) ]) ]
  else if String.eqb data_scope "company" then
    let* name := Py.getitem carbon_data "name" in
    let* industry := Py.getitem carbon_data "industry" in
    let* totalEmissions := Py.getitem carbon_data "totalEmissions" in
    let* emissionsBreakdown := Py.getitem carbon_data "emissionsBreakdown" in
    Ok [ ("companyInfo",
           VDict [ ("name", name); ("industry", industry) ]);
         ("emissions",
           VDict [ ("total", totalEmissions);
                   ("unit", VStr "metric tons CO2e");
                   ("breakdown", emissionsBreakdown) ]);
         ("targets", Py.get_default carbon_data "reductionTarget" (VStr ""));
         ("verification",
           VDict
             [ ("standard",
                 Py.get_default carbon_data "verificationStandard" (VStr ""));
               ("verifier", Py.get_default carbon_data "verifier" (VStr ""));
               ("date", Py.get_default carbon_data "verificationDate" (VStr ""));
               ("proof", verification_proof) ]) ]
  else
    let* type := Py.getitem carbon_data "type" in
    let* footprint := Py.getitem carbon_data "footprint" in
    Ok [ ("activityInfo",
           VDict
             [ ("type", type);
               ("details",
                 Py.or_ (Py.get_default carbon_data "route" (VStr ""))
                        (Py.get_default carbon_data "location" (VStr ""))) ]);
         ("carbonFootprint",
           VDict [ ("total", footprint);
                   ("unit", VStr "kg CO2e");
                   ("distance", Py.get_default carbon_data "distance" VNone);
                   ("amount", Py.get_default carbon_data "amount" VNone) ]);
         ("methodology",
           Py.get_default carbon_data "calculationMethod" (VStr ""));
         ("verification",
           VDict
             [ ("verifier", Py.get_default carbon_data "verifier" (VStr ""));
               ("date", Py.get_default carbon_data "verificationDate" (VStr ""));
               ("proof", verification_proof) ]) ].

(** The error message of a failed answer, lines 258-266. *)
Definition carbon_error_message (r : resolution) (identifier : string)
  : string :=
  match requested_scope r with
  | Some requested =>
      "No carbon footprint information found for " +:+ requested
      +:+ " identifier '" +:+ identifier +:+ "'."
  | None =>
      match detected_scope r with
      | None =>
          "No carbon footprint information found for identifier '"
          +:+ identifier +:+ "' in any scope ("
          +:+ Str.join ", " ["product"; "company"; "activity"] +:+ ")."
      | Some detected =>
          "Error retrieving carbon footprint information for " +:+ detected
          +:+ " '" +:+ identifier +:+ "'."
      end
  end.

Definition fetch_carbon_footprint `{Runtime} (identifier : string)
    (query_details : option string) (timestamp : string) (clk : clock)
    (carbon_footprint_cache : gmap string cache_entry)
  : gmap string cache_entry * result dict :=
  let normalized_identifier := normalize_carbon_identifier identifier in
  match resolve_scope simulated_carbon_data query_details
          normalized_identifier with
  | Raise e => (carbon_footprint_cache, Raise e)
  | Ok r =>
      match cached_carbon_data simulated_carbon_data (data_scope r)
              normalized_identifier clk carbon_footprint_cache with
      | (Raise e, carbon_footprint_cache) => (carbon_footprint_cache, Raise e)
      | (Ok carbon_data, carbon_footprint_cache) =>
          if record_truthy carbon_data then
            let carbon_data := default [] carbon_data in
            (carbon_footprint_cache,
             let* data_payload :=
               carbon_payload (data_scope r) carbon_data timestamp in
             Ok [ ("request_data_type", VStr "carbon_footprint");
                  ("request_identifier", VStr identifier);
                  ("source_description",
                    VStr "Verified Carbon Accounting Network");
                  ("data_payload", VDict data_payload);
                  ("verification_summary",
                    VStr ("Carbon footprint data verified following "
                          +:+ fstr (Py.get_default carbon_data "methodology"
                                     (Py.get_default carbon_data
                                        "verificationStandard"
                                        (VStr "international standards")))
                          +:+ " by "
                          +:+ fstr (Py.get_default carbon_data "verificationBody"
                                     (Py.get_default carbon_data "verifier"
                                        (VStr "accredited verifier")))
                          +:+ "."));
                  ("timestamp", VStr timestamp) ])
          else
            (carbon_footprint_cache,
             Ok [ ("request_data_type", VStr "carbon_footprint");
                  ("request_identifier", VStr identifier);
                  ("source_description",
                    VStr "Carbon Footprint Verification Network");
                  ("data_payload", VDict []);
                  ("verification_summary",
                    VStr "No carbon footprint data found.");
                  ("timestamp", VStr timestamp);
                  ("error_message",
                    VStr (carbon_error_message r identifier)) ])
      end
  end.

End CarbonFootprint.

(** ** reputation_score.py *)

Module ReputationScore.

Definition name_mappings : list (string * string) :=
  [ ("decentragov_dao", "decentra_dao");
    ("decentragov", "decentra_dao");
    ("decentra_gov_dao", "decentra_dao");
    ("decentrag_dao", "decentra_dao");
    ("alex_rodriguez", "alex_developer");
    ("alex", "alex_developer");
    ("rodriguez", "alex_developer") ].
Definition normalize_reputation_identifier (identifier : string) : string :=
  if negb (Str.truthy identifier) then identifier
  else
    let identifier := Str.lower identifier in
    match Py.lookup name_mappings identifier with
    | Some mapped => mapped
    | None => identifier
    end.

Definition simulated_reputation_data : list (string * list (string * dict)) :=
  [ ("alex_developer",
        [ ("general",
              [ ("name", VStr "Alex Rodriguez");
                ("did", VStr "did:fetch:alex_developer");
                ("overallScore", VInt 92);
                ("activeScoreProof",
                  VStr "bafybeigdyrzt5sfp7udm7hu76uh7y26nf3efuylqabf3oclgtqy55fbzdi");
                ("contributionStats",
                  VDict
                    [ ("totalContributions", VInt 215);
                      ("projectsContributed", VInt 12);
                      ("firstContribution", VStr "2021-02-18") ]);
                ("reputationBreakdown",
                  VDict
                    [ ("codeQuality", VInt 95);
                      ("projectCompletion", VInt 90);
                      ("communityEngagement", VInt 88);
                      ("documentation", VInt 85) ]);
                ("topSkills",
                  VList
                    [ VStr "Rust";
                      VStr "Smart Contracts";
                      VStr "Agent Development" ]);
                ("verificationMethod", VStr "Multi-Source Attestation");
                ("attesters",
                  VList
                    [ VStr "GitHub";
                      VStr "Fetch.ai Network";
                      VStr "DevDAO" ]) ]);
          ("developer",
              [ ("name", VStr "Alex Rodriguez");
                ("did", VStr "did:fetch:alex_developer");
                ("developerScore", VInt 95);
                ("codeStats",
                  VDict
                    [ ("repositories", VInt 32);
                      ("pullRequests", VInt 287);
                      ("codeReviews", VInt 342);
                      ("issuesClosed", VInt 156) ]);
                ("languages",
                  VList
                    [ VDict
                      [ ("name", VStr "Rust");
                        ("proficiency", VInt 98) ];
                      VDict
                      [ ("name", VStr "Python");
                        ("proficiency", VInt 92) ];
                      VDict
                      [ ("name", VStr "Solidity");
                        ("proficiency", VInt 88) ] ]);
                ("significantProjects",
                  VList
                    [ VDict
                      [ ("name", VStr "Agent Framework Extension");
                        ("role", VStr "Lead Developer");
                        ("impact", VStr "High") ];
                      VDict
                      [ ("name", VStr "Smart Contract Auditing Tool");
                        ("role", VStr "Contributor");
                        ("impact", VStr "Medium") ] ]);
                ("verificationMethod",
                  VStr "Code Repository Analysis + Peer Attestation");
                ("attesters",
                  VList
                    [ VStr "GitHub";
                      VStr "GitLab";
                      VStr "Code Review DAO" ]) ]) ]);
    ("decentra_dao",
        [ ("general",
              [ ("name", VStr "DecentraGov DAO");
                ("did", VStr "did:fetch:decentra_dao");
                ("overallScore", VInt 89);
                ("activeScoreProof",
                  VStr "bafybeihkqhjuk6bnlr6xmqkxheh4oewvqllzwgv3vdgdsfyqgd6d2hld7e");
                ("governanceStats",
                  VDict
                    [ ("members", VInt 1250);
                      ("proposalsCreated", VInt 87);
                      ("votingParticipation", VStr "68%");
                      ("treasurySize", VStr "485,000 USDC") ]);
                ("reputationBreakdown",
                  VDict
                    [ ("transparency", VInt 94);
                      ("proposalExecution", VInt 87);
                      ("communityEngagement", VInt 91);
                      ("fundManagement", VInt 85) ]);
                ("verificationMethod", VStr "On-Chain Governance Analysis");
                ("attesters",
                  VList
                    [ VStr "DAOstats";
                      VStr "Governance Observer";
                      VStr "Blockchain Analytics Network" ]) ]);
          ("contributor",
              [ ("name", VStr "DecentraGov DAO");
                ("did", VStr "did:fetch:decentra_dao");
                ("contributorReputation", VInt 91);
                ("contributionStats",
                  VDict
                    [ ("activeDuration", VStr "2.5 years");
                      ("contributorsReward", VStr "Fair (verified)");
                      ("onboardingQuality", VStr "Excellent");
                      ("retentionRate", VStr "78%") ]);
                ("significantContributions",
                  VList
                    [ VDict
                      [ ("name", VStr "Open Source AI Model");
                        ("type", VStr "Technology");
                        ("impact", VStr "High") ];
                      VDict
                      [ ("name", VStr "Governance Framework");
                        ("type", VStr "Protocol");
                        ("impact", VStr "Medium") ] ]);
                ("verificationMethod",
                  VStr "Contributor Experience Verification");
                ("attesters",
                  VList
                    [ VStr "ContributorBoard";
                      VStr "WorkDAO";
                      VStr "Open Source Alliance" ]) ]) ]);
    ("trustdata_service",
        [ ("general",
              [ ("name", VStr "TrustData Verification Service");
                ("did", VStr "did:fetch:trustdata_service");
                ("overallScore", VInt 96);
                ("activeScoreProof",
                  VStr "bafybeiczsscdsbs7ffqz55asqdf3smv6klcw3gofszvwlyarci47bgf354");
                ("serviceStats",
                  VDict
                    [ ("uptime", VStr "99.98%");
                      ("users", VInt 12850);
                      ("launchDate", VStr "2022-05-15");
                      ("verifiedTransactions", VInt 1287650) ]);
                ("reputationBreakdown",
                  VDict
                    [ ("reliability", VInt 98);
                      ("accuracy", VInt 97);
                      ("security", VInt 95);
                      ("support", VInt 92) ]);
                ("verificationMethod", VStr "Service Quality Attestation");
                ("attesters",
                  VList
                    [ VStr "ServiceRating DAO";
                      VStr "User Feedback Oracle";
                      VStr "Security Audit Collective" ]) ]);
          ("service",
              [ ("name", VStr "TrustData Verification Service");
                ("did", VStr "did:fetch:trustdata_service");
                ("serviceScore", VInt 97);
                ("performanceMetrics",
                  VDict
                    [ ("responseTime", VStr "0.3 seconds (avg)");
                      ("dataAccuracy", VStr "99.7%");
                      ("costEfficiency", VStr "High");
                      ("securityIncidents", VStr "None (verified)") ]);
                ("complianceCertifications",
                  VList
                    [ VStr "ISO 27001";
                      VStr "GDPR Compliant";
                      VStr "SOC 2" ]);
                ("customerSatisfaction",
                  VStr "4.8/5.0 (based on 825 verified reviews)");
                ("verificationMethod", VStr "Independent Service Auditing");
                ("attesters",
                  VList
                    [ VStr "TechAudit Alliance";
                      VStr "User Satisfaction Oracle";
                      VStr "Compliance Verification Network" ]) ]) ]) ].
(** The aspect [query_details] asks for, if any. *)
Definition requested_aspect_of (query_details : option string)
  : option string :=
  match query_details with
  | Some details =>
      if Str.truthy details then
        if Str.contains "aspect=developer" details then Some "developer"
        else if Str.contains "aspect=contributor" details
             then Some "contributor"
        else if Str.contains "aspect=service" details then Some "service"
        else None
      else None
  | None => None
  end.

(** [aspect in available_aspects] *)
Definition available (available_aspects : list string) (aspect : string)
  : bool :=
  existsb (String.eqb aspect) available_aspects.

(** The three substring tests of lines 205-209. *)
Definition developer_heuristic (available_aspects : list string)
    (normalized_identifier : string) : bool :=
  available available_aspects "developer"
  && Str.contains "Developer" (Str.lower normalized_identifier).

Definition service_heuristic (available_aspects : list string)
    (normalized_identifier : string) : bool :=
  available available_aspects "service"
  && Str.contains "Service" (Str.lower normalized_identifier).

Definition contributor_heuristic (available_aspects : list string)
    (normalized_identifier : string) : bool :=
  available available_aspects "contributor"
  && Str.contains "DAO" (Str.lower normalized_identifier).

(** The two prefix tests of lines 212-215. *)
Definition developer_prefix (available_aspects : list string)
    (normalized_identifier : string) : bool :=
  Str.startswith normalized_identifier "dev"
  && available available_aspects "developer".

Definition service_prefix (available_aspects : list string)
    (normalized_identifier : string) : bool :=
  Str.startswith normalized_identifier "svc"
  && available available_aspects "service".

(** Lines 205-218: the aspect chosen when the request does not decide. *)
Definition heuristic_aspect (available_aspects : list string)
    (normalized_identifier : string) : string :=
  if developer_heuristic available_aspects normalized_identifier
  then "developer"
  else if service_heuristic available_aspects normalized_identifier
  then "service"
  else if contributor_heuristic available_aspects normalized_identifier
  then "contributor"
  else if developer_prefix available_aspects normalized_identifier
  then "developer"
  else if service_prefix available_aspects normalized_identifier
  then "service"
  else "general".

(** Lines 202-218: the aspect returned. *)
Definition select_aspect (available_aspects : list string)
    (requested_aspect : option string) (normalized_identifier : string)
  : string :=
  match requested_aspect with
  | Some requested =>
      if available available_aspects requested then requested
      else heuristic_aspect available_aspects normalized_identifier
  | None => heuristic_aspect available_aspects normalized_identifier
  end.

(** [f"reputation_{normalized_identifier}_{reputation_aspect}"] *)
Definition reputation_cache_key (normalized_identifier reputation_aspect : string)
  : string :=
  "reputation_" +:+ normalized_identifier +:+ "_" +:+ reputation_aspect.

(** Lines 220-235, the cache block: the record for the resolved key, from
    [reputation_cache] when its entry is fresh, from the entity's aspects
    otherwise. *)
Definition cached_reputation_data (aspects : list (string * dict))
    (normalized_identifier reputation_aspect : string) (clk : clock)
    (reputation_cache : gmap string cache_entry)
  : option dict * gmap string cache_entry :=
  let cache_key :=
    reputation_cache_key normalized_identifier reputation_aspect in
  let recompute :=
    let reputation_data := Py.lookup aspects reputation_aspect in
    if record_truthy reputation_data then
      (reputation_data,
       <[cache_key := {| data := default [] reputation_data;
                         cached_at := now_write clk |}]> reputation_cache)
    else (reputation_data, reputation_cache) in
  match reputation_cache !! cache_key with
  | Some entry =>
      if cache_fresh reputation_cache cache_key clk
      then (Some (data entry), reputation_cache)
      else recompute
  | None => recompute
  end.

(** The payload of a successful answer. *)
Definition reputation_payload (reputation_data : dict) (timestamp : string)
  : result dict :=
  let* name := Py.getitem reputation_data "name" in
  let* did := Py.getitem reputation_data "did" in
  let* verificationMethod := Py.getitem reputation_data "verificationMethod" in
  let* attesters := Py.getitem reputation_data "attesters" in
  Ok [ ("entityInfo", VDict [ ("name", name); ("decentralizedId", did) ]);
       ("reputationScores",
         VDict
           [ ("overall",
               Py.or_ (Py.get reputation_data "overallScore")
                 (Py.or_ (Py.get reputation_data "developerScore")
                    (Py.or_ (Py.get reputation_data "contributorReputation")
                       (Py.get reputation_data "serviceScore"))));
             ("breakdown",
               Py.get_default reputation_data "reputationBreakdown" (VDict [])) ]);
       ("statistics",
         Py.or_ (Py.get reputation_data "contributionStats")
           (Py.or_ (Py.get reputation_data "codeStats")
              (Py.or_ (Py.get reputation_data "governanceStats")
                 (Py.or_ (Py.get reputation_data "contributionStats")
                    (Py.or_ (Py.get reputation_data "serviceStats")
                       (Py.get_default reputation_data "performanceMetrics"
                          (VDict [])))))));
       ("highlights",
         Py.or_ (Py.get reputation_data "topSkills")
           (Py.or_ (Py.get reputation_data "significantProjects")
              (Py.or_ (Py.get reputation_data "significantContributions")
                 (Py.get_default reputation_data "complianceCertifications"
                    (VList [])))));
       ("verification",
         VDict
           [ ("method", verificationMethod);
             ("attesters", attesters);
             ("proofReference",
               Py.get_default reputation_data "activeScoreProof" (VStr ""));
             ("timestamp", VStr timestamp) ]) ].

Definition fetch_reputation_score `{Runtime} (identifier : string)
    (query_details : option string) (timestamp : string) (clk : clock)
    (reputation_cache : gmap string cache_entry)
  : gmap string cache_entry * result dict :=
  let normalized_identifier := normalize_reputation_identifier identifier in
  match Py.lookup simulated_reputation_data normalized_identifier with
  | None =>
      (reputation_cache,
       Ok [ ("request_data_type", VStr "reputation_score");
            ("request_identifier", VStr identifier);
            ("source_description", VStr "Decentralized Reputation Network");
            ("data_payload", VDict []);
            ("verification_summary",
              VStr "No reputation data found for this identifier.");
            ("timestamp", VStr timestamp);
            ("error_message",
              VStr ("No reputation information found for identifier '"
                    +:+ identifier +:+ "'.")) ])
  | Some aspects =>
      let requested_aspect := requested_aspect_of query_details in
      let available_aspects := Py.keys aspects in
      let reputation_aspect :=
        select_aspect available_aspects requested_aspect
          normalized_identifier in
      let '(reputation_data, reputation_cache) :=
        cached_reputation_data aspects normalized_identifier
          reputation_aspect clk reputation_cache in
      if record_truthy reputation_data then
        let reputation_data := default [] reputation_data in
        (reputation_cache,
         let* data_payload := reputation_payload reputation_data timestamp in
         let* verificationMethod :=
           Py.getitem reputation_data "verificationMethod" in
         let* attesters := Py.getitem reputation_data "attesters" in
         let* attesters_list := Py.join ", " attesters in
         Ok [ ("request_data_type", VStr "reputation_score");
              ("request_identifier", VStr identifier);
              ("source_description",
                VStr "Decentralized Reputation Network");
              ("data_payload", VDict data_payload);
              ("verification_summary",
                VStr ("Reputation data verified through "
                      +:+ fstr verificationMethod
                      +:+ " with attestations from " +:+ attesters_list
                      +:+ "."));
              ("timestamp", VStr timestamp) ])
      else
        let available_aspects_list := Str.join ", " available_aspects in
        (reputation_cache,
         Ok [ ("request_data_type", VStr "reputation_score");
              ("request_identifier", VStr identifier);
              ("source_description",
                VStr "Decentralized Reputation Network");
              ("data_payload", VDict []);
              ("verification_summary",
                VStr ("No reputation data found for aspect '"
                      +:+ reputation_aspect +:+ "'."));
              ("timestamp", VStr timestamp);
              ("error_message",
                VStr ("No reputation information found for identifier '"
                      +:+ identifier +:+ "' with aspect '"
                      +:+ reputation_aspect +:+ "'. Available aspects: "
                      +:+ available_aspects_list +:+ ".")) ])
  end.

End ReputationScore.

(** ** data_source_handler.py *)

Module DataSourceHandler.

(** [s.split(sep)[-1]] for a non-empty [sep]: what follows the last match
    of a left-to-right scan.  [skip] counts the characters of the match
    being stepped over, [piece] is the text after the latest match. *)
Fixpoint split_last_from (sep : string) (skip : nat) (s piece : string)
  : string :=
  match s with
  | EmptyString => piece
  | String _ s' =>
      match skip with
      | S skip' => split_last_from sep skip' s' piece
      | O =>
          if String.prefix sep s
          then split_last_from sep (String.length sep - 1) s'
                 (String.substring (String.length sep)
                    (String.length s - String.length sep) s)
          else split_last_from sep 0 s' piece
      end
  end.

Definition split_last (sep s : string) : string :=
  split_last_from sep 0 s s.

(** What one attempt on the upstream price service yields: the decoded
    body, or the exception raised by the request, by [raise_for_status]
    or by the decoding. *)
Definition upstream : Type := result value.

(** The envelope the failure branches of [fetch_crypto_price] share. *)
Definition crypto_error (identifier timestamp summary message : string)
  : dict :=
  [ ("request_data_type", VStr "crypto_price");
    ("request_identifier", VStr identifier);
    ("source_description", VStr "CoinGecko API");
    ("data_payload", VDict []);
    ("verification_summary", VStr summary);
    ("timestamp", VStr timestamp);
    ("error_message", VStr message) ].

Definition fetch_crypto_price `{Runtime} (identifier : string)
    (query_details : option string) (timestamp : string)
    (response : upstream) : dict :=
  let vs_currency :=
    match query_details with
    | Some details =>
        if Str.truthy details && Str.contains "vs_currency=" details
        then split_last "vs_currency=" details
        else "usd"
    | None => "usd"
    end in
  let attempt : result dict :=
    let* api_data := response in
    let* has_identifier := Py.contains identifier api_data in
    let* has_price :=
      if has_identifier then
        let* quotes := Py.subscript api_data identifier in
        Py.contains vs_currency quotes
      else Ok false in
    if has_price then
      let* quotes := Py.subscript api_data identifier in
      let* price := Py.subscript quotes vs_currency in
      Ok [ ("request_data_type", VStr "crypto_price");
           ("request_identifier", VStr identifier);
           ("source_description",
             VStr "CoinGecko API (https://www.coingecko.com/en/api)");
           ("data_payload",
             VDict [ ("price", price);
                     ("currency", VStr vs_currency);
                     ("asset_id", VStr identifier) ]);
           ("verification_summary",
             VStr "Data fetched live from CoinGecko API. Accuracy subject to API provider.");
           ("timestamp", VStr timestamp) ]
    else
      Ok (crypto_error identifier timestamp
            "Data source did not return expected format or identifier not found."
            ("Data not found for identifier '" +:+ identifier
             +:+ "' with currency '" +:+ vs_currency
             +:+ "' from CoinGecko. Response: " +:+ repr_value api_data)) in
  match attempt with
  | Ok envelope => envelope
  | Raise (HTTPStatusError status_code text) =>
      crypto_error identifier timestamp
        "Error communicating with data source."
        ("HTTP error fetching data from CoinGecko: "
         +:+ repr_value (VInt status_code) +:+ " - " +:+ text)
  | Raise (RequestError msg) =>
      crypto_error identifier timestamp
        "Error communicating with data source."
        ("Request error fetching data from CoinGecko: "
         +:+ str_exn (RequestError msg))
  | Raise e =>
      crypto_error identifier timestamp "An unexpected error occurred."
        ("An unexpected error occurred while fetching data: " +:+ str_exn e)
  end.

(** The four caches the resolvers keep at module level. *)
Record caches : Type := {
  education_cache : gmap string cache_entry;
  supply_chain_cache : gmap string cache_entry;
  carbon_footprint_cache : gmap string cache_entry;
  reputation_cache : gmap string cache_entry
}.

Definition no_caches : caches :=
  {| education_cache := ∅; supply_chain_cache := ∅;
     carbon_footprint_cache := ∅; reputation_cache := ∅ |}.

Definition fetch_verifiable_data `{Runtime} (data_type identifier : string)
    (query_details : option string) (clk : clock) (response : upstream)
    (st : caches) : caches * result dict :=
  let timestamp := utcnow_iso clk +:+ "Z" in
  if String.eqb (Str.lower data_type) "crypto_price" then
    (st, Ok (fetch_crypto_price identifier query_details timestamp response))
  else if String.eqb (Str.lower data_type) "education_credential" then
    let '(cache, r) :=
      EducationCredentials.fetch_education_credential identifier
        query_details timestamp clk (education_cache st) in
    ({| education_cache := cache;
        supply_chain_cache := supply_chain_cache st;
        carbon_footprint_cache := carbon_footprint_cache st;
        reputation_cache := reputation_cache st |}, r)
  else if String.eqb (Str.lower data_type) "supply_chain_status" then
    let '(cache, r) :=
      SupplyChain.fetch_supply_chain_status identifier query_details
        timestamp clk (supply_chain_cache st) in
    ({| education_cache := education_cache st;
        supply_chain_cache := cache;
        carbon_footprint_cache := carbon_footprint_cache st;
        reputation_cache := reputation_cache st |}, r)
  else if String.eqb (Str.lower data_type) "carbon_footprint" then
    let '(cache, r) :=
      CarbonFootprint.fetch_carbon_footprint identifier query_details
        timestamp clk (carbon_footprint_cache st) in
    ({| education_cache := education_cache st;
        supply_chain_cache := supply_chain_cache st;
        carbon_footprint_cache := cache;
        reputation_cache := reputation_cache st |}, r)
  else if String.eqb (Str.lower data_type) "reputation_score" then
    let '(cache, r) :=
      ReputationScore.fetch_reputation_score identifier query_details
        timestamp clk (reputation_cache st) in
    ({| education_cache := education_cache st;
        supply_chain_cache := supply_chain_cache st;
        carbon_footprint_cache := carbon_footprint_cache st;
        reputation_cache := cache |}, r)
  else
    (st,
     Ok [ ("request_data_type", VStr data_type);
          ("request_identifier", VStr identifier);
          ("source_description", VStr "Data Handler System");
          ("data_payload", VDict []);
          ("verification_summary",
            VStr "Data type not supported by this handler.");
          ("timestamp", VStr timestamp);
          ("error_message",
            VStr ("Unsupported data_type: '" +:+ data_type
                  +:+ "'. Supported types: 'crypto_price', 'education_credential', 'supply_chain_status', 'carbon_footprint', 'reputation_score'.")) ]).

End DataSourceHandler.

(** ** chat_protocol_integration.py *)

Module ChatProtocol.

Definition newline : string := String (ascii_of_nat 10) "".

(** [create_chat_message(text, end_session)]; [now] and [uuid] are the
    readings of [datetime.utcnow()] and [uuid4()]. *)
Definition create_chat_message (text : string) (end_session : bool)
    (now : Z) (uuid : string) : ChatMessage :=
  {| chat_timestamp := now;
     msg_id := uuid;
     content :=
       if end_session then [TextContent text; EndSessionContent]
       else [TextContent text] |}.

Definition normalize_identifier (identifier data_type : string) : string :=
  if negb (Str.truthy identifier) then identifier
  else if String.eqb data_type "education_credential" then
    Str.replace_char " " "_" (Str.lower identifier)
  else if String.eqb data_type "reputation_score" then
    ReputationScore.normalize_reputation_identifier identifier
  else identifier.

(** The text of the error guard, lines 193-198. *)
Definition error_report (error_message : string) : string :=
  "# Error Report" +:+ newline
  +:+ "**Message:** " +:+ error_message +:+ newline +:+ newline
  +:+ "_Please try again or rephrase your request._".

Definition format_response_for_chat `{Runtime}
    (response_data : VerifiableDataResponse) : result string :=
  match error_message response_data with
  | Some message =>
      if Str.truthy message then Ok (error_report message)
      else render_report response_data
  | None => render_report response_data
  end.

End ChatProtocol.

(** ** main_agent.py *)

Module MainAgent.

Inductive level : Type := INFO | WARNING | ERROR.

(** The part of the handler context the handlers touch: the key-value
    storage holding the session bindings, the messages handed to
    [ctx.send] (destination first) and the lines given to [ctx.logger],
    both latest last. *)
Record context : Type := {
  storage : gmap string string;
  sent : list (string * message);
  logged : list (level * string);
  agent_address : string
}.

(** [ctx.storage.set(key, value)] *)
Definition storage_set (key value : string) (ctx : context) : context :=
  {| storage := <[key := value]> (storage ctx);
     sent := sent ctx; logged := logged ctx;
     agent_address := agent_address ctx |}.

(** [ctx.storage.get(key)] *)
Definition storage_get (key : string) (ctx : context) : option string :=
  storage ctx !! key.

(** [await ctx.send(destination, msg)] *)
Definition send (destination : string) (msg : message) (ctx : context)
  : context :=
  {| storage := storage ctx;
     sent := sent ctx ++ [(destination, msg)];
     logged := logged ctx;
     agent_address := agent_address ctx |}.

(** [ctx.logger.info/warning/error(text)] *)
Definition log (lvl : level) (text : string) (ctx : context) : context :=
  {| storage := storage ctx;
     sent := sent ctx;
     logged := logged ctx ++ [(lvl, text)];
     agent_address := agent_address ctx |}.

(** [hasattr(m, 'session_id')] and the attribute. *)
Definition session_id_of (m : message) : option string :=
  match m with
  | MsgRequest r => Some (req_session_id r)
  | MsgResponse r => Some (session_id r)
  | MsgError e => Some (err_session_id e)
  | MsgChat _ | MsgAck _ => None
  end.

(** A field of the envelope read into an [Optional[str]] field of the
    response model.  Only strings and [None] are modelled as accepted. *)
Definition optional_str (v : value) : result (option string) :=
  match v with
  | VNone => Ok None
  | VStr s => Ok (Some s)
  | _ => Raise ValidationError
  end.

Definition required_str (v : value) : result string :=
  match v with
  | VStr s => Ok s
  | _ => Raise ValidationError
  end.

Definition optional_dict (v : value) : result (option dict) :=
  match v with
  | VNone => Ok None
  | VDict d => Ok (Some d)
  | _ => Raise ValidationError
  end.

(** Lines 112-120: the response model built from a successful envelope. *)
Definition response_model_of (request : VerifiableDataRequest)
    (data_dict : dict) : result VerifiableDataResponse :=
  let* rdt := required_str (Py.get_default data_dict "request_data_type"
                              (VStr (data_type request))) in
  let* rid := required_str (Py.get_default data_dict "request_identifier"
                              (VStr (identifier request))) in
  let* src := optional_str (Py.get data_dict "source_description") in
  let* ts := optional_str (Py.get data_dict "timestamp") in
  let* payload := optional_dict (Py.get data_dict "data_payload") in
  let* summary := optional_str (Py.get data_dict "verification_summary") in
  Ok {| session_id := req_session_id request;
        request_data_type := rdt;
        request_identifier := rid;
        source_description := src;
        timestamp := ts;
        data_payload := payload;
        verification_summary := summary;
        error_message := None |}.

(** The handler of [VerifiableDataRequest] messages.  The state is the
    resolvers' caches and the handler context. *)
Definition handle_verifiable_data_request `{Runtime} (sender : string)
    (request : VerifiableDataRequest) (clk : clock)
    (response : DataSourceHandler.upstream)
    (st : DataSourceHandler.caches) (ctx : context)
  : DataSourceHandler.caches * context * result unit :=
  let ctx :=
    log INFO ("Received VerifiableDataRequest from " +:+ sender
              +:+ " for session " +:+ req_session_id request +:+ ": "
              +:+ repr_message (MsgRequest request)) ctx in
  if negb (Str.truthy (req_session_id request)) then
    (st,
     log ERROR ("Critical: VerifiableDataRequest is missing session_id. Cannot process: "
                +:+ repr_message (MsgRequest request)) ctx,
     Ok tt)
  else
    match DataSourceHandler.fetch_verifiable_data (data_type request)
            (identifier request) (query_details request) clk response st with
    | (st, Raise e) => (st, ctx, Raise e)
    | (st, Ok data_dict) =>
        if Py.truthy (Py.get data_dict "error_message") then
          let ctx :=
            log WARNING ("Data fetching returned an error for session "
                         +:+ req_session_id request +:+ ": "
                         +:+ fstr (Py.get data_dict "error_message")) ctx in
          match (let* message := Py.getitem data_dict "error_message" in
                 required_str message) with
          | Raise e => (st, ctx, Raise e)
          | Ok text =>
              (st,
               send (agent_address ctx)
                 (MsgError {| err_session_id := req_session_id request;
                              error := text |}) ctx,
               Ok tt)
          end
        else
          match response_model_of request data_dict with
          | Raise e => (st, ctx, Raise e)
          | Ok response_model =>
              let ctx :=
                log INFO ("Successfully fetched data for session "
                          +:+ req_session_id request
                          +:+ ", preparing response model.") ctx in
              (st, send (agent_address ctx) (MsgResponse response_model) ctx,
               Ok tt)
          end
    end.

(** The handler of [VerifiableDataResponse] and [ErrorMessage] messages.
    [now] and [uuid] are the readings [create_chat_message] takes.  The
    report is formatted before anything is sent, outside any [try]: an
    exception of the formatter ends the handler. *)
Definition handle_internal_response `{Runtime} (sender : string)
    (response : message) (now : Z) (uuid : string) (ctx : context)
  : context * result unit :=
  match session_id_of response with
  | None =>
      (log ERROR ("Critical: Response model is missing session_id. Cannot route response: "
                  +:+ repr_message response) ctx,
       Ok tt)
  | Some sid =>
      if negb (Str.truthy sid) then
        (log ERROR ("Critical: Response model is missing session_id. Cannot route response: "
                    +:+ repr_message response) ctx,
         Ok tt)
      else
        let original_user_address := storage_get sid ctx in
        if negb (match original_user_address with
                 | Some address => Str.truthy address
                 | None => false
                 end) then
          (log ERROR ("Could not find original user address for session_id: "
                      +:+ sid
                      +:+ " to send final response. This is a critical flow error.")
             ctx,
           Ok tt)
        else
          let original_user_address := default "" original_user_address in
          let '(ctx, formatted) :=
            match response with
            | MsgResponse r =>
                (log INFO ("Forwarding VerifiableDataResponse to user for session "
                           +:+ sid +:+ ": ID " +:+ request_identifier r) ctx,
                 ChatProtocol.format_response_for_chat r)
            | MsgError e =>
                (log INFO ("Forwarding ErrorMessage to user for session "
                           +:+ sid +:+ ": " +:+ error e) ctx,
                 ChatProtocol.format_response_for_chat
                   {| session_id := sid;
                      request_data_type := "error_report";
                      request_identifier := "unknown_request_due_to_error";
                      source_description := None;
                      timestamp := None;
                      data_payload := None;
                      verification_summary := None;
                      error_message := Some (error e) |})
            | _ =>
                (log ERROR ("Received unknown response type for session "
                            +:+ sid +:+ ": " +:+ repr_type response
                            +:+ ". Sending generic error to user.") ctx,
                 ChatProtocol.format_response_for_chat
                   {| session_id := sid;
                      request_data_type := "system_error";
                      request_identifier := "unknown";
                      source_description := None;
                      timestamp := None;
                      data_payload := None;
                      verification_summary := None;
                      error_message :=
                        Some "An unexpected internal error occurred while processing your request." |})
            end in
          match formatted with
          | Raise e => (ctx, Raise e)
          | Ok formatted_text_response =>
              let final_chat_message :=
                ChatProtocol.create_chat_message formatted_text_response true
                  now uuid in
              let ctx :=
                send original_user_address (MsgChat final_chat_message) ctx in
              (log INFO ("Sent final formatted response to original user: "
                         +:+ original_user_address +:+ " for session " +:+ sid)
                 ctx,
               Ok tt)
          end
  end.

End MainAgent.

(** ** chat_protocol_integration.py: the language-model call and the chat
    handler *)

Module ChatHandlers.

Import MainAgent.

(** [c.isspace()] for a character. *)
Definition is_space (u : string) : bool :=
  Unicode.white_space (Utf8.code_point u).

(** [s.strip()]: the text without the white space at its two ends. *)
Fixpoint lstrip_units (us : list string) : list string :=
  match us with
  | [] => []
  | u :: rest => if is_space u then lstrip_units rest else us
  end.

Fixpoint rstrip_units (us : list string) : list string :=
  match us with
  | [] => []
  | u :: rest =>
      match rstrip_units rest with
      | [] => if is_space u then [] else [u]
      | kept => u :: kept
      end
  end.

Definition strip (s : string) : string :=
  Utf8.text (rstrip_units (lstrip_units (Utf8.units s))).

(** [s[start:-stop]], counted in characters. *)
Definition slice (start stop : nat) (s : string) : string :=
  let us := Utf8.units s in
  Utf8.text (firstn (List.length us - stop - start) (skipn start us)).

(** Lines 132-137: the reply of the model without its Markdown fence. *)
Definition clean_json_string (json_string : string) : string :=
  let cleaned_json_string := strip json_string in
  if Str.startswith cleaned_json_string "```json"
  then strip (slice 7 3 cleaned_json_string)
  else if Str.startswith cleaned_json_string "```"
  then strip (slice 3 3 cleaned_json_string)
  else cleaned_json_string.

(** What [json.loads] does with a text: the decoded object, a
    [JSONDecodeError], or another exception; the failures with their
    [str(e)]. *)
Inductive json_outcome : Type :=
| Decoded (parsed_json : value)
| JSONDecodeError (text : string)
| DecodingFailed (text : string).

(** [get_structured_output_from_gemini]; [gemini_api_key] tells whether the
    key is configured, [reply] is what [call_gemini_sync] returned ([None]
    for a failed call) and [json_loads] is [json.loads]. *)
Definition get_structured_output_from_gemini (gemini_api_key : bool)
    (reply : option string) (json_loads : string -> json_outcome)
    (ctx : context) : context * option value :=
  if negb gemini_api_key then
    (log ERROR "GEMINI_API_KEY not found in environment variables." ctx, None)
  else
    match reply with
    | None =>
        (log ERROR "Gemini returned an empty or error response in chat_protocol."
           ctx, None)
    | Some json_string =>
        if negb (Str.truthy json_string) then
          (log ERROR "Gemini returned an empty or error response in chat_protocol."
             ctx, None)
        else
          match json_loads (clean_json_string json_string) with
          | Decoded parsed_json => (ctx, Some parsed_json)
          | JSONDecodeError text =>
              (log ERROR ("Failed to decode JSON from Gemini in chat_protocol: "
                          +:+ text +:+ ". Response: '" +:+ json_string +:+ "'")
                 ctx, None)
          | DecodingFailed text =>
              (log ERROR ("Generic error during Gemini processing in chat_protocol: "
                          +:+ text) ctx, None)
          end
    end.

(** [d[k] = v] on a dict: the value of an existing key is replaced where it
    stands, a new key is added last. *)
Fixpoint dict_set (d : dict) (k : string) (v : value) : dict :=
  match d with
  | [] => [(k, v)]
  | (k', v') :: d' =>
      if String.eqb k' k then (k', v) :: d' else (k', v') :: dict_set d' k v
  end.

(** [obj[k] = v] for an arbitrary object and a string [k]. *)
Definition setitem (obj : value) (k : string) (v : value) : result dict :=
  match obj with
  | VDict entries => Ok (dict_set entries k v)
  | _ => Raise TypeError
  end.

(** [msg.content[0].text if msg.content else 'Empty'], of the first log
    line: only a text item has a [text]. *)
Definition first_text (content : list content_item) : result string :=
  match content with
  | [] => Ok "Empty"
  | TextContent text :: _ => Ok text
  | _ :: _ => Raise AttributeError
  end.

(** The loop of lines 154-161: the text of the first text item; a
    start-session item met before it is logged. *)
Fixpoint find_user_query (sender : string) (content : list content_item)
    (ctx : context) : context * option string :=
  match content with
  | [] => (ctx, None)
  | TextContent text :: _ => (ctx, Some text)
  | StartSessionContent :: rest =>
      find_user_query sender rest
        (log INFO ("Session started with " +:+ sender) ctx)
  | EndSessionContent :: rest => find_user_query sender rest ctx
  end.

(** The readings of [datetime.utcnow()] and [uuid4()] one chat message
    takes. *)
Record stamps : Type := {
  ack_now : Z;
  reply_now : Z;
  reply_uuid : string
}.

(** [handle_chat_message]; [session] is [str(ctx.session)] and [parse_obj]
    is [VerifiableDataRequest.parse_obj]. *)
Definition handle_chat_message `{Runtime}
    (parse_obj : dict -> result VerifiableDataRequest)
    (gemini_api_key : bool) (reply : option string)
    (json_loads : string -> json_outcome) (session : string) (at_ : stamps)
    (sender : string) (msg : ChatMessage) (ctx : context)
  : context * result unit :=
  match first_text (content msg) with
  | Raise e => (ctx, Raise e)
  | Ok text =>
      let ctx :=
        log INFO ("Received ChatMessage from " +:+ sender +:+ ": " +:+ text)
          ctx in
      let ctx := storage_set session sender ctx in
      let ctx :=
        send sender
          (MsgAck {| ack_timestamp := ack_now at_;
                     acknowledged_msg_id := msg_id msg |}) ctx in
      let '(ctx, user_query) := find_user_query sender (content msg) ctx in
      let answer (text : string) (ctx : context) : context :=
        send sender
          (MsgChat (ChatProtocol.create_chat_message text true
                      (reply_now at_) (reply_uuid at_))) ctx in
      if negb (match user_query with
               | Some query => Str.truthy query
               | None => false
               end) then
        (answer "I received an empty message. Please tell me what verifiable data you need."
           ctx, Ok tt)
      else if negb gemini_api_key then
        (answer "Sorry, I'm not configured correctly to use the LLM for understanding your request right now."
           (log ERROR "GEMINI_API_KEY is not set. Cannot process query via Gemini."
              ctx), Ok tt)
      else
        let '(ctx, structured_data_from_gemini) :=
          get_structured_output_from_gemini gemini_api_key reply json_loads
            ctx in
        if match structured_data_from_gemini with
           | Some structured => Py.truthy structured
           | None => false
           end then
          let structured := default VNone structured_data_from_gemini in
          let failed (shown : value) (e : exn) : context * result unit :=
            (answer ("Sorry, I had trouble structuring your request after the LLM processed it. Details: "
                     +:+ str_exn e)
               (log ERROR ("Error parsing Gemini output ("
                           +:+ repr_value shown
                           +:+ ") into VerifiableDataRequest (session: "
                           +:+ session +:+ "): " +:+ str_exn e) ctx),
             Ok tt) in
          match setitem structured "session_id" (VStr session) with
          | Raise e => failed structured e
          | Ok with_session =>
              match parse_obj with_session with
              | Raise e => failed (VDict with_session) e
              | Ok data_request =>
                  (send (agent_address ctx) (MsgRequest data_request)
                     (log INFO ("Successfully parsed Gemini output into VerifiableDataRequest (session: "
                                +:+ session +:+ "): "
                                +:+ repr_message (MsgRequest data_request))
                        ctx),
                   Ok tt)
              end
          end
        else
          (answer "Sorry, I couldn't understand or structure your request using the LLM. Please try rephrasing."
             (log ERROR ("Failed to get structured output from Gemini for query (session: "
                         +:+ session +:+ "): "
                         +:+ default "" user_query) ctx),
           Ok tt)
  end.

End ChatHandlers.

(** ** main_agent.py: the health check *)

Module Health.

Import MainAgent.

Inductive AgentHealthStatus : Type := HEALTHY | UNHEALTHY.

(** [check_agent_health]: one price request for bitcoin in usd through the
    router. *)
Definition check_agent_health `{Runtime} (clk : clock)
    (response : DataSourceHandler.upstream) (st : DataSourceHandler.caches)
    (ctx : context)
  : DataSourceHandler.caches * context * (AgentHealthStatus * string) :=
  match DataSourceHandler.fetch_verifiable_data "crypto_price" "bitcoin"
          (Some "vs_currency=usd") clk response st with
  | (st, Ok health_check_result_dict) =>
      if negb (Py.truthy (Py.get health_check_result_dict "error_message"))
      then (st, ctx, (HEALTHY, "CoinGecko API connection successful."))
      else
        let error :=
          fstr (Py.get_default health_check_result_dict "error_message"
                  (VStr "Unknown error during health check data fetch.")) in
        (st,
         log WARNING ("Health check: Data fetch failed or returned error: "
                      +:+ error) ctx,
         (UNHEALTHY, "Failed to fetch test data from CoinGecko: " +:+ error))
  | (st, Raise e) =>
      (st, log ERROR ("Health check exception: " +:+ str_exn e) ctx,
       (UNHEALTHY, "Exception during health check: " +:+ str_exn e))
  end.

End Health.

(** ** demo_client.py *)

Module DemoClient.

Import MainAgent.

Record SendUserQuery : Type := {
  user_query : string;
  target_agent_address : string
}.

(** [handle_send_user_query_command]; [now] and [uuid] are the readings of
    [datetime.now(timezone.utc)] and [uuid4()].  What it prints is left
    out. *)
Definition handle_send_user_query_command (command : SendUserQuery)
    (now : Z) (uuid : string) (ctx : context) : context :=
  let ctx :=
    log INFO ("Internal command to send query: '" +:+ user_query command
              +:+ "' to " +:+ target_agent_address command) ctx in
  let message_content :=
    [StartSessionContent; TextContent (user_query command)] in
  let chat_msg_to_send :=
    {| chat_timestamp := now; msg_id := uuid; content := message_content |} in
  send (target_agent_address command) (MsgChat chat_msg_to_send) ctx.

(** The loop of [handle_response_message], lines 47-51: the text gathered
    from the text items, and the line printed at each end-session item. *)
Fixpoint full_response_text (content : list content_item) : string :=
  match content with
  | [] => ""
  | TextContent text :: rest =>
      text +:+ ChatProtocol.newline +:+ full_response_text rest
  | _ :: rest => full_response_text rest
  end.

Fixpoint session_end_lines (content : list content_item) : list string :=
  match content with
  | [] => []
  | EndSessionContent :: rest =>
      "(Session ended by agent)" :: session_end_lines rest
  | _ :: rest => session_end_lines rest
  end.

(** [handle_response_message]: what it hands to [print], in order. *)
Definition handle_response_message (msg : ChatMessage) : list string :=
  session_end_lines (content msg)
  ++ [ ChatProtocol.newline +:+ "AGENT RESPONSE:" +:+ ChatProtocol.newline
       +:+ "-------------------" +:+ ChatProtocol.newline
       +:+ ChatHandlers.strip (full_response_text (content msg))
       +:+ ChatProtocol.newline +:+ "-------------------";
       ChatProtocol.newline +:+ "Enter your next query (or type 'exit'): " ].

End DemoClient.

(** * Vocabulary of the properties *)

Module Spec.

Import ReputationScore.

(** The prefix rules and the default, lines 212-218 of
    [fetch_reputation_score]. *)
Definition prefix_or_general (available_aspects : list string)
    (normalized_identifier : string) : string :=
  if developer_prefix available_aspects normalized_identifier
  then "developer"
  else if service_prefix available_aspects normalized_identifier
  then "service"
  else "general".

(** The request names no aspect the entity has. *)
Definition no_available_request (aspects : list (string * dict))
    (query_details : option string) : Prop :=
  match requested_aspect_of query_details with
  | Some requested => available (Py.keys aspects) requested = false
  | None => True
  end.

(** The five supported data types. *)
Definition SUPPORTED : list string :=
  ["crypto_price"; "education_credential"; "supply_chain_status";
   "carbon_footprint"; "reputation_score"].

(** A runtime to evaluate the model on concrete requests: the library
    calls answer with fixed placeholders. *)
Definition placeholder_runtime : Runtime :=
  {| sha256_hexdigest := fun _ => "<sha256>";
     b32encode := fun s => s;
     repr_value := fun _ => "<object>";
     str_exn := fun _ => "<exception>";
     repr_message := fun _ => "<message>";
     repr_type := fun _ => "<type>";
     render_report := fun _ => Ok "# Verifiable Data Report" |}.

(** A clock to evaluate the model on concrete requests. *)
Definition clock_at (iso : string) (now : Z) : clock :=
  {| utcnow_iso := iso; now_read := now; now_write := now |}.

(** The identifier has a record in the record set of the scope. *)
Definition in_record_set (carbon_data : list (string * list (string * dict)))
    (scope normalized_identifier : string) : Prop :=
  exists records,
    Py.lookup carbon_data scope = Some records
    /\ Py.mem normalized_identifier records = true.

(** [scope] is the first scope of [scopes] whose record set contains the
    identifier. *)
Inductive first_containing
    (carbon_data : list (string * list (string * dict)))
    (normalized_identifier : string) : list string -> string -> Prop :=
| first_here scope rest :
    in_record_set carbon_data scope normalized_identifier ->
    first_containing carbon_data normalized_identifier (scope :: rest) scope
| first_later other rest scope :
    ~ in_record_set carbon_data other normalized_identifier ->
    first_containing carbon_data normalized_identifier rest scope ->
    first_containing carbon_data normalized_identifier (other :: rest) scope.

(** The scope the resolver settles on, in the terms of its own reading of
    query_details ([requested_scope_of]) and its own list of scopes; a step
    of the proofs. *)
Inductive scope_choice
    (carbon_data : list (string * list (string * dict)))
    (query_details : option string) (normalized_identifier : string)
  : string -> Prop :=
| choose_requested scope :
    CarbonFootprint.requested_scope_of query_details = Some scope ->
    in_record_set carbon_data scope normalized_identifier ->
    scope_choice carbon_data query_details normalized_identifier scope
| choose_detected scope :
    (forall asked,
        CarbonFootprint.requested_scope_of query_details = Some asked ->
        ~ in_record_set carbon_data asked normalized_identifier) ->
    first_containing carbon_data normalized_identifier
      CarbonFootprint.SCOPES scope ->
    scope_choice carbon_data query_details normalized_identifier scope
| choose_default :
    (forall asked,
        CarbonFootprint.requested_scope_of query_details = Some asked ->
        ~ in_record_set carbon_data asked normalized_identifier) ->
    (forall scope, In scope CarbonFootprint.SCOPES ->
                   ~ in_record_set carbon_data scope normalized_identifier) ->
    scope_choice carbon_data query_details normalized_identifier "product".




(** The dataset has a record set for each of the three scopes. *)
Definition has_scopes (carbon_data : list (string * list (string * dict)))
  : Prop :=
  forall scope, In scope ["product"; "company"; "activity"] ->
                exists records, Py.lookup carbon_data scope = Some records.

(** What C6 asks, before amendment, of a carbon resolution that finds no
    fresh entry: a value is computed from the store, stored under the key
    with the fresh reading, and returned. *)
Definition stores_on_miss
    (carbon_data : list (string * list (string * dict)))
    (data_scope normalized_identifier : string) (clk : clock)
    (cache : gmap string cache_entry) : Prop :=
  cache_fresh cache
    (CarbonFootprint.carbon_cache_key data_scope normalized_identifier) clk
  = false ->
  exists record,
    CarbonFootprint.cached_carbon_data carbon_data data_scope
      normalized_identifier clk cache
    = (Ok (Some record),
       <[CarbonFootprint.carbon_cache_key data_scope normalized_identifier :=
           {| data := record; cached_at := now_write clk |}]> cache).

(** Three hundred seconds, in microseconds. *)
Definition TTL_MICROSECONDS : Z := 300 * 1000000.

(** A handler context with no binding, nothing sent and nothing logged. *)
Definition idle_context (address : string) : MainAgent.context :=
  {| MainAgent.storage := ∅; MainAgent.sent := [];
     MainAgent.logged := []; MainAgent.agent_address := address |}.

(** What C10 asks of an envelope answered with the timestamp [stamp]: a
    non-empty verification_summary string, the timestamp string, a
    data_payload that is a mapping, and, when error_message is present, a
    non-empty error_message string next to an empty data_payload. *)
Definition well_formed_envelope (stamp : string) (envelope : dict) : Prop :=
  (exists summary,
      Py.lookup envelope "verification_summary" = Some (VStr summary)
      /\ summary <> "")
  /\ Py.lookup envelope "timestamp" = Some (VStr stamp)
  /\ exists payload,
      Py.lookup envelope "data_payload" = Some (VDict payload)
      /\ forall message,
          Py.lookup envelope "error_message" = Some message ->
          payload = []
          /\ exists text, message = VStr text /\ text <> "".

(** The states of the caches the running agent can be in: empty at
    start-up, then changed by the router only. *)
Inductive reachable `{Runtime} : DataSourceHandler.caches -> Prop :=
| reachable_start : reachable DataSourceHandler.no_caches
| reachable_fetch st data_type identifier query_details clk response :
    reachable st ->
    reachable
      (fst (DataSourceHandler.fetch_verifiable_data data_type identifier
              query_details clk response st)).

(** The fields the resolvers read with [record[...]], per domain. *)
Definition has_fields (fields : list string) (record : dict) : bool :=
  forallb (fun field => Py.mem field record) fields.

Definition education_record_ok (record : dict) : bool :=
  record_truthy (Some record) && has_fields ["name"; "credentials"] record.

Definition supply_record_ok (record : dict) : bool :=
  record_truthy (Some record)
  && has_fields ["name"; "manufacturer"; "chain"; "certifications";
                 "carbonFootprint"; "blockchainRecords"] record.

Definition carbon_record_ok (scope : string) (record : dict) : bool :=
  record_truthy (Some record)
  && if String.eqb scope "product" then
       has_fields ["name"; "manufacturer"; "totalFootprint";
                   "footprintBreakdown"] record
     else if String.eqb scope "company" then
       has_fields ["name"; "industry"; "totalEmissions";
                   "emissionsBreakdown"] record
     else has_fields ["type"; "footprint"] record.

Definition reputation_record_ok (record : dict) : bool :=
  record_truthy (Some record)
  && has_fields ["name"; "did"; "verificationMethod"; "attesters"] record
  && match Py.join ", " (Py.get record "attesters") with
     | Ok _ => true
     | Raise _ => false
     end.

(** The invariant of the caches: every entry holds a record with the
    fields its resolver reads; a carbon entry is keyed by its scope. *)
Definition carbon_cache_ok (cache : gmap string cache_entry) : Prop :=
  map_Forall
    (fun key entry =>
       exists scope normalized_identifier,
         key = CarbonFootprint.carbon_cache_key scope normalized_identifier
         /\ In scope CarbonFootprint.SCOPES
         /\ carbon_record_ok scope (data entry) = true)
    cache.

Definition caches_ok (st : DataSourceHandler.caches) : Prop :=
  map_Forall (fun _ entry => education_record_ok (data entry) = true)
    (DataSourceHandler.education_cache st)
  /\ map_Forall (fun _ entry => supply_record_ok (data entry) = true)
       (DataSourceHandler.supply_chain_cache st)
  /\ carbon_cache_ok (DataSourceHandler.carbon_footprint_cache st)
  /\ map_Forall (fun _ entry => reputation_record_ok (data entry) = true)
       (DataSourceHandler.reputation_cache st).

(** The value found by following [path] through nested mappings. *)
Fixpoint field_at (path : list string) (v : value) : option value :=
  match path with
  | [] => Some v
  | key :: rest =>
      match v with
      | VDict entries =>
          match Py.lookup entries key with
          | Some v' => field_at rest v'
          | None => None
          end
      | _ => None
      end
  end.

(** The answer of the router on empty caches, with placeholder library
    calls, at a fixed clock and with the upstream service unreachable. *)
Definition first_answer (data_type identifier : string)
    (query_details : option string) : result dict :=
  snd (@DataSourceHandler.fetch_verifiable_data placeholder_runtime data_type
         identifier query_details (clock_at "2025-01-01T00:00:00" 0)
         (Raise (RequestError "unreachable")) DataSourceHandler.no_caches).


(** The entries of a cache are the records of the store, each under the key
    of its identifier. *)
Definition education_cache_exact (cache : gmap string cache_entry) : Prop :=
  map_Forall
    (fun key entry =>
       exists identifier,
         key = "education_" +:+ identifier
         /\ Py.lookup EducationCredentials.simulated_credentials identifier
            = Some (data entry))
    cache.

Definition supply_cache_exact (cache : gmap string cache_entry) : Prop :=
  map_Forall
    (fun key entry =>
       exists identifier,
         key = "supply_chain_" +:+ identifier
         /\ Py.lookup SupplyChain.simulated_supply_chains identifier
            = Some (data entry))
    cache.

Definition carbon_cache_exact (cache : gmap string cache_entry) : Prop :=
  map_Forall
    (fun key entry =>
       exists scope normalized_identifier records,
         key = CarbonFootprint.carbon_cache_key scope normalized_identifier
         /\ In scope CarbonFootprint.SCOPES
         /\ Py.lookup CarbonFootprint.simulated_carbon_data scope = Some records
         /\ Py.lookup records normalized_identifier = Some (data entry))
    cache.

Definition reputation_cache_exact (cache : gmap string cache_entry) : Prop :=
  map_Forall
    (fun key entry =>
       exists normalized_identifier aspects aspect,
         key = ReputationScore.reputation_cache_key normalized_identifier aspect
         /\ Py.lookup ReputationScore.simulated_reputation_data
              normalized_identifier = Some aspects
         /\ Py.lookup aspects aspect = Some (data entry))
    cache.

Definition caches_exact (st : DataSourceHandler.caches) : Prop :=
  education_cache_exact (DataSourceHandler.education_cache st)
  /\ supply_cache_exact (DataSourceHandler.supply_chain_cache st)
  /\ carbon_cache_exact (DataSourceHandler.carbon_footprint_cache st)
  /\ reputation_cache_exact (DataSourceHandler.reputation_cache st).

(** A cache after one request: as before, or with one entry written, stamped
    with the reading taken for the write. *)
Definition wrote_at_most_one (clk : clock)
    (before after : gmap string cache_entry) : Prop :=
  after = before
  \/ exists key record,
      after = <[key := {| data := record; cached_at := now_write clk |}]> before.

(** The data_payload of an answer. *)
Definition answer_payload (answer : result dict) : result (option value) :=
  let* envelope := answer in Ok (Py.lookup envelope "data_payload").


(** The comparison currency of a price request, lines 67-69. *)
Definition requested_currency (query_details : option string) : string :=
  match query_details with
  | Some details =>
      if Str.truthy details && Str.contains "vs_currency=" details
      then DataSourceHandler.split_last "vs_currency=" details
      else "usd"
  | None => "usd"
  end.

(** The price an upstream body quotes for an identifier in a currency: the
    body is a mapping, its entry for the identifier is a mapping, and that
    one has an entry for the currency. *)
Definition quoted_price (api_data : value) (identifier currency : string)
  : option value :=
  match api_data with
  | VDict body =>
      match Py.lookup body identifier with
      | Some (VDict quotes) => Py.lookup quotes currency
      | _ => None
      end
  | _ => None
  end.

(** The text an upstream failure carries: the body of an HTTP error
    response, [str(e)] otherwise. *)
Definition failure_text `{Runtime} (e : exn) : string :=
  match e with
  | HTTPStatusError _ text => text
  | _ => str_exn e
  end.

(** The data type an answer names: the canonical name of a supported type,
    the type as given otherwise. *)
Definition named_type (data_type : string) : string :=
  if existsb (String.eqb (Str.lower data_type)) SUPPORTED
  then Str.lower data_type
  else data_type.

(** The text field of the envelope under [key], if it is a string. *)
Definition text_field (envelope : dict) (key : string) : option string :=
  match Py.lookup envelope key with
  | Some (VStr text) => Some text
  | _ => None
  end.

(** The acknowledgement of a chat message and the closing chat message with
    a text, as [handle_chat_message] stamps them. *)
Definition acknowledgement (at_ : ChatHandlers.stamps) (msg : ChatMessage)
  : message :=
  MsgAck {| ack_timestamp := ChatHandlers.ack_now at_;
            acknowledged_msg_id := msg_id msg |}.

Definition closing_message (at_ : ChatHandlers.stamps) (text : string)
  : message :=
  MsgChat (ChatProtocol.create_chat_message text true
             (ChatHandlers.reply_now at_) (ChatHandlers.reply_uuid at_)).

(** The report an [ErrorMessage] is formatted through. *)
Definition error_response (sid text : string) : VerifiableDataResponse :=
  {| session_id := sid;
     request_data_type := "error_report";
     request_identifier := "unknown_request_due_to_error";
     source_description := None;
     timestamp := None;
     data_payload := None;
     verification_summary := None;
     error_message := Some text |}.

(** A text of white space only. *)
Definition blank (s : string) : bool :=
  forallb ChatHandlers.is_space (Utf8.units s).

(** What only logs leaves the bindings, the outbox and the address alone. *)
Definition same_but_log (before after : MainAgent.context) : Prop :=
  MainAgent.storage after = MainAgent.storage before
  /\ MainAgent.sent after = MainAgent.sent before
  /\ MainAgent.agent_address after = MainAgent.agent_address before.

(** A request parser and a JSON decoder to evaluate the chat handler on
    concrete messages: the parser takes the fields that are strings, the
    decoder answers every text with one object. *)
Definition placeholder_parse_obj (obj : dict) : result VerifiableDataRequest :=
  let* sid := bind (Py.getitem obj "session_id") MainAgent.required_str in
  let* dt := bind (Py.getitem obj "data_type") MainAgent.required_str in
  let* id := bind (Py.getitem obj "identifier") MainAgent.required_str in
  let* details := MainAgent.optional_str (Py.get obj "query_details") in
  Ok {| req_session_id := sid; data_type := dt; identifier := id;
        query_details := details |}.

Definition placeholder_json_loads (text : string) : ChatHandlers.json_outcome :=
  ChatHandlers.Decoded
    (VDict [ ("data_type", VStr "carbon_footprint");
             ("identifier", VStr "macbook_pro");
             ("session_id", VStr "made-up") ]).

(** The line feed, and the Error Report block with its message, character
    by character. *)
Definition line_feed : string := String "010"%char "".

Definition error_block (message : string) : string :=
  "# Error Report" +:+ line_feed
  +:+ "**Message:** " +:+ message +:+ line_feed
  +:+ line_feed
  +:+ "_Please try again or rephrase your request._".

(** The chat message that carries a text and ends the session. *)
Definition final_message (now : Z) (uuid text : string) : message :=
  MsgChat {| chat_timestamp := now; msg_id := uuid;
             content := [TextContent text; EndSessionContent] |}.

(** Every byte of the text is a continuation byte. *)
Definition all_continuation (s : string) : bool :=
  Nat.eqb (Utf8.continuation_prefix s) (String.length s).

(** A character that is one whatever follows it: a first byte with exactly
    the continuation bytes it announces. *)
Definition self_contained (u : string) : bool :=
  match u with
  | EmptyString => false
  | String a x =>
      Nat.eqb (Utf8.announced a) (String.length x) && all_continuation x
  end.

(** A character [str.lower] leaves as it is, wherever it stands. *)
Definition settled (u : string) : bool :=
  match u with
  | String a EmptyString => Ascii.eqb (Str.lower_ascii a) a
  | _ =>
      negb (Utf8.code_point u =? 0x3A3)
      && match Unicode.lowercase (Utf8.code_point u) with
         | Some _ => false
         | None => true
         end
  end.

(** A text of self-contained, settled characters that is not empty, does
    not start with a continuation byte and has no capital letter from A to
    Z. *)
Definition steady (o : string) : bool :=
  Str.truthy o
  && Nat.eqb (Utf8.continuation_prefix o) 0
  && forallb self_contained (Utf8.units o)
  && forallb settled (Utf8.units o)
  && negb (Str.exists_char Str.is_upper o).

End Spec.

(** * Properties *)

(** ** The characters of a text *)

Section Characters.

Import Utf8.

Lemma append_cons (c : ascii) (s t : string) :
  String c s +:+ t = String c (s +:+ t).
Proof. reflexivity. Qed.

Lemma append_nil_l (t : string) : "" +:+ t = t.
Proof. reflexivity. Qed.

Lemma append_nil_r (s : string) : s +:+ "" = s.
Proof.
  induction s as [|c s IH]; [reflexivity|]. now rewrite append_cons, IH.
Qed.

Lemma append_assoc (a b c : string) : (a +:+ b) +:+ c = a +:+ b +:+ c.
Proof.
  induction a as [|x a IH]; [reflexivity|]. now rewrite !append_cons, IH.
Qed.

Lemma first_skip_bytes (n : nat) (s : string) :
  first_bytes n s +:+ skip_bytes n s = s.
Proof.
  revert s. induction n as [|n IH]; intros [|c s]; try reflexivity.
  cbn [first_bytes skip_bytes]. now rewrite append_cons, IH.
Qed.

Lemma first_bytes_app (u t : string) :
  first_bytes (String.length u) (u +:+ t) = u.
Proof.
  induction u as [|c u IH]; [now destruct t|].
  rewrite append_cons. cbn [String.length first_bytes]. now rewrite IH.
Qed.

Lemma skip_bytes_app (u t : string) :
  skip_bytes (String.length u) (u +:+ t) = t.
Proof.
  induction u as [|c u IH]; [now destruct t|].
  rewrite append_cons. cbn [String.length skip_bytes]. exact IH.
Qed.

Lemma length_first_bytes (n : nat) (s : string) :
  (n <= String.length s)%nat -> String.length (first_bytes n s) = n.
Proof.
  revert s. induction n as [|n IH]; intros [|c s] Hn; cbn in *; try lia.
  rewrite IH; lia.
Qed.

Lemma length_skip_bytes (n : nat) (s : string) :
  String.length (skip_bytes n s) = (String.length s - n)%nat.
Proof.
  revert s. induction n as [|n IH]; intros [|c s]; cbn; try lia.
  apply IH.
Qed.

Lemma continuation_prefix_le (s : string) :
  (continuation_prefix s <= String.length s)%nat.
Proof.
  induction s as [|c s IH]; cbn; [lia|].
  destruct (is_continuation c); lia.
Qed.

Lemma unit_length_cons (a : ascii) (s : string) :
  unit_length (String a s) = 1%nat
  \/ (unit_length (String a s) = S (announced a)
      /\ (announced a <= continuation_prefix s)%nat).
Proof.
  cbn [unit_length].
  destruct (Nat.leb_spec (announced a) (continuation_prefix s)); auto.
Qed.

Lemma unit_length_le (s : string) :
  (unit_length s <= String.length s)%nat.
Proof.
  destruct s as [|a s]; [reflexivity|].
  pose proof (continuation_prefix_le s).
  destruct (unit_length_cons a s) as [->|[-> ?]]; cbn [String.length]; lia.
Qed.

Lemma unit_length_pos (a : ascii) (s : string) :
  (1 <= unit_length (String a s))%nat.
Proof. destruct (unit_length_cons a s) as [->|[-> ?]]; lia. Qed.

Lemma units_from_skip (k : nat) (s : string) :
  units_from k s = units (skip_bytes k s).
Proof.
  revert k. induction s as [|a s IH]; intros [|k]; try reflexivity.
  cbn [units_from skip_bytes]. apply IH.
Qed.

(** The characters of a text: the first one, then those of the rest. *)
Lemma units_cons (a : ascii) (s : string) :
  units (String a s)
  = first_bytes (unit_length (String a s)) (String a s)
    :: units (skip_bytes (unit_length (String a s)) (String a s)).
Proof.
  unfold units at 1. cbn [units_from]. f_equal.
  rewrite units_from_skip.
  pose proof (unit_length_pos a s) as Hpos.
  destruct (unit_length (String a s)) as [|n]; [lia|].
  cbn [skip_bytes]. now replace (S n - 1)%nat with n by lia.
Qed.

Lemma units_ind (P : string -> Prop) :
  P "" ->
  (forall a s,
      P (skip_bytes (unit_length (String a s)) (String a s)) ->
      P (String a s)) ->
  forall s, P s.
Proof.
  intros Hnil Hcons s.
  remember (String.length s) as n eqn:Hn. revert s Hn.
  induction n as [n IH] using lt_wf_ind. intros [|a s] Hn; [exact Hnil|].
  apply Hcons. eapply IH; [|reflexivity].
  rewrite length_skip_bytes. pose proof (unit_length_pos a s).
  subst n. cbn [String.length]. lia.
Qed.

Lemma text_units (s : string) : text (units s) = s.
Proof.
  induction s as [|a s IH] using units_ind; [reflexivity|].
  rewrite units_cons. cbn [text]. rewrite IH. apply first_skip_bytes.
Qed.

Lemma text_app (us vs : list string) :
  text (us ++ vs) = text us +:+ text vs.
Proof.
  induction us as [|u us IH]; [reflexivity|].
  cbn [text app]. now rewrite IH, append_assoc.
Qed.

Lemma continuation_prefix_app (x t : string) :
  continuation_prefix (x +:+ t)
  = if Nat.eqb (continuation_prefix x) (String.length x)
    then (String.length x + continuation_prefix t)%nat
    else continuation_prefix x.
Proof.
  induction x as [|c x IH]; [reflexivity|].
  rewrite append_cons. cbn [continuation_prefix String.length].
  destruct (is_continuation c); [|reflexivity].
  rewrite IH. cbn [Nat.eqb].
  now destruct (Nat.eqb (continuation_prefix x) (String.length x)).
Qed.

Lemma continuation_prefix_app_ge (x t : string) :
  (continuation_prefix x <= continuation_prefix (x +:+ t))%nat.
Proof.
  rewrite continuation_prefix_app.
  destruct (Nat.eqb_spec (continuation_prefix x) (String.length x)); lia.
Qed.

Lemma continuation_prefix_app_0 (x t : string) :
  continuation_prefix t = 0%nat ->
  continuation_prefix (x +:+ t) = continuation_prefix x.
Proof.
  intros Ht. rewrite continuation_prefix_app, Ht.
  destruct (Nat.eqb_spec (continuation_prefix x) (String.length x)); lia.
Qed.

Lemma first_bytes_app_le (n : nat) (b t : string) :
  (n <= String.length b)%nat ->
  first_bytes n (b +:+ t) = first_bytes n b.
Proof.
  revert b. induction n as [|n IH]; intros b Hn.
  - now destruct (b +:+ t), b.
  - destruct b as [|c b]; cbn in Hn; [lia|].
    rewrite append_cons. cbn [first_bytes]. rewrite IH; [reflexivity|lia].
Qed.

Lemma skip_bytes_app_le (n : nat) (b t : string) :
  (n <= String.length b)%nat ->
  skip_bytes n (b +:+ t) = skip_bytes n b +:+ t.
Proof.
  revert b. induction n as [|n IH]; intros b Hn.
  - assert (H0 : forall s, skip_bytes 0 s = s) by now intros [].
    now rewrite !H0.
  - destruct b as [|c b]; cbn in Hn; [lia|].
    rewrite append_cons. cbn [skip_bytes]. apply IH. lia.
Qed.

(** A text that does not start with a continuation byte starts a new
    character wherever it is appended. *)
Lemma units_app (b t : string) :
  continuation_prefix t = 0%nat ->
  units (b +:+ t) = (units b ++ units t)%list.
Proof.
  intros Ht. induction b as [|a b IH] using units_ind; [reflexivity|].
  assert (Hlen : unit_length (String a b +:+ t) = unit_length (String a b)).
  { rewrite append_cons. cbn [unit_length].
    now rewrite continuation_prefix_app_0. }
  pose proof (unit_length_le (String a b)) as Hle.
  rewrite (units_cons a b). rewrite append_cons, units_cons.
  rewrite <- append_cons, Hlen.
  rewrite first_bytes_app_le, skip_bytes_app_le by exact Hle.
  now rewrite IH.
Qed.

End Characters.

(** ** Characters that stand alone, and the lowercase table *)

Section Lowercase.

Import Utf8 Spec.

Lemma all_continuation_app (x y : string) :
  all_continuation x = true ->
  continuation_prefix (x +:+ y)
  = (String.length x + continuation_prefix y)%nat.
Proof.
  unfold all_continuation. intros Hx. rewrite continuation_prefix_app.
  now rewrite Hx.
Qed.

Lemma units_self_contained (u t : string) :
  self_contained u = true -> units (u +:+ t) = u :: units t.
Proof.
  destruct u as [|a x]; [discriminate|]. cbn [self_contained].
  intros [Hn Hx]%andb_true_iff. apply Nat.eqb_eq in Hn.
  assert (Hlen : unit_length (String a x +:+ t) = S (String.length x)).
  { rewrite append_cons. cbn [unit_length].
    rewrite (all_continuation_app _ _ Hx), Hn.
    destruct (Nat.leb_spec (String.length x)
                (String.length x + continuation_prefix t)); [reflexivity|lia]. }
  rewrite append_cons, units_cons. rewrite <- append_cons, Hlen.
  change (S (String.length x)) with (String.length (String a x)).
  now rewrite first_bytes_app, skip_bytes_app.
Qed.

Lemma units_self_contained_app (o t : string) :
  forallb self_contained (units o) = true ->
  units (o +:+ t) = (units o ++ units t)%list.
Proof.
  induction o as [|a o IH] using units_ind; [reflexivity|].
  rewrite units_cons. cbn [forallb]. intros [Hu Hrest]%andb_true_iff.
  rewrite <- (first_skip_bytes (unit_length (String a o)) (String a o)) at 1.
  rewrite append_assoc, (units_self_contained _ _ Hu), (IH Hrest).
  reflexivity.
Qed.

Lemma units_one (u : string) : self_contained u = true -> units u = [u].
Proof.
  intros Hu. rewrite <- (append_nil_r u) at 1.
  now rewrite (units_self_contained _ _ Hu).
Qed.

Lemma continuation_prefix_first_bytes (n : nat) (s : string) :
  (n <= continuation_prefix s)%nat ->
  all_continuation (first_bytes n s) = true
  /\ String.length (first_bytes n s) = n.
Proof.
  unfold all_continuation.
  revert s. induction n as [|n IH]; intros s Hn.
  - now destruct s.
  - destruct s as [|c s]; cbn [continuation_prefix] in Hn; [lia|].
    destruct (is_continuation c) eqn:Hc; [|lia].
    destruct (IH s ltac:(lia)) as [Hall Hlen].
    cbn [first_bytes continuation_prefix String.length]. rewrite Hc.
    apply Nat.eqb_eq in Hall. rewrite Hall, Hlen. split; [|reflexivity].
    apply Nat.eqb_refl.
Qed.

(** The first character of a text is self-contained, or it is a first byte
    left without the continuation bytes it announces. *)
Lemma first_unit_cases (a : ascii) (s : string) :
  let u := first_bytes (unit_length (String a s)) (String a s) in
  self_contained u = true
  \/ (u = String a ""
      /\ skip_bytes (unit_length (String a s)) (String a s) = s
      /\ (continuation_prefix s < announced a)%nat).
Proof.
  cbn [unit_length].
  destruct (Nat.leb_spec (announced a) (continuation_prefix s)) as [Hle|Hlt].
  - left. cbn [first_bytes self_contained].
    destruct (continuation_prefix_first_bytes _ _ Hle) as [Hall Hlen].
    now rewrite Hlen, Nat.eqb_refl, Hall.
  - right. split; [now destruct s|]. split; [now destruct s|exact Hlt].
Qed.

(** Induction over the characters of a text: a single byte (self-contained,
    or a first byte without its continuation bytes), or a self-contained
    character of several bytes. *)
Lemma units_cases_ind (P : string -> Prop) :
  P "" ->
  (forall a s,
      self_contained (String a "") = true
      \/ (continuation_prefix s < announced a)%nat ->
      units (String a s) = String a "" :: units s ->
      P s -> P (String a s)) ->
  (forall a b x s,
      self_contained (String a (String b x)) = true ->
      units (String a (String b x) +:+ s)
      = String a (String b x) :: units s ->
      P s -> P (String a (String b x) +:+ s)) ->
  forall s, P s.
Proof.
  intros Hnil Hone Hmulti. induction s as [|a s IH] using units_ind;
    [exact Hnil|].
  pose proof (units_cons a s) as Hunits.
  pose proof (first_skip_bytes (unit_length (String a s)) (String a s))
    as Hsplit.
  destruct (first_unit_cases a s) as [Hself|(Hu & Hskip & Hlt)].
  - remember (first_bytes (unit_length (String a s)) (String a s)) as u.
    remember (skip_bytes (unit_length (String a s)) (String a s)) as s1.
    clear Hequ Heqs1.
    destruct u as [|a0 [|b x]]; [discriminate| |].
    + rewrite append_cons in Hsplit. injection Hsplit as Ha Hs.
      change (s1 = s) in Hs. subst a0 s1. apply Hone; auto.
    + rewrite <- Hsplit. rewrite <- Hsplit in Hunits.
      rewrite append_cons in Hsplit. injection Hsplit as Ha _. subst a0.
      apply Hmulti; auto.
  - rewrite Hu, Hskip in Hunits. rewrite Hskip in IH. apply Hone; auto.
Qed.

Lemma lower_ascii_bytes (a : ascii) :
  is_continuation (Str.lower_ascii a) = is_continuation a
  /\ announced (Str.lower_ascii a) = announced a
  /\ Str.is_upper (Str.lower_ascii a) = false
  /\ Str.lower_ascii (Str.lower_ascii a) = Str.lower_ascii a
  /\ (is_continuation a = true -> Str.lower_ascii a = a)
  /\ (is_continuation a = true -> Str.is_upper a = false)
  /\ ((1 <= announced a)%nat ->
      Str.is_upper a = false /\ is_continuation a = false
      /\ Str.lower_ascii a = a).
Proof.
  destruct a as [[] [] [] [] [] [] [] []]; vm_compute;
    repeat split; try reflexivity; try discriminate; try lia.
Qed.

Lemma lowercase_in_table (table : list (Z * list Z)) (cp : Z)
    (mapped : list Z) :
  Unicode.lowercase_in table cp = Some mapped -> In (cp, mapped) table.
Proof.
  induction table as [|[key v] table IH]; [discriminate|].
  cbn [Unicode.lowercase_in].
  destruct (Z.eqb_spec key cp) as [->|_].
  - intros [= ->]. now left.
  - intros H. right. now apply IH.
Qed.

Lemma lowercase_table_steady :
  forallb (fun entry => steady (encode_all (snd entry))) Unicode.LOWERCASE
  = true.
Proof. vm_compute. reflexivity. Qed.

Lemma lowercase_steady (cp : Z) (mapped : list Z) :
  Unicode.lowercase cp = Some mapped -> steady (encode_all mapped) = true.
Proof.
  intros H. apply lowercase_in_table in H.
  pose proof lowercase_table_steady as Hall.
  rewrite forallb_forall in Hall. exact (Hall _ H).
Qed.

End Lowercase.

(** ** Lowercase *)

Section Lowering.

Import Utf8 Spec.

Lemma steady_parts (o : string) :
  steady o = true ->
  o <> ""
  /\ continuation_prefix o = 0%nat
  /\ forallb self_contained (units o) = true
  /\ forallb settled (units o) = true
  /\ Str.exists_char Str.is_upper o = false.
Proof.
  unfold steady. intros H.
  apply andb_true_iff in H as [H Hup]. apply andb_true_iff in H as [H Hset].
  apply andb_true_iff in H as [H Hself]. apply andb_true_iff in H as [Hne H0].
  apply Nat.eqb_eq in H0. apply negb_true_iff in Hup.
  repeat split; try assumption. now destruct o.
Qed.

(** A character of more than one byte is lowered to a steady text or stays
    as it is. *)
Lemma lower_unit_multi (seen rest : list string) (a b : ascii) (x : string) :
  let u := String a (String b x) in
  steady (Str.lower_unit seen u rest) = true
  \/ (Str.lower_unit seen u rest = u /\ settled u = true).
Proof.
  cbv zeta. unfold Str.lower_unit, settled.
  destruct (code_point (String a (String b x)) =? 931) eqn:Hsigma.
  - left. now destruct (Str.next_cased seen && negb (Str.next_cased rest)).
  - destruct (Unicode.lowercase (code_point (String a (String b x))))
      as [mapped|] eqn:Hlow.
    + left. apply (lowercase_steady _ _ Hlow).
    + now right.
Qed.

Lemma exists_char_app (p : ascii -> bool) (a b : string) :
  Str.exists_char p (a +:+ b) = Str.exists_char p a || Str.exists_char p b.
Proof.
  induction a as [|c a IH]; [reflexivity|].
  rewrite append_cons. cbn [Str.exists_char]. now rewrite IH, orb_assoc.
Qed.

Lemma all_continuation_no_upper (x : string) :
  all_continuation x = true -> Str.exists_char Str.is_upper x = false.
Proof.
  unfold all_continuation. induction x as [|c x IH]; [reflexivity|].
  cbn [continuation_prefix String.length Str.exists_char].
  destruct (is_continuation c) eqn:Hc; [|discriminate].
  intros H. cbn [Nat.eqb] in H. rewrite (IH H).
  destruct (lower_ascii_bytes c) as (_ & _ & _ & _ & _ & Hup & _).
  now rewrite (Hup Hc).
Qed.

Lemma self_contained_multi (a b : ascii) (x : string) :
  self_contained (String a (String b x)) = true ->
  Str.exists_char Str.is_upper (String a (String b x)) = false
  /\ is_continuation a = false.
Proof.
  cbn [self_contained]. intros [Hn Hx]%andb_true_iff.
  apply Nat.eqb_eq in Hn. cbn [String.length] in Hn.
  destruct (lower_ascii_bytes a) as (_ & _ & _ & _ & _ & _ & Hlead).
  destruct (Hlead ltac:(lia)) as (Hup & Hc & _).
  split; [|exact Hc].
  change (Str.is_upper a || Str.exists_char Str.is_upper (String b x) = false).
  now rewrite Hup, (all_continuation_no_upper _ Hx).
Qed.

Lemma continuation_prefix_cons_app (o t : string) :
  o <> "" -> continuation_prefix o = 0%nat ->
  continuation_prefix (o +:+ t) = 0%nat.
Proof.
  destruct o as [|c o]; [congruence|]. intros _. rewrite append_cons.
  cbn [continuation_prefix]. now destruct (is_continuation c).
Qed.

(** Lowering keeps the continuation bytes a text starts with. *)
Lemma continuation_prefix_lower (s : string) (seen : list string) :
  continuation_prefix (Str.lower_units seen (units s))
  = continuation_prefix s.
Proof.
  revert seen.
  induction s as [|a s Hcase Hunits IH|a b x s Hself Hunits IH]
    using units_cases_ind; intros seen; [reflexivity| |].
  - rewrite Hunits. cbn [Str.lower_units Str.lower_unit].
    rewrite append_cons. cbn [continuation_prefix].
    destruct (lower_ascii_bytes a) as (-> & _).
    change (String.append "" ?t) with t. now rewrite IH.
  - rewrite Hunits. cbn [Str.lower_units].
    destruct (self_contained_multi _ _ _ Hself) as [_ Hc].
    rewrite (append_cons a). cbn [continuation_prefix]. rewrite Hc.
    destruct (lower_unit_multi seen (units s) a b x) as [Hst|[-> _]].
    + apply steady_parts in Hst as (Hne & H0 & _).
      now apply continuation_prefix_cons_app.
    + rewrite append_cons. cbn [continuation_prefix]. now rewrite Hc.
Qed.

(** What lowering writes: the characters of the result are settled, none
    is a capital letter from A to Z, and the result is empty only for the
    empty text. *)
Lemma lower_units_shape (s : string) (seen : list string) :
  forallb settled (units (Str.lower_units seen (units s))) = true
  /\ Str.exists_char Str.is_upper (Str.lower_units seen (units s)) = false
  /\ Str.truthy (Str.lower_units seen (units s)) = Str.truthy s.
Proof.
  revert seen.
  induction s as [|a s Hcase Hunits IH|a b x s Hself Hunits IH]
    using units_cases_ind; intros seen; [now repeat split| |].
  - rewrite Hunits. cbn [Str.lower_units Str.lower_unit].
    destruct (IH (String a "" :: seen)) as (IHset & IHup & _).
    destruct (lower_ascii_bytes a)
      as (_ & Hann & Hup & Hidem & _ & _ & Hlead).
    rewrite append_cons. change (String.append "" ?t) with t.
    assert (Hone : units (String (Str.lower_ascii a)
                            (Str.lower_units (String a "" :: seen) (units s)))
                   = String (Str.lower_ascii a) ""
                     :: units (Str.lower_units (String a "" :: seen)
                                 (units s))).
    { destruct Hcase as [Hself|Hlt].
      - apply (units_self_contained (String (Str.lower_ascii a) "")).
        cbn [self_contained] in *. now rewrite Hann.
      - rewrite units_cons.
        assert (Hlen : unit_length
                         (String (Str.lower_ascii a)
                            (Str.lower_units (String a "" :: seen) (units s)))
                       = 1%nat).
        { cbn [unit_length]. rewrite continuation_prefix_lower, Hann.
          destruct (Nat.leb_spec (announced a) (continuation_prefix s));
            [lia|reflexivity]. }
        rewrite Hlen.
        now destruct (Str.lower_units (String a "" :: seen) (units s)). }
    rewrite Hone. cbn [forallb settled Str.exists_char Str.truthy].
    now rewrite Hidem, Ascii.eqb_refl, IHset, Hup, IHup.
  - rewrite Hunits. cbn [Str.lower_units].
    destruct (IH (String a (String b x) :: seen)) as (IHset & IHup & _).
    destruct (self_contained_multi _ _ _ Hself) as [Hup _].
    destruct (lower_unit_multi seen (units s) a b x) as [Hst|[-> Hset]].
    + apply steady_parts in Hst as (Hne & _ & Hselfs & Hsets & Hups).
      rewrite (units_self_contained_app _ _ Hselfs), forallb_app.
      rewrite Hsets, IHset, exists_char_app, Hups, IHup.
      repeat split.
      destruct (Str.lower_unit seen (String a (String b x)) (units s));
        [congruence|reflexivity].
    + rewrite (units_self_contained _ _ Hself). cbn [forallb].
      rewrite Hset, IHset, exists_char_app, Hup, IHup. now repeat split.
Qed.

Lemma settled_lower_unit (seen rest : list string) (u : string) :
  settled u = true -> Str.lower_unit seen u rest = u.
Proof.
  unfold settled, Str.lower_unit.
  destruct u as [|a [|b x]].
  - intros [Hs Hl]%andb_true_iff. apply negb_true_iff in Hs. rewrite Hs.
    now destruct (Unicode.lowercase (code_point "")).
  - intros H%Ascii.eqb_eq. now rewrite H.
  - intros [Hs Hl]%andb_true_iff. apply negb_true_iff in Hs. rewrite Hs.
    now destruct (Unicode.lowercase (code_point (String a (String b x)))).
Qed.

Lemma lower_units_settled (us seen : list string) :
  forallb settled us = true -> Str.lower_units seen us = text us.
Proof.
  revert seen. induction us as [|u us IH]; intros seen; [reflexivity|].
  cbn [forallb]. intros [Hu Hus]%andb_true_iff.
  cbn [Str.lower_units text].
  now rewrite (settled_lower_unit _ _ _ Hu), (IH _ Hus).
Qed.

(** A text of settled characters is its own lowercase. *)
Lemma lower_settled (s : string) :
  forallb settled (units s) = true -> Str.lower s = s.
Proof.
  intros H. unfold Str.lower. rewrite (lower_units_settled _ _ H).
  apply text_units.
Qed.

Lemma lower_ascii_idem (c : ascii) :
  Str.lower_ascii (Str.lower_ascii c) = Str.lower_ascii c.
Proof. destruct c as [[] [] [] [] [] [] [] []]; reflexivity. Qed.

(** [str.lower] is idempotent. *)
Lemma lower_idem (s : string) : Str.lower (Str.lower s) = Str.lower s.
Proof. apply lower_settled, (lower_units_shape s []). Qed.

(** A lowercased string has no capital letter from A to Z. *)
Lemma lower_no_upper (s : string) :
  Str.exists_char Str.is_upper (Str.lower s) = false.
Proof. apply (lower_units_shape s []). Qed.

Lemma truthy_lower (s : string) : Str.truthy (Str.lower s) = Str.truthy s.
Proof. apply (lower_units_shape s []). Qed.

(** [lower] beyond A to Z: the Kelvin sign becomes k, a capital with an
    accent its small letter, the capital I with a dot two characters, and
    the capital sigma the final sigma at the end of a word only. *)
Example lower_of_other_letters :
  Str.lower ("MacBoo" +:+ encode 0x212A +:+ "_Pro") = "macbook_pro"
  /\ Str.lower ("CAF" +:+ encode 0xC9) = "caf" +:+ encode 0xE9
  /\ Str.lower (encode 0x130) = "i" +:+ encode 0x307
  /\ Str.lower (encode_all [0x39F; 0x394; 0x39F; 0x3A3])
     = encode_all [0x3BF; 0x3B4; 0x3BF; 0x3C2]
  /\ Str.lower (encode_all [0x3A3; 0x39F])
     = encode_all [0x3C3; 0x3BF]
  /\ Str.lower (encode 0x3A3) = encode 0x3C3.
Proof. repeat split. Qed.

End Lowering.

(** ** Spaces replaced by underscores *)

Section Replacing.

Import Utf8 Spec.

Lemma replace_space_bytes (c : ascii) :
  let d := if Ascii.eqb c " " then "_"%char else c in
  is_continuation d = is_continuation c /\ announced d = announced c
  /\ Ascii.eqb d " " = false
  /\ (Str.lower_ascii c = c -> Str.lower_ascii d = d)
  /\ ((is_continuation c = true \/ (1 <= announced c)%nat) -> d = c).
Proof.
  cbv zeta. destruct (Ascii.eqb_spec c " ") as [->|Hne].
  - vm_compute. repeat split; try reflexivity. intros [?|?]; [discriminate|lia].
  - repeat split; try reflexivity; try tauto.
    now apply Ascii.eqb_neq.
Qed.

Lemma replace_char_app (old new : ascii) (a b : string) :
  Str.replace_char old new (a +:+ b)
  = Str.replace_char old new a +:+ Str.replace_char old new b.
Proof.
  induction a as [|c a IH]; [reflexivity|].
  rewrite append_cons. cbn [Str.replace_char]. now rewrite IH.
Qed.

Lemma continuation_prefix_replace (s : string) :
  continuation_prefix (Str.replace_char " " "_" s) = continuation_prefix s.
Proof.
  induction s as [|c s IH]; [reflexivity|].
  cbn [Str.replace_char continuation_prefix].
  destruct (replace_space_bytes c) as (-> & _). now rewrite IH.
Qed.

Lemma all_continuation_replace (x : string) :
  all_continuation x = true -> Str.replace_char " " "_" x = x.
Proof.
  unfold all_continuation. induction x as [|c x IH]; [reflexivity|].
  cbn [continuation_prefix String.length Str.replace_char].
  destruct (is_continuation c) eqn:Hc; [|discriminate].
  intros H. cbn [Nat.eqb] in H. rewrite (IH H).
  destruct (replace_space_bytes c) as (_ & _ & _ & _ & Ha).
  rewrite Ha; [reflexivity|now left].
Qed.

Lemma self_contained_replace (a b : ascii) (x : string) :
  self_contained (String a (String b x)) = true ->
  Str.replace_char " " "_" (String a (String b x)) = String a (String b x).
Proof.
  cbn [self_contained]. intros [Hn Hx]%andb_true_iff.
  apply Nat.eqb_eq in Hn. cbn [String.length] in Hn.
  change (Str.replace_char " " "_" (String a (String b x)))
    with (String (if Ascii.eqb a " " then "_"%char else a)
            (Str.replace_char " " "_" (String b x))).
  rewrite (all_continuation_replace _ Hx).
  destruct (replace_space_bytes a) as (_ & _ & _ & _ & Ha).
  rewrite Ha; [reflexivity|right; lia].
Qed.

(** Replacing spaces by underscores keeps the characters of a text in
    place, and settled characters settled. *)
Lemma units_replace (s : string) :
  units (Str.replace_char " " "_" s)
  = map (Str.replace_char " " "_") (units s)
  /\ (forallb settled (units s) = true ->
      forallb settled (units (Str.replace_char " " "_" s)) = true).
Proof.
  induction s as [|a s Hcase Hunits [IH IHset]|a b x s Hself Hunits [IH IHset]]
    using units_cases_ind; [now split| |].
  - rewrite Hunits. cbn [map Str.replace_char forallb].
    destruct (replace_space_bytes a) as (Hc & Hann & _ & Hlow & _).
    assert (Hone : units (String (if Ascii.eqb a " " then "_"%char else a)
                            (Str.replace_char " " "_" s))
                   = String (if Ascii.eqb a " " then "_"%char else a) ""
                     :: units (Str.replace_char " " "_" s)).
    { destruct Hcase as [Hself|Hlt].
      - apply (units_self_contained (String _ "")).
        cbn [self_contained] in *. now rewrite Hann.
      - rewrite units_cons.
        assert (Hlen : unit_length
                         (String (if Ascii.eqb a " " then "_"%char else a)
                            (Str.replace_char " " "_" s))
                       = 1%nat).
        { cbn [unit_length]. rewrite continuation_prefix_replace, Hann.
          destruct (Nat.leb_spec (announced a) (continuation_prefix s));
            [lia|reflexivity]. }
        rewrite Hlen. now destruct (Str.replace_char " " "_" s). }
    rewrite Hone, IH. split; [reflexivity|].
    cbn [forallb]. intros [Ha Hs]%andb_true_iff. rewrite <- IH, (IHset Hs).
    cbn [settled] in *. apply Ascii.eqb_eq in Ha.
    now rewrite (Hlow Ha), Ascii.eqb_refl.
  - rewrite Hunits, replace_char_app, (self_contained_replace _ _ _ Hself).
    rewrite (units_self_contained _ _ Hself), IH. cbn [map forallb].
    rewrite (self_contained_replace _ _ _ Hself). split; [reflexivity|].
    intros [Hu Hs]%andb_true_iff. now rewrite Hu, <- IH, (IHset Hs).
Qed.

Lemma replace_char_idem (s : string) :
  Str.replace_char " " "_" (Str.replace_char " " "_" s)
  = Str.replace_char " " "_" s.
Proof.
  induction s as [|c s IH]; [reflexivity|]. cbn [Str.replace_char].
  rewrite IH. destruct (replace_space_bytes c) as (_ & _ & -> & _).
  reflexivity.
Qed.

Lemma education_normal_form_idem (s : string) :
  Str.replace_char " " "_" (Str.lower (Str.replace_char " " "_" (Str.lower s)))
  = Str.replace_char " " "_" (Str.lower s).
Proof.
  rewrite (lower_settled (Str.replace_char " " "_" (Str.lower s))).
  - apply replace_char_idem.
  - apply units_replace, (lower_units_shape s []).
Qed.

End Replacing.

(** ** White space at the ends of a text *)

Section Stripping.

Import Utf8 MainAgent ChatHandlers Spec.

Lemma lstrip_units_blank_app (lead rest : list string) :
  forallb is_space lead = true ->
  lstrip_units (lead ++ rest) = lstrip_units rest.
Proof.
  induction lead as [|u lead IH]; [reflexivity|].
  cbn [forallb]. intros [Hu Hlead]%andb_true_iff.
  cbn [app lstrip_units]. rewrite Hu. now apply IH.
Qed.

Lemma rstrip_units_blank (trail : list string) :
  forallb is_space trail = true -> rstrip_units trail = [].
Proof.
  induction trail as [|u trail IH]; [reflexivity|].
  cbn [forallb]. intros [Hu Htrail]%andb_true_iff.
  cbn [rstrip_units]. now rewrite (IH Htrail), Hu.
Qed.

Lemma rstrip_units_app_blank (us trail : list string) :
  forallb is_space trail = true ->
  rstrip_units (us ++ trail) = rstrip_units us.
Proof.
  intros Hblank. induction us as [|u us IH]; [now apply rstrip_units_blank|].
  cbn [app rstrip_units]. now rewrite IH.
Qed.

Lemma rstrip_units_cons (u : string) (us : list string) :
  is_space u = false -> rstrip_units (u :: us) = u :: rstrip_units us.
Proof.
  intros Hu. cbn [rstrip_units].
  destruct (rstrip_units us); [now rewrite Hu|reflexivity].
Qed.

Lemma rstrip_units_keeps (us t : list string) :
  rstrip_units t = t -> t <> [] -> rstrip_units (us ++ t) = (us ++ t)%list.
Proof.
  intros Ht Hne. induction us as [|u us IH]; [exact Ht|].
  cbn [app rstrip_units]. rewrite IH.
  destruct (us ++ t)%list eqn:Happ; [|reflexivity].
  apply app_eq_nil in Happ as [_ Hnil]. congruence.
Qed.

Lemma rstrip_units_step (u : string) (us : list string) :
  rstrip_units (u :: us)
  = match rstrip_units us with
    | [] => if is_space u then [] else [u]
    | kept => u :: kept
    end.
Proof. reflexivity. Qed.

Lemma rstrip_units_idem (us : list string) :
  rstrip_units (rstrip_units us) = rstrip_units us.
Proof.
  induction us as [|u us IH]; [reflexivity|].
  cbn [rstrip_units]. destruct (rstrip_units us) as [|k kept] eqn:Hkept.
  - destruct (is_space u) eqn:Hu; [reflexivity|].
    cbn [rstrip_units]. now rewrite Hu.
  - rewrite (rstrip_units_step u (k :: kept)). now rewrite IH.
Qed.

Lemma lstrip_units_head (us : list string) :
  match lstrip_units us with
  | [] => True
  | u :: _ => is_space u = false
  end.
Proof.
  induction us as [|u us IH]; [exact I|].
  cbn [lstrip_units]. destruct (is_space u) eqn:Hu; [exact IH|exact Hu].
Qed.

Lemma lstrip_units_keeps (u : string) (us : list string) :
  is_space u = false -> lstrip_units (u :: us) = u :: us.
Proof. intros Hu. cbn [lstrip_units]. now rewrite Hu. Qed.

Lemma strip_units_idem (us : list string) :
  rstrip_units (lstrip_units (rstrip_units (lstrip_units us)))
  = rstrip_units (lstrip_units us).
Proof.
  pose proof (lstrip_units_head us) as Hhead.
  destruct (lstrip_units us) as [|u t]; [reflexivity|].
  rewrite (rstrip_units_cons u t Hhead), (lstrip_units_keeps _ _ Hhead).
  now rewrite (rstrip_units_cons _ _ Hhead), rstrip_units_idem.
Qed.

Lemma lstrip_units_suffix (us : list string) :
  exists before, us = (before ++ lstrip_units us)%list.
Proof.
  induction us as [|u us [before IH]]; [now exists []|].
  cbn [lstrip_units]. destruct (is_space u).
  - exists (u :: before). cbn [app]. now rewrite <- IH.
  - now exists [].
Qed.

Lemma rstrip_units_prefix (us : list string) :
  exists after, us = (rstrip_units us ++ after)%list.
Proof.
  induction us as [|u us [after IH]]; [now exists []|].
  cbn [rstrip_units]. destruct (rstrip_units us) as [|k kept].
  - destruct (is_space u).
    + now exists (u :: us).
    + exists us. reflexivity.
  - exists after. change (u :: us = u :: ((k :: kept) ++ after)%list).
    now f_equal.
Qed.

(** The characters after the first ones of a text are the characters of
    the rest of the text. *)
Lemma units_suffix (before after : list string) (s : string) :
  units s = (before ++ after)%list -> exists s', after = units s'.
Proof.
  revert s. induction before as [|u before IH]; intros s Hs.
  - now exists s.
  - destruct s as [|a s]; [discriminate|]. rewrite units_cons in Hs.
    cbn [app] in Hs. injection Hs as _ Hs. exact (IH _ Hs).
Qed.

Lemma text_prefix_continuation (before after : list string) (s : string) :
  units s = (before ++ after)%list ->
  (continuation_prefix (text before) <= continuation_prefix s)%nat.
Proof.
  intros Hs. rewrite <- (text_units s), Hs, text_app.
  apply continuation_prefix_app_ge.
Qed.

(** The first characters of a text, written out, are cut into the same
    characters. *)
Lemma units_prefix (s : string) (before after : list string) :
  units s = (before ++ after)%list -> units (text before) = before.
Proof.
  revert before.
  induction s as [|a s Hcase Hunits IH|a b x s Hself Hunits IH]
    using units_cases_ind; intros before Hs.
  - destruct before; [reflexivity|discriminate].
  - rewrite Hunits in Hs. destruct before as [|u before]; [reflexivity|].
    cbn [app] in Hs. injection Hs as <- Hs. cbn [text].
    destruct Hcase as [Hself|Hlt].
    + rewrite (units_self_contained (String a "") _ Hself).
      now rewrite (IH _ Hs).
    + rewrite append_cons. change (String.append "" ?t) with t.
      rewrite units_cons.
      assert (Hlen : unit_length (String a (text before)) = 1%nat).
      { cbn [unit_length].
        pose proof (text_prefix_continuation _ _ _ Hs).
        destruct (Nat.leb_spec (announced a)
                    (continuation_prefix (text before)));
          [lia|reflexivity]. }
      rewrite Hlen.
      assert (H1 : forall t, first_bytes 1 (String a t) = String a "")
        by now intros [].
      assert (H2 : forall t, skip_bytes 1 (String a t) = t) by now intros [].
      now rewrite H1, H2, (IH _ Hs).
  - rewrite Hunits in Hs. destruct before as [|u before]; [reflexivity|].
    cbn [app] in Hs. injection Hs as <- Hs. cbn [text].
    now rewrite (units_self_contained _ _ Hself), (IH _ Hs).
Qed.

(** A run of characters of a text, written out, is cut into the same
    characters. *)
Lemma units_infix (s : string) (before kept after : list string) :
  units s = (before ++ kept ++ after)%list -> units (text kept) = kept.
Proof.
  intros Hs. destruct (units_suffix _ _ _ Hs) as [s' Hs'].
  symmetry in Hs'. exact (units_prefix _ _ _ Hs').
Qed.

Lemma units_strip (s : string) :
  units (strip s) = rstrip_units (lstrip_units (units s)).
Proof.
  unfold strip.
  destruct (lstrip_units_suffix (units s)) as [before Hbefore].
  destruct (rstrip_units_prefix (lstrip_units (units s))) as [after Hafter].
  apply (units_infix s before _ after). now rewrite <- Hafter.
Qed.

(** [strip] is idempotent. *)
Lemma strip_idem (s : string) : strip (strip s) = strip s.
Proof.
  unfold strip at 1. rewrite units_strip, strip_units_idem. reflexivity.
Qed.

Lemma skipn_length_app {A} (a b : list A) :
  skipn (List.length a) (a ++ b) = b.
Proof. induction a as [|x a IH]; [reflexivity|exact IH]. Qed.

Lemma firstn_length_app {A} (a b : list A) :
  firstn (List.length a) (a ++ b) = a.
Proof.
  induction a as [|x a IH]; [now destruct b|].
  cbn [List.length app firstn]. now rewrite IH.
Qed.

Lemma continuation_prefix_starts (c : ascii) (opening rest : string) :
  is_continuation c = false ->
  continuation_prefix (String c opening +:+ rest) = 0%nat.
Proof.
  intros Hc. rewrite append_cons. cbn [continuation_prefix]. now rewrite Hc.
Qed.

(** The characters of a fenced reply: those of its five parts, one after
    the other. *)
Lemma units_fenced (lead opening body trail : string) :
  forallb self_contained (units ("`" +:+ opening)) = true ->
  units (lead +:+ ("`" +:+ opening) +:+ body +:+ "```" +:+ trail)
  = (units lead ++ units ("`" +:+ opening) ++ units body ++ units "```"
     ++ units trail)%list.
Proof.
  intros Hself.
  rewrite (units_app lead)
    by now apply (continuation_prefix_starts "`" opening).
  rewrite (units_self_contained_app _ _ Hself).
  rewrite (units_app body)
    by now apply (continuation_prefix_starts "`" "``").
  now rewrite (units_self_contained_app "```" trail).
Qed.

(** The text between an opening fence and the closing fence. *)
Lemma slice_fenced (opening body : string) :
  forallb self_contained (units ("`" +:+ opening)) = true ->
  slice (List.length (units ("`" +:+ opening))) 3
    (("`" +:+ opening) +:+ body +:+ "```")
  = body.
Proof.
  intros Hself. unfold slice. cbv zeta.
  rewrite (units_self_contained_app _ _ Hself).
  rewrite (units_app body)
    by now apply (continuation_prefix_starts "`" "``").
  rewrite skipn_length_app, !List.length_app.
  replace (List.length (units ("`" +:+ opening))
           + (List.length (units body) + List.length (units "```"))
           - 3 - List.length (units ("`" +:+ opening)))%nat
    with (List.length (units body))
    by (change (List.length (units "```")) with 3%nat; lia).
  rewrite firstn_length_app. apply text_units.
Qed.

Lemma strip_fenced (lead opening body trail : string) :
  blank lead = true ->
  blank trail = true ->
  forallb self_contained (units ("`" +:+ opening)) = true ->
  lstrip_units (units ("`" +:+ opening)) = units ("`" +:+ opening) ->
  strip (lead +:+ ("`" +:+ opening) +:+ body +:+ "```" +:+ trail)
  = ("`" +:+ opening) +:+ body +:+ "```".
Proof.
  intros Hlead Htrail Hself Hopening. unfold strip.
  rewrite (units_fenced _ _ _ _ Hself).
  rewrite (lstrip_units_blank_app _ _ Hlead).
  assert (Hkeep : forall rest,
             lstrip_units (units ("`" +:+ opening) ++ rest)
             = (units ("`" +:+ opening) ++ rest)%list).
  { intros rest. pose proof (lstrip_units_head (units ("`" +:+ opening)))
      as Hhead. rewrite Hopening in Hhead.
    destruct (units ("`" +:+ opening)) as [|u us] eqn:Hunits.
    - change ("`" +:+ opening) with (String "`" opening) in Hunits.
      rewrite units_cons in Hunits. discriminate.
    - cbn [app]. now apply lstrip_units_keeps. }
  rewrite Hkeep.
  rewrite (app_assoc (units body)), (app_assoc (units ("`" +:+ opening))).
  rewrite (rstrip_units_app_blank _ _ Htrail).
  rewrite (app_assoc (units ("`" +:+ opening))).
  rewrite rstrip_units_keeps by (reflexivity || discriminate).
  rewrite !text_app, !text_units. now rewrite append_assoc.
Qed.

(** White space after a text does not change what [strip] keeps of it. *)
Lemma strip_app_blank (s trail : string) :
  blank trail = true ->
  continuation_prefix trail = 0%nat ->
  strip (s +:+ trail) = strip s.
Proof.
  intros Hblank Htrail. unfold strip. rewrite (units_app _ _ Htrail).
  f_equal. induction (units s) as [|u us IH].
  - cbn [app lstrip_units].
    destruct (lstrip_units_suffix (units trail)) as [before Hbefore].
    assert (Hrest : forallb is_space (lstrip_units (units trail)) = true).
    { unfold blank in Hblank. rewrite Hbefore, forallb_app in Hblank.
      now apply andb_true_iff in Hblank as [_ Hb]. }
    now rewrite (rstrip_units_blank _ Hrest).
  - cbn [app lstrip_units]. destruct (is_space u); [exact IH|].
    now apply (rstrip_units_app_blank (u :: us)).
Qed.

(** [strip] and the slices count characters, and white space is that of
    Unicode: the no-break space and the line separator go, the zero-width
    space stays. *)
Example strip_of_other_spaces :
  strip (encode 0xA0 +:+ " {} " +:+ encode 0x2028) = "{}"
  /\ strip (encode 0x3000 +:+ encode 0x200B +:+ encode 0x85)
     = encode 0x200B
  /\ slice 1 1 (encode 0xE9 +:+ "a" +:+ encode 0x20AC) = "a"
  /\ slice 3 3 "````" = "".
Proof. repeat split. Qed.

End Stripping.

(** ** Strings *)

Section StringFacts.

Lemma prefix_exists_char (p : ascii -> bool) (needle hay : string) :
  String.prefix needle hay = true ->
  Str.exists_char p needle = true ->
  Str.exists_char p hay = true.
Proof.
  revert hay. induction needle as [|c needle IH]; intros hay Hpre Hex.
  - discriminate.
  - destruct hay as [|d hay]; simpl in Hpre; [discriminate|].
    destruct (Ascii.ascii_dec c d) as [->|Hne]; [|discriminate].
    simpl in *. destruct (p d); [reflexivity|]. simpl in *. eauto.
Qed.

Lemma contains_cons (needle : string) (d : ascii) (hay : string) :
  Str.contains needle (String d hay)
  = String.prefix needle (String d hay) || Str.contains needle hay.
Proof. reflexivity. Qed.

(** A substring's characters are characters of the whole. *)
Lemma contains_exists_char (p : ascii -> bool) (needle hay : string) :
  Str.contains needle hay = true ->
  Str.exists_char p needle = true ->
  Str.exists_char p hay = true.
Proof.
  induction hay as [|d hay IH]; intros Hc Hex.
  - destruct needle; [discriminate Hex|discriminate Hc].
  - rewrite contains_cons in Hc. apply orb_true_iff in Hc as [Hpre|Hc].
    + apply (prefix_exists_char p _ _ Hpre Hex).
    + simpl. rewrite (IH Hc Hex). apply orb_true_r.
Qed.

(** No string with a capital letter occurs in a lowercased string. *)
Lemma capital_not_in_lower (needle s : string) :
  Str.exists_char Str.is_upper needle = true ->
  Str.contains needle (Str.lower s) = false.
Proof.
  intros Hup. destruct (Str.contains needle (Str.lower s)) eqn:Hc; [|reflexivity].
  pose proof (contains_exists_char _ _ _ Hc Hup) as H.
  rewrite lower_no_upper in H. discriminate.
Qed.

Lemma contains_app_r (needle a b : string) :
  Str.contains needle b = true -> Str.contains needle (a +:+ b) = true.
Proof.
  intros Hb. induction a as [|c a IH]; [exact Hb|].
  change (String c a +:+ b) with (String c (a +:+ b)).
  rewrite contains_cons, IH. apply orb_true_r.
Qed.

Lemma prefix_app (needle b : string) :
  String.prefix needle (needle +:+ b) = true.
Proof.
  induction needle as [|c needle IH]; simpl; [now destruct b|].
  destruct (Ascii.ascii_dec c c); [exact IH|congruence].
Qed.

Lemma contains_app_l (needle b : string) :
  Str.contains needle (needle +:+ b) = true.
Proof.
  destruct needle as [|c needle].
  - destruct b; reflexivity.
  - change (String c needle +:+ b) with (String c (needle +:+ b)).
    rewrite contains_cons.
    change (String c (needle +:+ b)) with (String c needle +:+ b).
    now rewrite prefix_app.
Qed.

Lemma app_nonempty (a b : string) : a <> "" -> a +:+ b <> "".
Proof. destruct a; [congruence|discriminate]. Qed.

Lemma truthy_nonempty (s : string) : Str.truthy s = true <-> s <> "".
Proof. destruct s; simpl; split; congruence. Qed.

Lemma length_app (a b : string) :
  String.length (a +:+ b) = (String.length a + String.length b)%nat.
Proof.
  induction a as [|c a IH]; [reflexivity|].
  change (String c a +:+ b) with (String c (a +:+ b)).
  cbn [String.length]. now rewrite IH.
Qed.



End StringFacts.

(** ** Identifier normalization *)

Section Normalization.

Import ReputationScore CarbonFootprint ChatProtocol.

Lemma truthy_replace_char (old new : ascii) (s : string) :
  Str.truthy (Str.replace_char old new s) = Str.truthy s.
Proof. destruct s; reflexivity. Qed.

(** The alias table only produces the two canonical entity names. *)
Lemma name_mappings_values (k v : string) :
  Py.lookup name_mappings k = Some v ->
  v = "decentra_dao" \/ v = "alex_developer".
Proof.
  unfold name_mappings. cbn [Py.lookup].
  repeat (destruct (String.eqb _ k);
          [intros [= <-]; auto|]).
  discriminate.
Qed.

Lemma normalize_reputation_truthy (x : string) :
  Str.truthy x = true ->
  normalize_reputation_identifier x
  = match Py.lookup name_mappings (Str.lower x) with
    | Some mapped => mapped
    | None => Str.lower x
    end.
Proof.
  intros Hx. unfold normalize_reputation_identifier. now rewrite Hx.
Qed.

Lemma normalize_reputation_falsy (x : string) :
  Str.truthy x = false -> normalize_reputation_identifier x = x.
Proof.
  intros Hx. unfold normalize_reputation_identifier. now rewrite Hx.
Qed.

Lemma normalize_reputation_idem (x : string) :
  normalize_reputation_identifier (normalize_reputation_identifier x)
  = normalize_reputation_identifier x.
Proof.
  destruct (Str.truthy x) eqn:Hx.
  - rewrite (normalize_reputation_truthy x Hx).
    destruct (Py.lookup name_mappings (Str.lower x)) as [v|] eqn:Hv.
    + destruct (name_mappings_values _ _ Hv) as [-> | ->];
        vm_compute; reflexivity.
    + rewrite normalize_reputation_truthy by now rewrite truthy_lower.
      now rewrite lower_idem, Hv.
  - now rewrite !(normalize_reputation_falsy x Hx).
Qed.

Lemma normalize_carbon_idem (x : string) :
  normalize_carbon_identifier (normalize_carbon_identifier x)
  = normalize_carbon_identifier x.
Proof.
  unfold normalize_carbon_identifier.
  destruct (Str.truthy x) eqn:Hx; cbn [negb].
  - now rewrite truthy_lower, Hx, lower_idem.
  - now rewrite Hx.
Qed.

Lemma normalize_identifier_idem (x data_type : string) :
  normalize_identifier (normalize_identifier x data_type) data_type
  = normalize_identifier x data_type.
Proof.
  unfold normalize_identifier.
  destruct (Str.truthy x) eqn:Hx; cbn [negb].
  - destruct (String.eqb data_type "education_credential").
    + rewrite truthy_replace_char, truthy_lower, Hx. cbn [negb].
      apply education_normal_form_idem.
    + destruct (String.eqb data_type "reputation_score").
      * rewrite normalize_reputation_idem.
        now destruct (Str.truthy (normalize_reputation_identifier x)).
      * now rewrite Hx.
  - now rewrite Hx.
Qed.

(** C8: identifier normalization is idempotent for every domain and every
    input string: normalizing the result of [normalize_identifier] (any
    data type), of [normalize_reputation_identifier] (alias table
    included) or of [normalize_carbon_identifier] returns it unchanged; and
    each normalizer returns the empty string for the empty string. *)
Theorem normalization_idempotent :
  (forall x data_type : string,
      normalize_identifier (normalize_identifier x data_type) data_type
      = normalize_identifier x data_type)
  /\ (forall x : string,
         normalize_reputation_identifier (normalize_reputation_identifier x)
         = normalize_reputation_identifier x)
  /\ (forall x : string,
         normalize_carbon_identifier (normalize_carbon_identifier x)
         = normalize_carbon_identifier x)
  /\ (forall data_type : string, normalize_identifier "" data_type = "")
  /\ normalize_reputation_identifier "" = ""
  /\ normalize_carbon_identifier "" = "".
Proof.
  repeat split.
  - apply normalize_identifier_idem.
  - apply normalize_reputation_idem.
  - apply normalize_carbon_idem.
Qed.

End Normalization.

Lemma normalization_idempotent_witness :
  let kelvin_sign := Utf8.encode 0x212A in
  let x := "MacBoo" +:+ kelvin_sign +:+ " Pro " +:+ Utf8.encode 0xC9 in
  let normal := "macbook_pro_" +:+ Utf8.encode 0xE9 in
  ChatProtocol.normalize_identifier x "education_credential" = normal
  /\ ChatProtocol.normalize_identifier normal "education_credential" = normal
  /\ CarbonFootprint.normalize_carbon_identifier
       ("MacBoo" +:+ kelvin_sign +:+ "_Pro")
     = "macbook_pro"
  /\ CarbonFootprint.normalize_carbon_identifier
       (CarbonFootprint.normalize_carbon_identifier
          ("MacBoo" +:+ kelvin_sign +:+ "_Pro"))
     = "macbook_pro".
Proof.
  split; [reflexivity|]. split.
  - exact (proj1 normalization_idempotent
             ("MacBoo" +:+ Utf8.encode 0x212A +:+ " Pro "
              +:+ Utf8.encode 0xC9)
             "education_credential").
  - split; [reflexivity|].
    exact (proj1 (proj2 (proj2 normalization_idempotent))
             ("MacBoo" +:+ Utf8.encode 0x212A +:+ "_Pro")).
Defined.

(** ** Reputation aspects *)

Section Aspects.

Import ReputationScore Spec.

Lemma developer_heuristic_dead (available_aspects : list string) (s : string) :
  developer_heuristic available_aspects s = false.
Proof.
  unfold developer_heuristic.
  rewrite (capital_not_in_lower "Developer" s eq_refl). apply andb_false_r.
Qed.

Lemma service_heuristic_dead (available_aspects : list string) (s : string) :
  service_heuristic available_aspects s = false.
Proof.
  unfold service_heuristic.
  rewrite (capital_not_in_lower "Service" s eq_refl). apply andb_false_r.
Qed.

Lemma contributor_heuristic_dead (available_aspects : list string) (s : string) :
  contributor_heuristic available_aspects s = false.
Proof.
  unfold contributor_heuristic.
  rewrite (capital_not_in_lower "DAO" s eq_refl). apply andb_false_r.
Qed.

Lemma heuristic_aspect_prefix_or_general (available_aspects : list string)
    (s : string) :
  heuristic_aspect available_aspects s = prefix_or_general available_aspects s.
Proof.
  unfold heuristic_aspect.
  now rewrite developer_heuristic_dead, service_heuristic_dead,
    contributor_heuristic_dead.
Qed.

(** C4: for a reputation request whose entity exists and whose
    query_details names no aspect the entity has, none of the three
    substring tests ("Developer", "Service", "DAO" against the lowercased
    identifier) holds, whatever the identifier, and the aspect selected is
    the one the prefix rules or the "general" default give. *)
Theorem substring_heuristics_never_select
    (identifier : string) (query_details : option string)
    (aspects : list (string * dict)) :
  let normalized_identifier := normalize_reputation_identifier identifier in
  Py.lookup simulated_reputation_data normalized_identifier = Some aspects ->
  no_available_request aspects query_details ->
  developer_heuristic (Py.keys aspects) normalized_identifier = false
  /\ service_heuristic (Py.keys aspects) normalized_identifier = false
  /\ contributor_heuristic (Py.keys aspects) normalized_identifier = false
  /\ select_aspect (Py.keys aspects) (requested_aspect_of query_details)
       normalized_identifier
     = prefix_or_general (Py.keys aspects) normalized_identifier.
Proof.
  intros nid _ Hreq.
  split; [apply developer_heuristic_dead|].
  split; [apply service_heuristic_dead|].
  split; [apply contributor_heuristic_dead|].
  unfold select_aspect, no_available_request in *.
  destruct (requested_aspect_of query_details) as [requested|].
  - rewrite Hreq. apply heuristic_aspect_prefix_or_general.
  - apply heuristic_aspect_prefix_or_general.
Qed.

End Aspects.

Lemma substring_heuristics_never_select_witness :
  let aspects :=
    default [] (Py.lookup ReputationScore.simulated_reputation_data "decentra_dao") in
  ReputationScore.developer_heuristic (Py.keys aspects) "decentra_dao" = false
  /\ ReputationScore.service_heuristic (Py.keys aspects) "decentra_dao" = false
  /\ ReputationScore.contributor_heuristic (Py.keys aspects) "decentra_dao" = false
  /\ ReputationScore.select_aspect (Py.keys aspects)
       (ReputationScore.requested_aspect_of (Some "aspect=developer"))
       "decentra_dao"
     = "general".
Proof.
  exact (substring_heuristics_never_select "DecentraGov" (Some "aspect=developer")
           (default [] (Py.lookup ReputationScore.simulated_reputation_data
                          "decentra_dao"))
           eq_refl eq_refl).
Defined.

(** ** The fetch router: unsupported data types *)

Section Router.

Import DataSourceHandler Spec.
Context `{Runtime}.

(** C1: a request whose data_type, lowercased, is none of the five
    supported types is answered (not raised on) with an envelope whose
    data_payload is the empty mapping and whose error_message is a
    non-empty string naming each of the five supported types; the caches
    are left as they were. *)
Theorem unsupported_type_envelope
    (data_type identifier : string) (query_details : option string)
    (clk : clock) (response : upstream) (st : caches) :
  ~ In (Str.lower data_type) SUPPORTED ->
  exists (envelope : dict) (message : string),
    fetch_verifiable_data data_type identifier query_details clk response st
    = (st, Ok envelope)
    /\ Py.lookup envelope "data_payload" = Some (VDict [])
    /\ Py.lookup envelope "error_message" = Some (VStr message)
    /\ message <> ""
    /\ forall supported, In supported SUPPORTED ->
                         Str.contains supported message = true.
Proof.
  intros Hnot. unfold fetch_verifiable_data.
  repeat match goal with
         | |- context [String.eqb (Str.lower data_type) ?t] =>
             destruct (String.eqb_spec (Str.lower data_type) t) as [Heq|_];
             [exfalso; apply Hnot; rewrite Heq; simpl; tauto|]
         end.
  eexists _, _. split; [reflexivity|].
  split; [reflexivity|]. split; [reflexivity|].
  split; [discriminate|].
  intros supported Hin.
  apply contains_app_r, contains_app_r.
  simpl in Hin.
  destruct Hin as [<-|[<-|[<-|[<-|[<-|[]]]]]]; vm_compute; reflexivity.
Qed.

End Router.

Lemma unsupported_type_envelope_witness :
  exists (envelope : dict) (message : string),
    @DataSourceHandler.fetch_verifiable_data Spec.placeholder_runtime
      "stock_price" "aapl" None (Spec.clock_at "2025-01-01T00:00:00" 0)
      (Raise (RequestError "")) DataSourceHandler.no_caches
    = (DataSourceHandler.no_caches, Ok envelope)
    /\ Py.lookup envelope "data_payload" = Some (VDict [])
    /\ Py.lookup envelope "error_message" = Some (VStr message)
    /\ message <> ""
    /\ forall supported, In supported Spec.SUPPORTED ->
                         Str.contains supported message = true.
Proof.
  apply unsupported_type_envelope.
  vm_compute. intuition discriminate.
Defined.

(** ** The response formatter: error reports *)

Section Formatter.

Import ChatProtocol.
Context `{Runtime}.

(** C3: for an envelope whose error_message is set and non-empty,
    [format_response_for_chat] does not raise and returns the fixed Error
    Report block: the heading line, the line with the message, an empty
    line and the closing line, and nothing else.  The text contains the
    message, and two envelopes with the same error_message are rendered to
    the same text, whatever their data_payload, verification_summary,
    source_description, timestamp (and other fields) hold. *)
Theorem error_report_is_authoritative
    (response_data : VerifiableDataResponse) (message : string) :
  error_message response_data = Some message ->
  message <> "" ->
  format_response_for_chat response_data
  = Ok ("# Error Report"
        +:+ String "010" ("**Message:** " +:+ message
        +:+ String "010" (String "010"
              "_Please try again or rephrase your request._")))
  /\ (exists text,
         format_response_for_chat response_data = Ok text
         /\ Str.contains message text = true)
  /\ forall other : VerifiableDataResponse,
       error_message other = Some message ->
       format_response_for_chat other
       = format_response_for_chat response_data.
Proof.
  intros Hmsg Hne.
  assert (Hfmt : forall r, error_message r = Some message ->
                           format_response_for_chat r
                           = Ok (error_report message)).
  { intros r Hr. unfold format_response_for_chat. rewrite Hr.
    apply truthy_nonempty in Hne. now rewrite Hne. }
  split; [now rewrite (Hfmt _ Hmsg)|]. split.
  - eexists. split; [exact (Hfmt _ Hmsg)|]. unfold error_report.
    apply contains_app_r, contains_app_r, contains_app_r, contains_app_l.
  - intros other Hother. now rewrite (Hfmt _ Hother), (Hfmt _ Hmsg).
Qed.

End Formatter.

Lemma error_report_is_authoritative_witness :
  let failed :=
    {| session_id := "S1"; request_data_type := "carbon_footprint";
       request_identifier := "macbook_pro";
       source_description := Some "Verified Carbon Accounting Network";
       timestamp := Some "2025-01-01T00:00:00Z";
       data_payload := Some [("carbonFootprint", VDict [("total", VFloat 1853 1)])];
       verification_summary := Some "verified";
       error_message := Some "upstream failure" |} in
  error_message failed = Some "upstream failure"
  /\ "upstream failure" <> ""
  /\ @ChatProtocol.format_response_for_chat Spec.placeholder_runtime failed
     = Ok ("# Error Report"
           +:+ String "010" ("**Message:** upstream failure"
           +:+ String "010" (String "010"
                 "_Please try again or rephrase your request._"))).
Proof.
  intros failed.
  split; [reflexivity|]. split; [discriminate|].
  apply (proj1 (@error_report_is_authoritative Spec.placeholder_runtime
                  failed "upstream failure" eq_refl ltac:(discriminate))).
Defined.

(** ** Carbon footprint: scope priority *)

Section ScopePriority.

Import CarbonFootprint Spec.

Variable carbon_data : list (string * list (string * dict)).
Variable normalized_identifier : string.

Lemma in_scope_decides (scope : string) (records : list (string * dict)) :
  Py.lookup carbon_data scope = Some records ->
  in_scope carbon_data scope normalized_identifier
  = Ok (Py.mem normalized_identifier records)
  /\ (Py.mem normalized_identifier records = true
      <-> in_record_set carbon_data scope normalized_identifier).
Proof.
  intros Hs. unfold in_scope, Py.getitem. rewrite Hs. split; [reflexivity|].
  unfold in_record_set. split.
  - intros Hm. eauto.
  - intros (records' & Hs' & Hm). congruence.
Qed.

Lemma detect_scope_first (scopes : list string) :
  (forall scope, In scope scopes ->
                 exists records, Py.lookup carbon_data scope = Some records) ->
  exists detected,
    detect_scope carbon_data scopes normalized_identifier = Ok detected
    /\ match detected with
       | Some scope =>
           first_containing carbon_data normalized_identifier scopes scope
       | None =>
           forall scope, In scope scopes ->
                         ~ in_record_set carbon_data scope normalized_identifier
       end.
Proof.
  induction scopes as [|scope rest IH]; intros Hall.
  - exists None. split; [reflexivity|]. intros ? [].
  - destruct (Hall scope (or_introl eq_refl)) as [records Hs].
    destruct (in_scope_decides scope records Hs) as [Hin Hiff].
    cbn [detect_scope]. rewrite Hin. cbn [bind].
    destruct (Py.mem normalized_identifier records) eqn:Hm.
    + exists (Some scope). split; [reflexivity|].
      constructor. now apply Hiff.
    + assert (Hnot : ~ in_record_set carbon_data scope normalized_identifier).
      { intros Hc. apply Hiff in Hc. discriminate. }
      destruct IH as [detected [Hd Hspec]].
      { intros s Hs'. apply Hall. now right. }
      exists detected. split; [exact Hd|].
      destruct detected as [found|].
      * now constructor.
      * intros s [<-|Hs']; [exact Hnot|now apply Hspec].
Qed.

Lemma first_containing_in (scopes : list string) (scope : string) :
  first_containing carbon_data normalized_identifier scopes scope ->
  In scope scopes /\ in_record_set carbon_data scope normalized_identifier.
Proof.
  induction 1 as [scope rest Hin|other rest scope Hnot _ [IHin IHrec]].
  - split; [now left|exact Hin].
  - split; [now right|exact IHrec].
Qed.

Lemma first_containing_functional (scopes : list string) (s1 s2 : string) :
  first_containing carbon_data normalized_identifier scopes s1 ->
  first_containing carbon_data normalized_identifier scopes s2 ->
  s1 = s2.
Proof.
  induction 1 as [scope rest Hin|other rest scope Hnot Hfirst IH];
    inversion 1; subst; try reflexivity; try contradiction.
  now apply IH.
Qed.

Lemma requested_scope_supported (query_details : option string) (scope : string) :
  requested_scope_of query_details = Some scope -> In scope SCOPES.
Proof.
  unfold requested_scope_of, SCOPES.
  destruct query_details as [details|]; [|discriminate].
  destruct (Str.truthy details); [|discriminate].
  repeat (destruct (Str.contains _ details);
          [intros [= <-]; simpl; tauto|]).
  discriminate.
Qed.

(** The priority singles out one scope. *)
Lemma scope_choice_functional (query_details : option string)
    (s1 s2 : string) :
  scope_choice carbon_data query_details normalized_identifier s1 ->
  scope_choice carbon_data query_details normalized_identifier s2 ->
  s1 = s2.
Proof.
  intros H1 H2.
  destruct H1 as [s1 Hreq1 Hin1|s1 Hno1 Hfirst1|Hno1 Hnone1];
    destruct H2 as [s2 Hreq2 Hin2|s2 Hno2 Hfirst2|Hno2 Hnone2];
    try congruence;
    try (exfalso; exact (Hno1 _ Hreq2 Hin2));
    try (exfalso; exact (Hno2 _ Hreq1 Hin1)).
  - eapply first_containing_functional; eauto.
  - exfalso. apply first_containing_in in Hfirst1 as [Hin Hrec].
    exact (Hnone2 _ Hin Hrec).
  - exfalso. apply first_containing_in in Hfirst2 as [Hin Hrec].
    exact (Hnone1 _ Hin Hrec).
Qed.

Lemma resolve_scope_choice (query_details : option string) :
  has_scopes carbon_data ->
  exists r,
    resolve_scope carbon_data query_details normalized_identifier = Ok r
    /\ requested_scope r = requested_scope_of query_details
    /\ scope_choice carbon_data query_details normalized_identifier
         (data_scope r).
Proof.
  intros Hdb. unfold resolve_scope.
  destruct (detect_scope_first SCOPES Hdb) as [detected [Hd Hspec]].
  rewrite Hd. cbn [bind].
  destruct (requested_scope_of query_details) as [asked|] eqn:Hreq.
  - destruct (Hdb asked (requested_scope_supported _ _ Hreq)) as [records Hs].
    destruct (in_scope_decides asked records Hs) as [Hin Hiff].
    rewrite Hin. cbn [bind]. eexists. split; [reflexivity|].
    split; [reflexivity|]. cbn [data_scope].
    destruct (Py.mem normalized_identifier records) eqn:Hm.
    + apply choose_requested; [exact Hreq|now apply Hiff].
    + assert (Hno : forall asked',
                 requested_scope_of query_details = Some asked' ->
                 ~ in_record_set carbon_data asked' normalized_identifier).
      { intros asked' Hreq' Hc. rewrite Hreq in Hreq'.
        injection Hreq' as <-. apply Hiff in Hc. discriminate. }
      destruct detected as [found|].
      * now apply choose_detected.
      * now apply choose_default.
  - eexists. split; [reflexivity|]. split; [reflexivity|]. cbn [data_scope].
    assert (Hno : forall asked',
               requested_scope_of query_details = Some asked' ->
               ~ in_record_set carbon_data asked' normalized_identifier).
    { intros asked' Hreq'. rewrite Hreq in Hreq'. discriminate. }
    destruct detected as [found|].
    + now apply choose_detected.
    + now apply choose_default.
Qed.







End ScopePriority.

Lemma simulated_carbon_data_has_scopes :
  Spec.has_scopes CarbonFootprint.simulated_carbon_data.
Proof.
  intros scope [<-|[<-|[<-|[]]]]; eexists; vm_compute; reflexivity.
Qed.



(** Examples 1 and 2 of the specification: "MacBook_Pro" resolves to the
    product scope, and so does "macbook_pro" asked with scope=company. *)
Example macbook_pro_scope :
  CarbonFootprint.resolve_scope CarbonFootprint.simulated_carbon_data None
    (CarbonFootprint.normalize_carbon_identifier "MacBook_Pro")
  = Ok {| CarbonFootprint.requested_scope := None;
          CarbonFootprint.detected_scope := Some "product";
          CarbonFootprint.data_scope := "product" |}
  /\ CarbonFootprint.resolve_scope CarbonFootprint.simulated_carbon_data
       (Some "scope=company")
       (CarbonFootprint.normalize_carbon_identifier "macbook_pro")
     = Ok {| CarbonFootprint.requested_scope := Some "company";
             CarbonFootprint.detected_scope := Some "product";
             CarbonFootprint.data_scope := "product" |}.
Proof. split; vm_compute; reflexivity. Qed.

(** ** The cache blocks *)

Section CacheResolution.

Import CarbonFootprint ReputationScore Spec.

Lemma cache_fresh_entry (cache : gmap string cache_entry) (key : string)
    (clk : clock) (entry : cache_entry) :
  cache !! key = Some entry ->
  cache_fresh cache key clk = true
  <-> now_read clk - cached_at entry < TTL_MICROSECONDS.
Proof.
  intros He. unfold cache_fresh, total_seconds_lt, TTL_MICROSECONDS,
    CACHE_EXPIRY_SECONDS. rewrite He. apply Z.ltb_lt.
Qed.

Lemma cache_fresh_is_entry (cache : gmap string cache_entry) (key : string)
    (clk : clock) :
  cache_fresh cache key clk = true ->
  exists entry, cache !! key = Some entry.
Proof.
  unfold cache_fresh. destruct (cache !! key) as [entry|]; [eauto|discriminate].
Qed.

(** *** Carbon footprint, lines 164-180 *)

Lemma carbon_hit (carbon_data : list (string * list (string * dict)))
    (data_scope normalized_identifier : string) (clk : clock)
    (cache : gmap string cache_entry) (entry : cache_entry) :
  cache !! carbon_cache_key data_scope normalized_identifier = Some entry ->
  now_read clk - cached_at entry < TTL_MICROSECONDS ->
  cached_carbon_data carbon_data data_scope normalized_identifier clk cache
  = (Ok (Some (data entry)), cache).
Proof.
  intros He Hage. unfold cached_carbon_data. cbv zeta. rewrite He.
  now rewrite (proj2 (cache_fresh_entry _ _ clk _ He) Hage).
Qed.

Lemma carbon_miss (carbon_data : list (string * list (string * dict)))
    (data_scope normalized_identifier : string) (clk : clock)
    (cache : gmap string cache_entry) (records : list (string * dict)) :
  cache_fresh cache (carbon_cache_key data_scope normalized_identifier) clk
  = false ->
  Py.lookup carbon_data data_scope = Some records ->
  cached_carbon_data carbon_data data_scope normalized_identifier clk cache
  = match Py.lookup records normalized_identifier with
    | Some record =>
        (Ok (Some record),
         <[carbon_cache_key data_scope normalized_identifier :=
             {| data := record; cached_at := now_write clk |}]> cache)
    | None => (Ok None, cache)
    end.
Proof.
  intros Hstale Hs. unfold cached_carbon_data, Py.getitem. cbv zeta.
  rewrite Hstale, Hs.
  now destruct (cache !! carbon_cache_key data_scope normalized_identifier).
Qed.

Lemma carbon_resolved_entry
    (carbon_data : list (string * list (string * dict)))
    (data_scope normalized_identifier : string) (clk : clock)
    (cache cache' : gmap string cache_entry) (record : dict) :
  cached_carbon_data carbon_data data_scope normalized_identifier clk cache
  = (Ok (Some record), cache') ->
  exists entry,
    cache' !! carbon_cache_key data_scope normalized_identifier = Some entry
    /\ data entry = record.
Proof.
  intros Hres.
  destruct (cache_fresh cache
              (carbon_cache_key data_scope normalized_identifier) clk)
    eqn:Hfresh.
  - destruct (cache_fresh_is_entry _ _ _ Hfresh) as [entry He].
    rewrite (carbon_hit carbon_data _ _ clk cache entry He) in Hres
      by now apply (cache_fresh_entry _ _ clk _ He).
    injection Hres as <- <-. eauto.
  - destruct (Py.lookup carbon_data data_scope) as [records|] eqn:Hs.
    + rewrite (carbon_miss carbon_data _ _ clk cache records Hfresh Hs) in Hres.
      destruct (Py.lookup records normalized_identifier) as [found|];
        [|discriminate].
      injection Hres as <- <-.
      eexists. split; [apply lookup_insert_eq|reflexivity].
    + unfold cached_carbon_data, Py.getitem in Hres. cbv zeta in Hres.
      rewrite Hfresh, Hs in Hres.
      destruct (cache !! carbon_cache_key data_scope normalized_identifier);
        discriminate.
Qed.

Lemma carbon_repeat
    (carbon_data carbon_data' : list (string * list (string * dict)))
    (data_scope normalized_identifier : string) (clk clk' : clock)
    (cache cache' : gmap string cache_entry) (record : dict) :
  cached_carbon_data carbon_data data_scope normalized_identifier clk cache
  = (Ok (Some record), cache') ->
  cache_fresh cache' (carbon_cache_key data_scope normalized_identifier) clk'
  = true ->
  cached_carbon_data carbon_data' data_scope normalized_identifier clk' cache'
  = (Ok (Some record), cache').
Proof.
  intros Hfirst Hfresh.
  destruct (carbon_resolved_entry _ _ _ _ _ _ _ Hfirst) as (entry & He & <-).
  apply carbon_hit; [exact He|].
  now apply (cache_fresh_entry _ _ clk' _ He).
Qed.

(** *** Reputation score, lines 220-235 *)

Lemma reputation_hit (aspects : list (string * dict))
    (normalized_identifier reputation_aspect : string) (clk : clock)
    (cache : gmap string cache_entry) (entry : cache_entry) :
  cache !! reputation_cache_key normalized_identifier reputation_aspect
  = Some entry ->
  now_read clk - cached_at entry < TTL_MICROSECONDS ->
  cached_reputation_data aspects normalized_identifier reputation_aspect clk
    cache
  = (Some (data entry), cache).
Proof.
  intros He Hage. unfold cached_reputation_data. cbv zeta. rewrite He.
  now rewrite (proj2 (cache_fresh_entry _ _ clk _ He) Hage).
Qed.

Lemma reputation_miss (aspects : list (string * dict))
    (normalized_identifier reputation_aspect : string) (clk : clock)
    (cache : gmap string cache_entry) :
  cache_fresh cache
    (reputation_cache_key normalized_identifier reputation_aspect) clk
  = false ->
  cached_reputation_data aspects normalized_identifier reputation_aspect clk
    cache
  = match Py.lookup aspects reputation_aspect with
    | Some (field :: fields) =>
        (Some (field :: fields),
         <[reputation_cache_key normalized_identifier reputation_aspect :=
             {| data := field :: fields; cached_at := now_write clk |}]>
           cache)
    | Some [] => (Some [], cache)
    | None => (None, cache)
    end.
Proof.
  intros Hstale. unfold cached_reputation_data. cbv zeta. rewrite Hstale.
  destruct (cache !! reputation_cache_key normalized_identifier
              reputation_aspect);
    now destruct (Py.lookup aspects reputation_aspect) as [[|field fields]|].
Qed.

Lemma reputation_resolved_entry (aspects : list (string * dict))
    (normalized_identifier reputation_aspect : string) (clk : clock)
    (cache cache' : gmap string cache_entry) (record : dict) :
  cached_reputation_data aspects normalized_identifier reputation_aspect clk
    cache
  = (Some record, cache') ->
  record <> [] ->
  exists entry,
    cache' !! reputation_cache_key normalized_identifier reputation_aspect
    = Some entry
    /\ data entry = record.
Proof.
  intros Hres Hne.
  destruct (cache_fresh cache
              (reputation_cache_key normalized_identifier reputation_aspect)
              clk) eqn:Hfresh.
  - destruct (cache_fresh_is_entry _ _ _ Hfresh) as [entry He].
    rewrite (reputation_hit aspects _ _ clk cache entry He) in Hres
      by now apply (cache_fresh_entry _ _ clk _ He).
    injection Hres as <- <-. eauto.
  - rewrite (reputation_miss aspects _ _ clk cache Hfresh) in Hres.
    destruct (Py.lookup aspects reputation_aspect) as [[|field fields]|];
      [injection Hres as <- <-; congruence| |discriminate].
    injection Hres as <- <-.
    eexists. split; [apply lookup_insert_eq|reflexivity].
Qed.

Lemma reputation_repeat (aspects aspects' : list (string * dict))
    (normalized_identifier reputation_aspect : string) (clk clk' : clock)
    (cache cache' : gmap string cache_entry) (record : dict) :
  cached_reputation_data aspects normalized_identifier reputation_aspect clk
    cache
  = (Some record, cache') ->
  record <> [] ->
  cache_fresh cache'
    (reputation_cache_key normalized_identifier reputation_aspect) clk'
  = true ->
  cached_reputation_data aspects' normalized_identifier reputation_aspect
    clk' cache'
  = (Some record, cache').
Proof.
  intros Hfirst Hne Hfresh.
  destruct (reputation_resolved_entry _ _ _ _ _ _ _ Hfirst Hne)
    as (entry & He & <-).
  apply reputation_hit; [exact He|].
  now apply (cache_fresh_entry _ _ clk' _ He).
Qed.

End CacheResolution.

(** C6, as amended: for every cache key of the carbon and of the reputation
    resolver.  If the cache has an entry for the key whose age is strictly
    less than 300 seconds, its value is returned, the cache is left as it is
    and the record store is not consulted (any store gives the same result).
    Otherwise the store is consulted: a record it holds for the key (for
    reputation: a non-empty one) is stored under the key with the fresh
    reading, replacing any entry of that key, and returned; when it holds
    none, nothing is stored, the cache is left as it is and no record is
    returned.  A resolution that returned a record, followed by a resolution
    of the same key while the entry is fresh, returns the same record,
    whatever the store then holds. *)
Theorem cache_resolution :
  (forall (carbon_data : list (string * list (string * dict)))
          (data_scope normalized_identifier : string) (clk : clock)
          (cache : gmap string cache_entry),
      let key :=
        CarbonFootprint.carbon_cache_key data_scope normalized_identifier in
      let resolve store clock cache :=
        CarbonFootprint.cached_carbon_data store data_scope
          normalized_identifier clock cache in
      (forall entry any_store,
          cache !! key = Some entry ->
          now_read clk - cached_at entry < Spec.TTL_MICROSECONDS ->
          resolve any_store clk cache = (Ok (Some (data entry)), cache))
      /\ (forall records,
             cache_fresh cache key clk = false ->
             Py.lookup carbon_data data_scope = Some records ->
             resolve carbon_data clk cache
             = match Py.lookup records normalized_identifier with
               | Some record =>
                   (Ok (Some record),
                    <[key := {| data := record; cached_at := now_write clk |}]>
                      cache)
               | None => (Ok None, cache)
               end)
      /\ (forall record cache' any_store clk',
             resolve carbon_data clk cache = (Ok (Some record), cache') ->
             cache_fresh cache' key clk' = true ->
             resolve any_store clk' cache' = (Ok (Some record), cache')))
  /\ (forall (aspects : list (string * dict))
             (normalized_identifier reputation_aspect : string) (clk : clock)
             (cache : gmap string cache_entry),
         let key :=
           ReputationScore.reputation_cache_key normalized_identifier
             reputation_aspect in
         let resolve store clock cache :=
           ReputationScore.cached_reputation_data store normalized_identifier
             reputation_aspect clock cache in
         (forall entry any_store,
             cache !! key = Some entry ->
             now_read clk - cached_at entry < Spec.TTL_MICROSECONDS ->
             resolve any_store clk cache = (Some (data entry), cache))
         /\ (cache_fresh cache key clk = false ->
             resolve aspects clk cache
             = match Py.lookup aspects reputation_aspect with
               | Some (field :: fields) =>
                   (Some (field :: fields),
                    <[key := {| data := field :: fields;
                                cached_at := now_write clk |}]> cache)
               | Some [] => (Some [], cache)
               | None => (None, cache)
               end)
         /\ (forall record cache' any_store clk',
                resolve aspects clk cache = (Some record, cache') ->
                record <> [] ->
                cache_fresh cache' key clk' = true ->
                resolve any_store clk' cache' = (Some record, cache'))).
Proof.
  split.
  - intros carbon_data data_scope nid clk cache key resolve.
    split; [|split].
    + intros entry any_store.
      exact (carbon_hit any_store data_scope nid clk cache entry).
    + intros records.
      exact (carbon_miss carbon_data data_scope nid clk cache records).
    + intros record cache' any_store clk'.
      exact (carbon_repeat carbon_data any_store data_scope nid clk clk'
               cache cache' record).
  - intros aspects nid aspect clk cache key resolve.
    split; [|split].
    + intros entry any_store.
      exact (reputation_hit any_store nid aspect clk cache entry).
    + exact (reputation_miss aspects nid aspect clk cache).
    + intros record cache' any_store clk'.
      exact (reputation_repeat aspects any_store nid aspect clk clk'
               cache cache' record).
Qed.

Lemma cache_resolution_witness :
  let key := CarbonFootprint.carbon_cache_key "product" "macbook_pro" in
  let entry := {| data := [("name", VStr "cached")]; cached_at := 0 |} in
  (* an entry aged 299.999999 s answers, whatever the store *)
  CarbonFootprint.cached_carbon_data [] "product" "macbook_pro"
    (Spec.clock_at "2025-01-01T00:04:59.999999" 299999999) {[key := entry]}
  = (Ok (Some (data entry)), {[key := entry]})
  (* an entry aged 300 s is replaced by the record of the store *)
  /\ CarbonFootprint.cached_carbon_data CarbonFootprint.simulated_carbon_data
       "product" "macbook_pro"
       (Spec.clock_at "2025-01-01T00:05:00" 300000000) {[key := entry]}
     = match Py.lookup
               (default [] (Py.lookup CarbonFootprint.simulated_carbon_data
                              "product")) "macbook_pro" with
       | Some record =>
           (Ok (Some record),
            <[key := {| data := record; cached_at := 300000000 |}]>
              {[key := entry]})
       | None => (Ok None, {[key := entry]})
       end
  (* a general-aspect record resolved once is answered again from the cache *)
  /\ (let aspects :=
        default [] (Py.lookup ReputationScore.simulated_reputation_data
                      "alex_developer") in
      let record := default [] (Py.lookup aspects "general") in
      let rkey := ReputationScore.reputation_cache_key "alex_developer" "general" in
      let cache' := <[rkey := {| data := record; cached_at := 0 |}]> ∅ in
      ReputationScore.cached_reputation_data [] "alex_developer" "general"
        (Spec.clock_at "2025-01-01T00:01:00" 60000000) cache'
      = (Some record, cache')).
Proof.
  intros key entry. split; [|split].
  - apply (proj1 (proj1 cache_resolution [] "product" "macbook_pro"
                    (Spec.clock_at "2025-01-01T00:04:59.999999" 299999999)
                    {[key := entry]}) entry []).
    + apply lookup_singleton_eq.
    + reflexivity.
  - apply (proj1 (proj2 (proj1 cache_resolution
                           CarbonFootprint.simulated_carbon_data
                           "product" "macbook_pro"
                           (Spec.clock_at "2025-01-01T00:05:00" 300000000)
                           {[key := entry]}))).
    + unfold cache_fresh. rewrite lookup_singleton_eq. reflexivity.
    + reflexivity.
  - intros aspects record rkey cache'.
    apply (proj2 (proj2 (proj2 cache_resolution aspects "alex_developer"
                           "general" (Spec.clock_at "2025-01-01T00:00:00" 0) ∅))
             record cache' []
             (Spec.clock_at "2025-01-01T00:01:00" 60000000)).
    + reflexivity.
    + discriminate.
    + unfold cache_fresh, cache'. rewrite lookup_insert_eq. reflexivity.
Defined.

(** C6 as first stated fails where the store has no record for the key:
    with an empty cache, resolving the product "unknown_gadget" stores
    nothing and returns no record. *)
Lemma not_found_is_not_cached :
  ~ Spec.stores_on_miss CarbonFootprint.simulated_carbon_data "product"
      "unknown_gadget" (Spec.clock_at "2025-01-01T00:00:00" 0) ∅.
Proof.
  assert (Hstale : forall key clk, cache_fresh ∅ key clk = false).
  { intros key clk. unfold cache_fresh. now rewrite lookup_empty. }
  intros Hstores. destruct (Hstores (Hstale _ _)) as [record Hrecord].
  rewrite (carbon_miss CarbonFootprint.simulated_carbon_data "product"
             "unknown_gadget" _ ∅
             (default [] (Py.lookup CarbonFootprint.simulated_carbon_data
                            "product")) (Hstale _ _) eq_refl) in Hrecord.
  discriminate Hrecord.
Qed.

(** ** Session-correlated routing of the answer *)

Section Routing.

Import MainAgent ChatProtocol.
Context `{Runtime}.

(** C9: a completed response whose session_id has no stored binding makes
    [handle_internal_response] send nothing, log one error line and
    return.  When the session is bound, whatever the handler sends goes to
    the bound address.  For a non-empty session id and address it sends
    exactly one chat message to that address, made of the formatted report
    and the end-of-session marker, when the formatter returns the report:
    the text of [format_response_for_chat] for a [VerifiableDataResponse],
    the Error Report block with the error for an [ErrorMessage] whose error
    is not empty.  When the formatter raises, the handler raises with it
    and nothing is sent.  The bindings are left as they were. *)
Theorem response_routed_to_bound_address
    (sender : string) (response : message) (now : Z) (uuid : string)
    (ctx : context) (sid : string) :
  session_id_of response = Some sid ->
  let handled := handle_internal_response sender response now uuid ctx in
  storage (fst handled) = storage ctx
  /\ (storage ctx !! sid = None ->
      snd handled = Ok tt
      /\ sent (fst handled) = sent ctx
      /\ exists line,
          logged (fst handled) = (logged ctx ++ [(ERROR, line)])%list)
  /\ (forall address,
         storage ctx !! sid = Some address ->
         (exists new,
             sent (fst handled) = (sent ctx ++ new)%list
             /\ forall destination m,
                 In (destination, m) new -> destination = address)
         /\ (sid <> "" -> address <> "" ->
             let delivered (text : string) : Prop :=
               snd handled = Ok tt
               /\ sent (fst handled)
                  = (sent ctx
                     ++ [(address,
                          MsgChat
                            {| chat_timestamp := now; msg_id := uuid;
                               content := [TextContent text;
                                           EndSessionContent] |})])%list in
             let dropped (e : exn) : Prop :=
               snd handled = Raise e /\ sent (fst handled) = sent ctx in
             match response with
             | MsgResponse r =>
                 match format_response_for_chat r with
                 | Ok text => delivered text
                 | Raise e => dropped e
                 end
             | MsgError e =>
                 match format_response_for_chat
                         (Spec.error_response sid (error e)) with
                 | Ok text =>
                     delivered text
                     /\ (error e <> "" -> text = Spec.error_block (error e))
                 | Raise x => dropped x /\ error e = ""
                 end
             | _ =>
                 delivered
                   (Spec.error_block
                      "An unexpected internal error occurred while processing your request.")
             end)).
Proof.
  intros Hsid handled. subst handled. unfold handle_internal_response.
  rewrite Hsid. unfold storage_get.
  destruct (Str.truthy sid) eqn:Hs; cbn [negb].
  - destruct (storage ctx !! sid) as [address|] eqn:Hb.
    + destruct (Str.truthy address) eqn:Ha; cbn [negb].
      * cbn [default from_option id].
        split; [|split; [discriminate|]].
        { destruct response as [r|r|e|m|a];
            try (destruct (format_response_for_chat _)); reflexivity. }
        intros address' [= <-]. split.
        { destruct response as [r|r|e|m|a];
            try (destruct (format_response_for_chat _) eqn:Hf);
            cbn [fst snd sent send log];
            first [ exists []; split; [now rewrite app_nil_r|intros ? ? []]
                  | eexists; split; [reflexivity|];
                    intros destination m [[= <- _]|[]]; reflexivity ]. }
        intros _ _. cbv zeta.
        destruct response as [r|r|e|m|a]; cbn [session_id_of] in Hsid;
          try discriminate.
        -- now repeat split.
        -- destruct (format_response_for_chat r); now repeat split.
        -- injection Hsid as <-.
           change {| session_id := err_session_id e;
                     request_data_type := "error_report";
                     request_identifier := "unknown_request_due_to_error";
                     source_description := None; timestamp := None;
                     data_payload := None; verification_summary := None;
                     error_message := Some (error e) |}
             with (Spec.error_response (err_session_id e) (error e)).
           unfold format_response_for_chat at 2.
           unfold format_response_for_chat.
           cbn [error_message Spec.error_response].
           destruct (Str.truthy (error e)) eqn:He.
           ++ now repeat split.
           ++ assert (error e = "") as Hempty by now destruct (error e).
              destruct (render_report _); repeat split; try reflexivity;
                try exact Hempty.
              intros Hne. congruence.
      * split; [reflexivity|]. split; [discriminate|].
        intros address' [= <-]. split.
        -- exists []. split; [cbn; now rewrite app_nil_r|]. intros ? ? [].
        -- intros _ Hne. apply truthy_nonempty in Hne. congruence.
    + split; [reflexivity|]. split; [|discriminate].
      intros _. repeat split. eexists. reflexivity.
  - split; [reflexivity|]. split.
    + intros _. repeat split. eexists. reflexivity.
    + intros address Hb. split.
      * exists []. split; [cbn; now rewrite app_nil_r|]. intros ? ? [].
      * intros Hne. apply truthy_nonempty in Hne. congruence.
Qed.

End Routing.

Lemma response_routed_to_bound_address_witness :
  let response :=
    MsgResponse
      {| session_id := "S1"; request_data_type := "carbon_footprint";
         request_identifier := "macbook_pro";
         source_description := Some "Verified Carbon Accounting Network";
         timestamp := Some "2025-01-01T00:00:00Z";
         data_payload := Some [];
         verification_summary := Some "verified";
         error_message := None |} in
  let ctx := MainAgent.storage_set "S1" "agent1qA" (Spec.idle_context "agent1q0") in
  MainAgent.session_id_of response = Some "S1"
  /\ MainAgent.storage ctx !! "S1" = Some "agent1qA"
  /\ MainAgent.sent
       (fst (@MainAgent.handle_internal_response Spec.placeholder_runtime
               "agent1q0" response 0 "uuid-1" ctx))
     = [("agent1qA",
         MsgChat
           {| chat_timestamp := 0; msg_id := "uuid-1";
              content := [TextContent "# Verifiable Data Report";
                          EndSessionContent] |})].
Proof.
  intros response ctx.
  split; [reflexivity|]. split; [apply lookup_insert_eq|].
  apply (proj2 (proj2 (proj2 (proj2 (@response_routed_to_bound_address
                                Spec.placeholder_runtime "agent1q0" response 0
                                "uuid-1" ctx "S1" eq_refl))
                  "agent1qA" (lookup_insert_eq _ _ _))
                  ltac:(discriminate) ltac:(discriminate))).
Defined.

(** ** Names with spaces *)

Section Spaces.

Import DataSourceHandler.
Context `{Runtime}.

(** C5: the request reputation_score / "Alex Rodriguez" / no query_details
    is normalized to "alex rodriguez" (the space kept), which neither the
    alias table nor the dataset knows; the router answers with the
    not-found envelope, an empty payload and no score. *)
Theorem alex_rodriguez_is_not_found
    (clk : clock) (response : upstream) (st : caches) :
  ReputationScore.normalize_reputation_identifier "Alex Rodriguez"
  = "alex rodriguez"
  /\ Py.lookup ReputationScore.name_mappings "alex rodriguez" = None
  /\ fetch_verifiable_data "reputation_score" "Alex Rodriguez" None clk
       response st
     = (st,
        Ok [ ("request_data_type", VStr "reputation_score");
             ("request_identifier", VStr "Alex Rodriguez");
             ("source_description", VStr "Decentralized Reputation Network");
             ("data_payload", VDict []);
             ("verification_summary",
               VStr "No reputation data found for this identifier.");
             ("timestamp", VStr (utcnow_iso clk +:+ "Z"));
             ("error_message",
               VStr "No reputation information found for identifier 'Alex Rodriguez'.") ]).
Proof.
  split; [vm_compute; reflexivity|]. split; [vm_compute; reflexivity|].
  destruct st. reflexivity.
Qed.

Lemma alex_chen_fetch (clk : clock) (response : upstream) :
  fetch_verifiable_data "education_credential" "Alex Chen" None clk
    response no_caches
  = (no_caches,
     Ok [ ("request_data_type", VStr "education_credential");
          ("request_identifier", VStr "Alex Chen");
          ("source_description", VStr "Verifiable Credentials System");
          ("data_payload", VDict []);
          ("verification_summary",
            VStr "No verified credentials found for this identifier.");
          ("timestamp", VStr (utcnow_iso clk +:+ "Z"));
          ("error_message",
            VStr "No education credentials found for identifier 'Alex Chen'.") ]).
Proof.
  unfold fetch_verifiable_data.
  change (String.eqb (Str.lower "education_credential") "crypto_price")
    with false.
  change (String.eqb (Str.lower "education_credential") "education_credential")
    with true.
  cbv iota.
  unfold EducationCredentials.fetch_education_credential,
    EducationCredentials.cached_credential. cbv zeta.
  cbn [education_cache no_caches]. rewrite lookup_empty.
  reflexivity.
Qed.

(** C7: the request education_credential / "Alex Chen" reaches the
    resolver as it is: the record set is searched for "Alex Chen", which it
    does not hold (the record is under "alex_chen", the normal form of the
    identifier), the router answers with the not-found envelope, and the
    request handler forwards that error and nothing else. *)
Theorem alex_chen_is_not_normalized (clk : clock) (response : upstream)
    (sender : string) :
  let request :=
    {| req_session_id := "S1"; data_type := "education_credential";
       identifier := "Alex Chen"; query_details := None |} in
  ChatProtocol.normalize_identifier "Alex Chen" "education_credential"
  = "alex_chen"
  /\ Py.mem "alex_chen" EducationCredentials.simulated_credentials = true
  /\ Py.mem "Alex Chen" EducationCredentials.simulated_credentials = false
  /\ (exists envelope,
         fetch_verifiable_data "education_credential" "Alex Chen" None clk
           response no_caches
         = (no_caches, Ok envelope)
         /\ Py.lookup envelope "data_payload" = Some (VDict [])
         /\ Py.lookup envelope "error_message"
            = Some (VStr "No education credentials found for identifier 'Alex Chen'."))
  /\ exists ctx',
      MainAgent.handle_verifiable_data_request sender request clk response
        no_caches (Spec.idle_context "agent1q0")
      = (no_caches, ctx', Ok tt)
      /\ MainAgent.sent ctx'
         = [("agent1q0",
             MsgError
               {| err_session_id := "S1";
                  error := "No education credentials found for identifier 'Alex Chen'." |})].
Proof.
  intros request.
  split; [vm_compute; reflexivity|]. split; [vm_compute; reflexivity|].
  split; [vm_compute; reflexivity|]. split.
  - eexists. split; [apply alex_chen_fetch|]. split; reflexivity.
  - unfold MainAgent.handle_verifiable_data_request.
    change (Str.truthy (req_session_id request)) with true. cbn [negb].
    change (data_type request) with "education_credential".
    change (identifier request) with "Alex Chen".
    change (query_details request) with (@None string).
    rewrite alex_chen_fetch.
    eexists. split; reflexivity.
Qed.

End Spaces.

(** ** Every answer of the router is a well-formed envelope *)

Section Envelopes.

Import DataSourceHandler Spec.
Context `{Runtime}.

(** *** Records and their fields *)

Lemma lookup_forallb {A} (P : A -> bool) (d : list (string * A))
    (k : string) (v : A) :
  forallb (fun kv => P (snd kv)) d = true ->
  Py.lookup d k = Some v ->
  P v = true.
Proof.
  induction d as [|[k' v'] d IH]; cbn [forallb Py.lookup snd]; [discriminate|].
  intros [Hv Hd]%andb_true_iff.
  destruct (String.eqb k' k); [intros [= <-]; exact Hv|now apply IH].
Qed.

Lemma has_fields_getitem (fields : list string) (record : dict) (field : string) :
  has_fields fields record = true ->
  In field fields ->
  exists v, Py.lookup record field = Some v.
Proof.
  unfold has_fields. rewrite forallb_forall. intros Hall Hin.
  specialize (Hall field Hin). unfold Py.mem in Hall.
  destruct (Py.lookup record field) as [v|]; [eauto|discriminate].
Qed.

(** Proves the fields of a literal envelope. *)
Ltac text_nonempty :=
  first [discriminate | apply app_nonempty; discriminate].

Ltac envelope_fields :=
  split; [eexists; split; [reflexivity|text_nonempty]|];
  split; [reflexivity|];
  eexists; split; [reflexivity|];
  let message := fresh "message" in
  let Hm := fresh "Hm" in
  intros message Hm;
  first [discriminate Hm
        |injection Hm as <-; split; [reflexivity|];
         eexists; split; [reflexivity|text_nonempty]].

(** *** The upstream price service *)

Lemma crypto_error_well_formed (identifier stamp summary message : string) :
  summary <> "" -> message <> "" ->
  well_formed_envelope stamp (crypto_error identifier stamp summary message).
Proof.
  intros Hs Hm. unfold crypto_error.
  split; [eexists; split; [reflexivity|exact Hs]|].
  split; [reflexivity|].
  eexists; split; [reflexivity|].
  intros m [= <-]. split; [reflexivity|]. eauto.
Qed.

Lemma crypto_envelope_well_formed (identifier : string)
    (query_details : option string) (stamp : string) (response : upstream) :
  well_formed_envelope stamp
    (fetch_crypto_price identifier query_details stamp response).
Proof.
  unfold fetch_crypto_price.
  set (vs_currency := match query_details with
                      | Some details =>
                          if Str.truthy details
                             && Str.contains "vs_currency=" details
                          then split_last "vs_currency=" details
                          else "usd"
                      | None => "usd"
                      end).
  assert (Hraise : forall e,
    well_formed_envelope stamp
      match e with
      | HTTPStatusError status_code text =>
          crypto_error identifier stamp
            "Error communicating with data source."
            ("HTTP error fetching data from CoinGecko: "
             +:+ repr_value (VInt status_code) +:+ " - " +:+ text)
      | RequestError msg =>
          crypto_error identifier stamp
            "Error communicating with data source."
            ("Request error fetching data from CoinGecko: "
             +:+ str_exn (RequestError msg))
      | _ =>
          crypto_error identifier stamp "An unexpected error occurred."
            ("An unexpected error occurred while fetching data: "
             +:+ str_exn e)
      end).
  { intros e. destruct e; apply crypto_error_well_formed; text_nonempty. }
  destruct response as [api_data|e]; cbn [bind]; [|apply Hraise].
  destruct (Py.contains identifier api_data) as [has_identifier|e];
    cbn [bind]; [|apply Hraise].
  assert (Hmissing :
    well_formed_envelope stamp
      (crypto_error identifier stamp
         "Data source did not return expected format or identifier not found."
         ("Data not found for identifier '" +:+ identifier
          +:+ "' with currency '" +:+ vs_currency
          +:+ "' from CoinGecko. Response: " +:+ repr_value api_data))).
  { apply crypto_error_well_formed; text_nonempty. }
  destruct has_identifier; cbn [bind]; [|exact Hmissing].
  destruct (Py.subscript api_data identifier) as [quotes|e];
    cbn [bind]; [|apply Hraise].
  destruct (Py.contains vs_currency quotes) as [[|]|e];
    cbn [bind]; [|exact Hmissing|apply Hraise].
  destruct (Py.subscript quotes vs_currency) as [price|e];
    cbn [bind]; [|apply Hraise].
  envelope_fields.
Qed.

(** *** Education credentials and supply chains *)

Lemma simulated_credentials_ok (identifier : string) (record : dict) :
  Py.lookup EducationCredentials.simulated_credentials identifier
  = Some record ->
  education_record_ok record = true.
Proof.
  apply (lookup_forallb education_record_ok). vm_compute. reflexivity.
Qed.

Lemma simulated_supply_chains_ok (identifier : string) (record : dict) :
  Py.lookup SupplyChain.simulated_supply_chains identifier = Some record ->
  supply_record_ok record = true.
Proof.
  apply (lookup_forallb supply_record_ok). vm_compute. reflexivity.
Qed.

Lemma education_step (identifier : string) (query_details : option string)
    (stamp : string) (clk : clock) (cache : gmap string cache_entry) :
  map_Forall (fun _ entry => education_record_ok (data entry) = true) cache ->
  exists cache' envelope,
    EducationCredentials.fetch_education_credential identifier query_details
      stamp clk cache
    = (cache', Ok envelope)
    /\ map_Forall (fun _ entry => education_record_ok (data entry) = true)
         cache'
    /\ well_formed_envelope stamp envelope.
Proof.
  intros Hinv.
  unfold EducationCredentials.fetch_education_credential.
  assert (Hcached :
    exists edu_data cache',
      EducationCredentials.cached_credential
        EducationCredentials.simulated_credentials identifier clk cache
      = (edu_data, cache')
      /\ map_Forall (fun _ entry => education_record_ok (data entry) = true)
           cache'
      /\ forall record, edu_data = Some record ->
                        education_record_ok record = true).
  { unfold EducationCredentials.cached_credential. cbv zeta.
    assert (Hre :
      exists edu_data cache',
        match Py.lookup EducationCredentials.simulated_credentials
                identifier with
        | Some edu_data =>
            (Some edu_data,
             <["education_" +:+ identifier :=
                 {| data := edu_data; cached_at := now_write clk |}]> cache)
        | None => (None, cache)
        end = (edu_data, cache')
        /\ map_Forall
             (fun _ entry => education_record_ok (data entry) = true) cache'
        /\ forall record, edu_data = Some record ->
                          education_record_ok record = true).
    { destruct (Py.lookup EducationCredentials.simulated_credentials
                  identifier) as [record|] eqn:Hrec.
      - pose proof (simulated_credentials_ok _ _ Hrec) as Hok.
        eexists _, _. split; [reflexivity|]. split.
        + now apply map_Forall_insert_2.
        + now intros ? [= <-].
      - eexists _, _. split; [reflexivity|]. split; [exact Hinv|discriminate]. }
    destruct (cache !! ("education_" +:+ identifier)) as [entry|] eqn:He;
      [|exact Hre].
    destruct (cache_fresh cache ("education_" +:+ identifier) clk);
      [|exact Hre].
    eexists _, _. split; [reflexivity|]. split; [exact Hinv|].
    intros ? [= <-]. exact (map_Forall_lookup_1 _ _ _ _ Hinv He). }
  destruct Hcached as (edu_data & cache' & -> & Hinv' & Hok).
  destruct edu_data as [record|]; [|cbn [record_truthy]].
  - specialize (Hok record eq_refl). unfold education_record_ok in Hok.
    apply andb_true_iff in Hok as [Htruthy Hfields].
    rewrite Htruthy. cbn [default from_option id].
    destruct (has_fields_getitem _ _ "name" Hfields) as [name Hname];
      [simpl; tauto|].
    destruct (has_fields_getitem _ _ "credentials" Hfields)
      as [credentials Hcredentials]; [simpl; tauto|].
    unfold Py.getitem. rewrite Hname, Hcredentials. cbn [bind].
    eexists _, _. split; [reflexivity|]. split; [exact Hinv'|].
    envelope_fields.
  - eexists _, _. split; [reflexivity|]. split; [exact Hinv'|].
    envelope_fields.
Qed.

Lemma supply_step (identifier : string) (query_details : option string)
    (stamp : string) (clk : clock) (cache : gmap string cache_entry) :
  map_Forall (fun _ entry => supply_record_ok (data entry) = true) cache ->
  exists cache' envelope,
    SupplyChain.fetch_supply_chain_status identifier query_details
      stamp clk cache
    = (cache', Ok envelope)
    /\ map_Forall (fun _ entry => supply_record_ok (data entry) = true)
         cache'
    /\ well_formed_envelope stamp envelope.
Proof.
  intros Hinv.
  unfold SupplyChain.fetch_supply_chain_status.
  assert (Hcached :
    exists supply_data cache',
      SupplyChain.cached_supply_chain
        SupplyChain.simulated_supply_chains identifier clk cache
      = (supply_data, cache')
      /\ map_Forall (fun _ entry => supply_record_ok (data entry) = true)
           cache'
      /\ forall record, supply_data = Some record ->
                        supply_record_ok record = true).
  { unfold SupplyChain.cached_supply_chain. cbv zeta.
    assert (Hre :
      exists supply_data cache',
        match Py.lookup SupplyChain.simulated_supply_chains
                identifier with
        | Some supply_data =>
            (Some supply_data,
             <["supply_chain_" +:+ identifier :=
                 {| data := supply_data; cached_at := now_write clk |}]> cache)
        | None => (None, cache)
        end = (supply_data, cache')
        /\ map_Forall
             (fun _ entry => supply_record_ok (data entry) = true) cache'
        /\ forall record, supply_data = Some record ->
                          supply_record_ok record = true).
    { destruct (Py.lookup SupplyChain.simulated_supply_chains
                  identifier) as [record|] eqn:Hrec.
      - pose proof (simulated_supply_chains_ok _ _ Hrec) as Hok.
        eexists _, _. split; [reflexivity|]. split.
        + now apply map_Forall_insert_2.
        + now intros ? [= <-].
      - eexists _, _. split; [reflexivity|]. split; [exact Hinv|discriminate]. }
    destruct (cache !! ("supply_chain_" +:+ identifier)) as [entry|] eqn:He;
      [|exact Hre].
    destruct (cache_fresh cache ("supply_chain_" +:+ identifier) clk);
      [|exact Hre].
    eexists _, _. split; [reflexivity|]. split; [exact Hinv|].
    intros ? [= <-]. exact (map_Forall_lookup_1 _ _ _ _ Hinv He). }
  destruct Hcached as (supply_data & cache' & -> & Hinv' & Hok).
  destruct supply_data as [record|]; [|cbn [record_truthy]].
  - specialize (Hok record eq_refl). unfold supply_record_ok in Hok.
    apply andb_true_iff in Hok as [Htruthy Hfields].
    rewrite Htruthy. cbn [default from_option id].
    destruct (has_fields_getitem _ _ "name" Hfields) as [v1 H1];
      [simpl; tauto|].
    destruct (has_fields_getitem _ _ "manufacturer" Hfields) as [v2 H2];
      [simpl; tauto|].
    destruct (has_fields_getitem _ _ "chain" Hfields) as [v3 H3];
      [simpl; tauto|].
    destruct (has_fields_getitem _ _ "certifications" Hfields) as [v4 H4];
      [simpl; tauto|].
    destruct (has_fields_getitem _ _ "carbonFootprint" Hfields) as [v5 H5];
      [simpl; tauto|].
    destruct (has_fields_getitem _ _ "blockchainRecords" Hfields) as [v6 H6];
      [simpl; tauto|].
    unfold Py.getitem. rewrite H1, H2, H3, H4, H5, H6. cbn [bind].
    eexists _, _. split; [reflexivity|]. split; [exact Hinv'|].
    envelope_fields.
  - eexists _, _. split; [reflexivity|]. split; [exact Hinv'|].
    envelope_fields.
Qed.

(** *** Carbon footprints *)

Lemma simulated_carbon_data_ok (scope : string)
    (records : list (string * dict)) (normalized_identifier : string)
    (record : dict) :
  Py.lookup CarbonFootprint.simulated_carbon_data scope = Some records ->
  Py.lookup records normalized_identifier = Some record ->
  carbon_record_ok scope record = true.
Proof.
  intros Hs Hr. unfold CarbonFootprint.simulated_carbon_data in Hs.
  cbn [Py.lookup] in Hs.
  destruct (String.eqb_spec "product" scope) as [<-|_].
  { injection Hs as <-. revert Hr.
    apply (lookup_forallb (carbon_record_ok "product")).
    vm_compute. reflexivity. }
  destruct (String.eqb_spec "company" scope) as [<-|_].
  { injection Hs as <-. revert Hr.
    apply (lookup_forallb (carbon_record_ok "company")).
    vm_compute. reflexivity. }
  destruct (String.eqb_spec "activity" scope) as [<-|_]; [|discriminate].
  injection Hs as <-. revert Hr.
  apply (lookup_forallb (carbon_record_ok "activity")).
  vm_compute. reflexivity.
Qed.

(** The scope can be read back from a cache key. *)
Lemma carbon_cache_key_scope (scope scope' : string)
    (normalized_identifier normalized_identifier' : string) :
  In scope CarbonFootprint.SCOPES ->
  In scope' CarbonFootprint.SCOPES ->
  CarbonFootprint.carbon_cache_key scope normalized_identifier
  = CarbonFootprint.carbon_cache_key scope' normalized_identifier' ->
  scope = scope'.
Proof.
  unfold CarbonFootprint.SCOPES, CarbonFootprint.carbon_cache_key.
  intros [<-|[<-|[<-|[]]]] [<-|[<-|[<-|[]]]] Hkey;
    try reflexivity; cbn in Hkey; discriminate Hkey.
Qed.

Lemma scope_choice_supported
    (carbon_data : list (string * list (string * dict)))
    (query_details : option string) (normalized_identifier scope : string) :
  scope_choice carbon_data query_details normalized_identifier scope ->
  In scope CarbonFootprint.SCOPES.
Proof.
  intros [asked Hreq _|found _ Hfirst|_ _].
  - exact (requested_scope_supported _ _ Hreq).
  - exact (proj1 (first_containing_in _ _ _ _ Hfirst)).
  - simpl. tauto.
Qed.

Lemma cached_carbon_ok (data_scope normalized_identifier : string)
    (clk : clock) (cache : gmap string cache_entry) :
  carbon_cache_ok cache ->
  In data_scope CarbonFootprint.SCOPES ->
  exists carbon_data cache',
    CarbonFootprint.cached_carbon_data CarbonFootprint.simulated_carbon_data
      data_scope normalized_identifier clk cache
    = (Ok carbon_data, cache')
    /\ carbon_cache_ok cache'
    /\ forall record, carbon_data = Some record ->
                      carbon_record_ok data_scope record = true.
Proof.
  intros Hinv Hscope.
  destruct (cache_fresh cache
              (CarbonFootprint.carbon_cache_key data_scope
                 normalized_identifier) clk) eqn:Hfresh.
  - destruct (cache_fresh_is_entry _ _ _ Hfresh) as [entry He].
    rewrite (carbon_hit _ _ _ clk cache entry He)
      by now apply (cache_fresh_entry _ _ clk _ He).
    eexists _, _. split; [reflexivity|]. split; [exact Hinv|].
    intros ? [= <-].
    destruct (map_Forall_lookup_1 _ _ _ _ Hinv He)
      as (scope' & nid' & Hkey & Hscope' & Hok).
    now rewrite (carbon_cache_key_scope _ _ _ _ Hscope Hscope' Hkey).
  - destruct (simulated_carbon_data_has_scopes _ Hscope) as [records Hs].
    rewrite (carbon_miss _ _ _ clk cache records Hfresh Hs).
    destruct (Py.lookup records normalized_identifier) as [record|] eqn:Hr.
    + pose proof (simulated_carbon_data_ok _ _ _ _ Hs Hr) as Hok.
      eexists _, _. split; [reflexivity|]. split.
      * apply map_Forall_insert_2; [|exact Hinv]. cbn [data]. eauto.
      * now intros ? [= <-].
    + eexists _, _. split; [reflexivity|]. split; [exact Hinv|discriminate].
Qed.

Lemma carbon_payload_ok (data_scope : string) (record : dict)
    (stamp : string) :
  In data_scope CarbonFootprint.SCOPES ->
  carbon_record_ok data_scope record = true ->
  exists payload,
    CarbonFootprint.carbon_payload data_scope record stamp = Ok payload.
Proof.
  unfold carbon_record_ok, CarbonFootprint.SCOPES.
  intros Hscope [_ Hfields]%andb_true_iff.
  unfold CarbonFootprint.carbon_payload, Py.getitem. cbv zeta.
  destruct Hscope as [<-|[<-|[<-|[]]]];
    cbn [String.eqb Ascii.eqb Bool.eqb] in Hfields |- *.
  - destruct (has_fields_getitem _ _ "name" Hfields) as [v1 H1];
      [simpl; tauto|].
    destruct (has_fields_getitem _ _ "manufacturer" Hfields) as [v2 H2];
      [simpl; tauto|].
    destruct (has_fields_getitem _ _ "totalFootprint" Hfields) as [v3 H3];
      [simpl; tauto|].
    destruct (has_fields_getitem _ _ "footprintBreakdown" Hfields)
      as [v4 H4]; [simpl; tauto|].
    rewrite H1, H2, H3, H4. cbn [bind]. eauto.
  - destruct (has_fields_getitem _ _ "name" Hfields) as [v1 H1];
      [simpl; tauto|].
    destruct (has_fields_getitem _ _ "industry" Hfields) as [v2 H2];
      [simpl; tauto|].
    destruct (has_fields_getitem _ _ "totalEmissions" Hfields) as [v3 H3];
      [simpl; tauto|].
    destruct (has_fields_getitem _ _ "emissionsBreakdown" Hfields)
      as [v4 H4]; [simpl; tauto|].
    rewrite H1, H2, H3, H4. cbn [bind]. eauto.
  - destruct (has_fields_getitem _ _ "type" Hfields) as [v1 H1];
      [simpl; tauto|].
    destruct (has_fields_getitem _ _ "footprint" Hfields) as [v2 H2];
      [simpl; tauto|].
    rewrite H1, H2. cbn [bind]. eauto.
Qed.

Lemma carbon_error_message_nonempty (r : CarbonFootprint.resolution)
    (identifier : string) :
  CarbonFootprint.carbon_error_message r identifier <> "".
Proof.
  unfold CarbonFootprint.carbon_error_message.
  destruct (CarbonFootprint.requested_scope r);
    [|destruct (CarbonFootprint.detected_scope r)]; text_nonempty.
Qed.

Lemma carbon_step (identifier : string) (query_details : option string)
    (stamp : string) (clk : clock) (cache : gmap string cache_entry) :
  carbon_cache_ok cache ->
  exists cache' envelope,
    CarbonFootprint.fetch_carbon_footprint identifier query_details stamp
      clk cache
    = (cache', Ok envelope)
    /\ carbon_cache_ok cache'
    /\ well_formed_envelope stamp envelope.
Proof.
  intros Hinv. unfold CarbonFootprint.fetch_carbon_footprint. cbv zeta.
  destruct (resolve_scope_choice CarbonFootprint.simulated_carbon_data
              (CarbonFootprint.normalize_carbon_identifier identifier)
              query_details simulated_carbon_data_has_scopes)
    as (r & -> & _ & Hpriority).
  apply scope_choice_supported in Hpriority.
  destruct (cached_carbon_ok (CarbonFootprint.data_scope r)
              (CarbonFootprint.normalize_carbon_identifier identifier)
              clk cache Hinv Hpriority)
    as (carbon_data & cache' & -> & Hinv' & Hok).
  destruct carbon_data as [record|]; [|cbn [record_truthy]].
  - specialize (Hok record eq_refl).
    destruct (carbon_payload_ok _ _ stamp Hpriority Hok) as [payload Hpayload].
    apply andb_true_iff in Hok as [-> _]. cbn [default from_option id].
    rewrite Hpayload. cbn [bind].
    eexists _, _. split; [reflexivity|]. split; [exact Hinv'|].
    envelope_fields.
  - pose proof (carbon_error_message_nonempty r identifier) as Hmessage.
    eexists _, _. split; [reflexivity|]. split; [exact Hinv'|].
    split; [eexists; split; [reflexivity|discriminate]|].
    split; [reflexivity|].
    eexists; split; [reflexivity|].
    intros message [= <-]. split; [reflexivity|]. eauto.
Qed.

(** *** Reputation scores *)

Lemma simulated_reputation_data_ok (normalized_identifier aspect : string)
    (aspects : list (string * dict)) (record : dict) :
  Py.lookup ReputationScore.simulated_reputation_data normalized_identifier
  = Some aspects ->
  Py.lookup aspects aspect = Some record ->
  reputation_record_ok record = true.
Proof.
  intros Ha Hr.
  apply (lookup_forallb reputation_record_ok aspects aspect record); [|exact Hr].
  revert Ha.
  apply (lookup_forallb
           (fun aspects => forallb (fun kv => reputation_record_ok (snd kv))
                             aspects)).
  vm_compute. reflexivity.
Qed.

Lemma cached_reputation_ok (aspects : list (string * dict))
    (normalized_identifier reputation_aspect : string) (clk : clock)
    (cache : gmap string cache_entry) :
  Py.lookup ReputationScore.simulated_reputation_data normalized_identifier
  = Some aspects ->
  map_Forall (fun _ entry => reputation_record_ok (data entry) = true) cache ->
  exists reputation_data cache',
    ReputationScore.cached_reputation_data aspects normalized_identifier
      reputation_aspect clk cache
    = (reputation_data, cache')
    /\ map_Forall (fun _ entry => reputation_record_ok (data entry) = true)
         cache'
    /\ forall record, reputation_data = Some record ->
                      reputation_record_ok record = true.
Proof.
  intros Ha Hinv.
  destruct (cache_fresh cache
              (ReputationScore.reputation_cache_key normalized_identifier
                 reputation_aspect) clk) eqn:Hfresh.
  - destruct (cache_fresh_is_entry _ _ _ Hfresh) as [entry He].
    rewrite (reputation_hit _ _ _ clk cache entry He)
      by now apply (cache_fresh_entry _ _ clk _ He).
    eexists _, _. split; [reflexivity|]. split; [exact Hinv|].
    intros ? [= <-]. exact (map_Forall_lookup_1 _ _ _ _ Hinv He).
  - rewrite (reputation_miss _ _ _ clk cache Hfresh).
    destruct (Py.lookup aspects reputation_aspect) as [record|] eqn:Hr.
    + pose proof (simulated_reputation_data_ok _ _ _ _ Ha Hr) as Hok.
      destruct record as [|field fields]; [discriminate Hok|].
      eexists _, _. split; [reflexivity|]. split.
      * now apply map_Forall_insert_2.
      * now intros ? [= <-].
    + eexists _, _. split; [reflexivity|]. split; [exact Hinv|discriminate].
Qed.

Lemma reputation_step (identifier : string) (query_details : option string)
    (stamp : string) (clk : clock) (cache : gmap string cache_entry) :
  map_Forall (fun _ entry => reputation_record_ok (data entry) = true) cache ->
  exists cache' envelope,
    ReputationScore.fetch_reputation_score identifier query_details stamp
      clk cache
    = (cache', Ok envelope)
    /\ map_Forall (fun _ entry => reputation_record_ok (data entry) = true)
         cache'
    /\ well_formed_envelope stamp envelope.
Proof.
  intros Hinv. unfold ReputationScore.fetch_reputation_score. cbv zeta.
  destruct (Py.lookup ReputationScore.simulated_reputation_data
              (ReputationScore.normalize_reputation_identifier identifier))
    as [aspects|] eqn:Ha.
  - destruct (cached_reputation_ok aspects
                (ReputationScore.normalize_reputation_identifier identifier)
                (ReputationScore.select_aspect (Py.keys aspects)
                   (ReputationScore.requested_aspect_of query_details)
                   (ReputationScore.normalize_reputation_identifier
                      identifier))
                clk cache Ha Hinv)
      as (reputation_data & cache' & -> & Hinv' & Hok).
    destruct reputation_data as [record|]; [|cbn [record_truthy]].
    + specialize (Hok record eq_refl). unfold reputation_record_ok in Hok.
      apply andb_true_iff in Hok as [[Htruthy Hfields]%andb_true_iff Hjoin].
      rewrite Htruthy. cbn [default from_option id].
      destruct (has_fields_getitem _ _ "name" Hfields) as [v1 H1];
        [simpl; tauto|].
      destruct (has_fields_getitem _ _ "did" Hfields) as [v2 H2];
        [simpl; tauto|].
      destruct (has_fields_getitem _ _ "verificationMethod" Hfields)
        as [v3 H3]; [simpl; tauto|].
      destruct (has_fields_getitem _ _ "attesters" Hfields) as [v4 H4];
        [simpl; tauto|].
      unfold Py.get in Hjoin. rewrite H4 in Hjoin.
      destruct (Py.join ", " v4) as [attesters_list|] eqn:Hlist;
        [|discriminate].
      unfold ReputationScore.reputation_payload, Py.getitem.
      rewrite H1, H2, H3, H4. cbn [bind]. rewrite Hlist. cbn [bind].
      eexists _, _. split; [reflexivity|]. split; [exact Hinv'|].
      envelope_fields.
    + eexists _, _. split; [reflexivity|]. split; [exact Hinv'|].
      envelope_fields.
  - eexists _, _. split; [reflexivity|]. split; [exact Hinv|].
    envelope_fields.
Qed.

(** *** The router *)

Lemma fetch_step (data_type identifier : string)
    (query_details : option string) (clk : clock) (response : upstream)
    (st : caches) :
  caches_ok st ->
  exists st' envelope,
    fetch_verifiable_data data_type identifier query_details clk response st
    = (st', Ok envelope)
    /\ caches_ok st'
    /\ well_formed_envelope (utcnow_iso clk +:+ "Z") envelope.
Proof.
  intros (Hedu & Hsupply & Hcarbon & Hreputation).
  unfold fetch_verifiable_data. cbv zeta.
  destruct (String.eqb (Str.lower data_type) "crypto_price").
  { eexists _, _. split; [reflexivity|]. split; [now repeat split|].
    apply crypto_envelope_well_formed. }
  destruct (String.eqb (Str.lower data_type) "education_credential").
  { destruct (education_step identifier query_details
                (utcnow_iso clk +:+ "Z") clk _ Hedu)
      as (cache' & envelope & -> & Hinv' & Hwf).
    eexists _, _. split; [reflexivity|]. split; [now repeat split|exact Hwf]. }
  destruct (String.eqb (Str.lower data_type) "supply_chain_status").
  { destruct (supply_step identifier query_details
                (utcnow_iso clk +:+ "Z") clk _ Hsupply)
      as (cache' & envelope & -> & Hinv' & Hwf).
    eexists _, _. split; [reflexivity|]. split; [now repeat split|exact Hwf]. }
  destruct (String.eqb (Str.lower data_type) "carbon_footprint").
  { destruct (carbon_step identifier query_details
                (utcnow_iso clk +:+ "Z") clk _ Hcarbon)
      as (cache' & envelope & -> & Hinv' & Hwf).
    eexists _, _. split; [reflexivity|]. split; [now repeat split|exact Hwf]. }
  destruct (String.eqb (Str.lower data_type) "reputation_score").
  { destruct (reputation_step identifier query_details
                (utcnow_iso clk +:+ "Z") clk _ Hreputation)
      as (cache' & envelope & -> & Hinv' & Hwf).
    eexists _, _. split; [reflexivity|]. split; [now repeat split|exact Hwf]. }
  eexists _, _. split; [reflexivity|]. split; [now repeat split|].
  envelope_fields.
Qed.

Lemma reachable_caches_ok (st : caches) : reachable st -> caches_ok st.
Proof.
  induction 1 as [|st data_type identifier query_details clk response _ IH].
  - repeat split; apply map_Forall_empty.
  - destruct (fetch_step data_type identifier query_details clk response st IH)
      as (st' & envelope & -> & Hok & _).
    exact Hok.
Qed.

(** C10: in every state of the caches the agent can reach, for every data
    type, identifier, query_details, clock and upstream outcome, the router
    returns (does not raise) an envelope that carries a non-empty
    verification_summary string, the timestamp string, and a data_payload
    that is a mapping; when it carries an error_message, that is a
    non-empty string and the data_payload is the empty mapping. *)
Theorem every_envelope_well_formed (data_type identifier : string)
    (query_details : option string) (clk : clock) (response : upstream)
    (st : caches) :
  reachable st ->
  exists st' envelope,
    fetch_verifiable_data data_type identifier query_details clk response st
    = (st', Ok envelope)
    /\ well_formed_envelope (utcnow_iso clk +:+ "Z") envelope.
Proof.
  intros Hreach.
  destruct (fetch_step data_type identifier query_details clk response st
              (reachable_caches_ok st Hreach))
    as (st' & envelope & Hfetch & _ & Hwf).
  eauto.
Qed.

End Envelopes.

Lemma every_envelope_well_formed_witness :
  @Spec.reachable Spec.placeholder_runtime DataSourceHandler.no_caches
  /\ exists st' envelope,
      @DataSourceHandler.fetch_verifiable_data Spec.placeholder_runtime
        "carbon_footprint" "MacBook_Pro" None
        (Spec.clock_at "2025-01-01T00:00:00" 0) (Raise (RequestError ""))
        DataSourceHandler.no_caches
      = (st', Ok envelope)
      /\ Spec.well_formed_envelope "2025-01-01T00:00:00Z" envelope.
Proof.
  split; [apply Spec.reachable_start|].
  apply (@every_envelope_well_formed Spec.placeholder_runtime
           "carbon_footprint" "MacBook_Pro" None
           (Spec.clock_at "2025-01-01T00:00:00" 0) (Raise (RequestError ""))
           DataSourceHandler.no_caches).
  apply Spec.reachable_start.
Defined.

(** ** The worked examples of the specification *)

Section Examples.

Import Spec.

(** Example 1: "MacBook_Pro" is answered from the product scope, with a
    total footprint of 185.3 of which 142.8 for manufacturing. *)
Example macbook_pro_footprint :
  exists envelope,
    first_answer "carbon_footprint" "MacBook_Pro" None = Ok envelope
    /\ Py.lookup envelope "error_message" = None
    /\ field_at ["data_payload"; "productInfo"; "name"] (VDict envelope)
       = Some (VStr "EcoBook Pro 2023")
    /\ field_at ["data_payload"; "carbonFootprint"; "total"] (VDict envelope)
       = Some (VFloat 1853 1)
    /\ field_at ["data_payload"; "carbonFootprint"; "breakdown"; "manufacturing"]
         (VDict envelope)
       = Some (VFloat 1428 1).
Proof.
  eexists. split; [vm_compute; reflexivity|].
  repeat split; vm_compute; reflexivity.
Qed.

(** Example 2: asked with scope=company, "macbook_pro" gets the payload of
    Example 1. *)
Example macbook_pro_requested_company :
  exists envelope envelope',
    first_answer "carbon_footprint" "MacBook_Pro" None = Ok envelope
    /\ first_answer "carbon_footprint" "macbook_pro" (Some "scope=company")
       = Ok envelope'
    /\ Py.lookup envelope' "data_payload" = Py.lookup envelope "data_payload"
    /\ Py.lookup envelope' "error_message" = None.
Proof.
  eexists _, _. split; [vm_compute; reflexivity|].
  split; [vm_compute; reflexivity|]. split; reflexivity.
Qed.

(** The alias table is reached by the underscore spelling: "Alex_Rodriguez"
    is answered from the general aspect of alex_developer, overall score 92. *)
Example alex_underscore_rodriguez_scores_92 :
  ReputationScore.normalize_reputation_identifier "Alex_Rodriguez"
  = "alex_developer"
  /\ exists envelope,
      first_answer "reputation_score" "Alex_Rodriguez" None = Ok envelope
      /\ Py.lookup envelope "error_message" = None
      /\ field_at ["data_payload"; "reputationScores"; "overall"]
           (VDict envelope)
         = Some (VInt 92).
Proof.
  split; [vm_compute; reflexivity|].
  eexists. split; [vm_compute; reflexivity|].
  repeat split; vm_compute; reflexivity.
Qed.

(** The normal form "alex_chen" is answered with the credential record. *)
Example alex_chen_credentials :
  exists envelope,
    first_answer "education_credential" "alex_chen" None = Ok envelope
    /\ Py.lookup envelope "error_message" = None
    /\ field_at ["data_payload"; "profile"; "name"] (VDict envelope)
       = Some (VStr "Alex Chen").
Proof.
  eexists. split; [vm_compute; reflexivity|].
  repeat split; vm_compute; reflexivity.
Qed.

(** [split] on the currency hint. *)
Example split_last_examples :
  DataSourceHandler.split_last "vs_currency=" "vs_currency=eur" = "eur"
  /\ DataSourceHandler.split_last "vs_currency=" "a&vs_currency=usd&vs_currency=gbp"
     = "gbp"
  /\ DataSourceHandler.split_last "vs_currency=" "scope=company" = "scope=company".
Proof. repeat split; vm_compute; reflexivity. Qed.

End Examples.

(** * Further properties of the resolvers and handlers *)

(** ** The caches hold the records of the store *)

Section ExactCaches.

Import DataSourceHandler Spec.
Context `{Runtime}.

Lemma append_cancel (prefix a b : string) :
  prefix +:+ a = prefix +:+ b -> a = b.
Proof.
  induction prefix as [|c prefix IH]; cbn; [tauto|].
  intros [= Heq]. now apply IH.
Qed.

Lemma carbon_cache_key_inj (scope scope' : string)
    (normalized_identifier normalized_identifier' : string) :
  In scope CarbonFootprint.SCOPES ->
  In scope' CarbonFootprint.SCOPES ->
  CarbonFootprint.carbon_cache_key scope normalized_identifier
  = CarbonFootprint.carbon_cache_key scope' normalized_identifier' ->
  scope = scope' /\ normalized_identifier = normalized_identifier'.
Proof.
  intros Hs Hs' Hkey.
  pose proof (carbon_cache_key_scope _ _ _ _ Hs Hs' Hkey) as <-.
  split; [reflexivity|].
  unfold CarbonFootprint.carbon_cache_key in Hkey.
  now apply append_cancel, append_cancel, append_cancel in Hkey.
Qed.

(** The three entities of the reputation store. *)
Lemma reputation_entities (normalized_identifier : string)
    (aspects : list (string * dict)) :
  Py.lookup ReputationScore.simulated_reputation_data normalized_identifier
  = Some aspects ->
  In normalized_identifier
    ["alex_developer"; "decentra_dao"; "trustdata_service"].
Proof.
  unfold ReputationScore.simulated_reputation_data. cbn [Py.lookup].
  repeat match goal with
         | |- context [String.eqb ?entity normalized_identifier] =>
             destruct (String.eqb_spec entity normalized_identifier) as [<-|_];
             [intros _; simpl; tauto|]
         end.
  discriminate.
Qed.

Lemma reputation_cache_key_inj (entity entity' aspect aspect' : string) :
  In entity ["alex_developer"; "decentra_dao"; "trustdata_service"] ->
  In entity' ["alex_developer"; "decentra_dao"; "trustdata_service"] ->
  ReputationScore.reputation_cache_key entity aspect
  = ReputationScore.reputation_cache_key entity' aspect' ->
  entity = entity' /\ aspect = aspect'.
Proof.
  unfold ReputationScore.reputation_cache_key.
  intros [<-|[<-|[<-|[]]]] [<-|[<-|[<-|[]]]] Hkey;
    try (cbn in Hkey; discriminate Hkey);
    (split; [reflexivity|]);
    now apply append_cancel, append_cancel, append_cancel in Hkey.
Qed.

(** *** What a cache block returns is what the store holds *)

Lemma cached_credential_exact (identifier : string) (clk : clock)
    (cache : gmap string cache_entry) :
  education_cache_exact cache ->
  exists cache',
    EducationCredentials.cached_credential
      EducationCredentials.simulated_credentials identifier clk cache
    = (Py.lookup EducationCredentials.simulated_credentials identifier, cache')
    /\ education_cache_exact cache'
    /\ wrote_at_most_one clk cache cache'.
Proof.
  intros Hinv. unfold EducationCredentials.cached_credential. cbv zeta.
  assert (Hre :
    exists cache',
      match Py.lookup EducationCredentials.simulated_credentials identifier with
      | Some edu_data =>
          (Some edu_data,
           <["education_" +:+ identifier :=
               {| data := edu_data; cached_at := now_write clk |}]> cache)
      | None => (None, cache)
      end
      = (Py.lookup EducationCredentials.simulated_credentials identifier, cache')
      /\ education_cache_exact cache'
      /\ wrote_at_most_one clk cache cache').
  { destruct (Py.lookup EducationCredentials.simulated_credentials identifier)
      as [record|] eqn:Hrec.
    - eexists. split; [reflexivity|]. split.
      + apply map_Forall_insert_2; [|exact Hinv]. cbn [data]. eauto.
      + right. eauto.
    - eexists. split; [reflexivity|]. split; [exact Hinv|now left]. }
  destruct (cache !! ("education_" +:+ identifier)) as [entry|] eqn:He;
    [|exact Hre].
  destruct (cache_fresh cache ("education_" +:+ identifier) clk); [|exact Hre].
  destruct (map_Forall_lookup_1 _ _ _ _ Hinv He) as (identifier' & Hkey & Hrec).
  apply append_cancel in Hkey as <-.
  exists cache. rewrite Hrec. split; [reflexivity|]. split; [exact Hinv|now left].
Qed.

Lemma cached_supply_chain_exact (identifier : string) (clk : clock)
    (cache : gmap string cache_entry) :
  supply_cache_exact cache ->
  exists cache',
    SupplyChain.cached_supply_chain SupplyChain.simulated_supply_chains
      identifier clk cache
    = (Py.lookup SupplyChain.simulated_supply_chains identifier, cache')
    /\ supply_cache_exact cache'
    /\ wrote_at_most_one clk cache cache'.
Proof.
  intros Hinv. unfold SupplyChain.cached_supply_chain. cbv zeta.
  assert (Hre :
    exists cache',
      match Py.lookup SupplyChain.simulated_supply_chains identifier with
      | Some supply_data =>
          (Some supply_data,
           <["supply_chain_" +:+ identifier :=
               {| data := supply_data; cached_at := now_write clk |}]> cache)
      | None => (None, cache)
      end
      = (Py.lookup SupplyChain.simulated_supply_chains identifier, cache')
      /\ supply_cache_exact cache'
      /\ wrote_at_most_one clk cache cache').
  { destruct (Py.lookup SupplyChain.simulated_supply_chains identifier)
      as [record|] eqn:Hrec.
    - eexists. split; [reflexivity|]. split.
      + apply map_Forall_insert_2; [|exact Hinv]. cbn [data]. eauto.
      + right. eauto.
    - eexists. split; [reflexivity|]. split; [exact Hinv|now left]. }
  destruct (cache !! ("supply_chain_" +:+ identifier)) as [entry|] eqn:He;
    [|exact Hre].
  destruct (cache_fresh cache ("supply_chain_" +:+ identifier) clk);
    [|exact Hre].
  destruct (map_Forall_lookup_1 _ _ _ _ Hinv He) as (identifier' & Hkey & Hrec).
  apply append_cancel in Hkey as <-.
  exists cache. rewrite Hrec. split; [reflexivity|]. split; [exact Hinv|now left].
Qed.

Lemma cached_carbon_exact (data_scope normalized_identifier : string)
    (records : list (string * dict)) (clk : clock)
    (cache : gmap string cache_entry) :
  In data_scope CarbonFootprint.SCOPES ->
  Py.lookup CarbonFootprint.simulated_carbon_data data_scope = Some records ->
  carbon_cache_exact cache ->
  exists cache',
    CarbonFootprint.cached_carbon_data CarbonFootprint.simulated_carbon_data
      data_scope normalized_identifier clk cache
    = (Ok (Py.lookup records normalized_identifier), cache')
    /\ carbon_cache_exact cache'
    /\ wrote_at_most_one clk cache cache'.
Proof.
  intros Hscope Hs Hinv.
  destruct (cache_fresh cache
              (CarbonFootprint.carbon_cache_key data_scope
                 normalized_identifier) clk) eqn:Hfresh.
  - destruct (cache_fresh_is_entry _ _ _ Hfresh) as [entry He].
    rewrite (carbon_hit _ _ _ clk cache entry He)
      by now apply (cache_fresh_entry _ _ clk _ He).
    destruct (map_Forall_lookup_1 _ _ _ _ Hinv He)
      as (scope' & nid' & records' & Hkey & Hscope' & Hs' & Hrec).
    destruct (carbon_cache_key_inj _ _ _ _ Hscope Hscope' Hkey) as [<- <-].
    rewrite Hs in Hs'. injection Hs' as <-.
    exists cache. rewrite Hrec. split; [reflexivity|].
    split; [exact Hinv|now left].
  - rewrite (carbon_miss _ _ _ clk cache records Hfresh Hs).
    destruct (Py.lookup records normalized_identifier) as [record|] eqn:Hr.
    + eexists. split; [reflexivity|]. split.
      * apply map_Forall_insert_2; [|exact Hinv]. cbn [data].
        exists data_scope, normalized_identifier, records. auto.
      * right. eauto.
    + eexists. split; [reflexivity|]. split; [exact Hinv|now left].
Qed.

Lemma cached_reputation_exact (aspects : list (string * dict))
    (normalized_identifier reputation_aspect : string) (clk : clock)
    (cache : gmap string cache_entry) :
  Py.lookup ReputationScore.simulated_reputation_data normalized_identifier
  = Some aspects ->
  reputation_cache_exact cache ->
  exists cache',
    ReputationScore.cached_reputation_data aspects normalized_identifier
      reputation_aspect clk cache
    = (Py.lookup aspects reputation_aspect, cache')
    /\ reputation_cache_exact cache'
    /\ wrote_at_most_one clk cache cache'.
Proof.
  intros Ha Hinv.
  destruct (cache_fresh cache
              (ReputationScore.reputation_cache_key normalized_identifier
                 reputation_aspect) clk) eqn:Hfresh.
  - destruct (cache_fresh_is_entry _ _ _ Hfresh) as [entry He].
    rewrite (reputation_hit _ _ _ clk cache entry He)
      by now apply (cache_fresh_entry _ _ clk _ He).
    destruct (map_Forall_lookup_1 _ _ _ _ Hinv He)
      as (nid' & aspects' & aspect' & Hkey & Ha' & Hrec).
    destruct (reputation_cache_key_inj _ _ _ _
                (reputation_entities _ _ Ha) (reputation_entities _ _ Ha') Hkey)
      as [<- <-].
    rewrite Ha in Ha'. injection Ha' as <-.
    exists cache. rewrite Hrec. split; [reflexivity|].
    split; [exact Hinv|now left].
  - rewrite (reputation_miss _ _ _ clk cache Hfresh).
    destruct (Py.lookup aspects reputation_aspect) as [[|field fields]|] eqn:Hr.
    + eexists. split; [reflexivity|]. split; [exact Hinv|now left].
    + eexists. split; [reflexivity|]. split.
      * apply map_Forall_insert_2; [|exact Hinv]. cbn [data].
        exists normalized_identifier, aspects, reputation_aspect. auto.
      * right. eauto.
    + eexists. split; [reflexivity|]. split; [exact Hinv|now left].
Qed.

(** *** The answer of a resolver does not depend on its cache *)

Lemma education_transparent (identifier : string)
    (query_details query_details' : option string) (stamp : string)
    (clk clk' : clock) (cache cache' : gmap string cache_entry) :
  education_cache_exact cache ->
  education_cache_exact cache' ->
  snd (EducationCredentials.fetch_education_credential identifier
         query_details stamp clk cache)
  = snd (EducationCredentials.fetch_education_credential identifier
           query_details' stamp clk' cache').
Proof.
  intros Hinv Hinv'. unfold EducationCredentials.fetch_education_credential.
  destruct (cached_credential_exact identifier clk cache Hinv)
    as (c1 & -> & _).
  destruct (cached_credential_exact identifier clk' cache' Hinv')
    as (c2 & -> & _).
  now destruct (record_truthy
                  (Py.lookup EducationCredentials.simulated_credentials
                     identifier)).
Qed.

Lemma supply_transparent (identifier : string)
    (query_details query_details' : option string) (stamp : string)
    (clk clk' : clock) (cache cache' : gmap string cache_entry) :
  supply_cache_exact cache ->
  supply_cache_exact cache' ->
  snd (SupplyChain.fetch_supply_chain_status identifier query_details stamp
         clk cache)
  = snd (SupplyChain.fetch_supply_chain_status identifier query_details'
           stamp clk' cache').
Proof.
  intros Hinv Hinv'. unfold SupplyChain.fetch_supply_chain_status.
  destruct (cached_supply_chain_exact identifier clk cache Hinv)
    as (c1 & -> & _).
  destruct (cached_supply_chain_exact identifier clk' cache' Hinv')
    as (c2 & -> & _).
  now destruct (record_truthy
                  (Py.lookup SupplyChain.simulated_supply_chains identifier)).
Qed.

(** The scope the resolution of the real dataset settles on, and its
    record set. *)
Lemma resolve_scope_records (query_details : option string)
    (normalized_identifier : string) :
  exists r records,
    CarbonFootprint.resolve_scope CarbonFootprint.simulated_carbon_data
      query_details normalized_identifier = Ok r
    /\ In (CarbonFootprint.data_scope r) CarbonFootprint.SCOPES
    /\ Py.lookup CarbonFootprint.simulated_carbon_data
         (CarbonFootprint.data_scope r) = Some records
    /\ scope_choice CarbonFootprint.simulated_carbon_data query_details
         normalized_identifier (CarbonFootprint.data_scope r).
Proof.
  destruct (resolve_scope_choice CarbonFootprint.simulated_carbon_data
              normalized_identifier query_details
              simulated_carbon_data_has_scopes)
    as (r & Hr & _ & Hpriority).
  pose proof (scope_choice_supported _ _ _ _ Hpriority) as Hscope.
  destruct (simulated_carbon_data_has_scopes _ Hscope) as [records Hs].
  eauto 6.
Qed.

Lemma carbon_transparent (identifier : string) (query_details : option string)
    (stamp : string) (clk clk' : clock)
    (cache cache' : gmap string cache_entry) :
  carbon_cache_exact cache ->
  carbon_cache_exact cache' ->
  snd (CarbonFootprint.fetch_carbon_footprint identifier query_details stamp
         clk cache)
  = snd (CarbonFootprint.fetch_carbon_footprint identifier query_details
           stamp clk' cache').
Proof.
  intros Hinv Hinv'. unfold CarbonFootprint.fetch_carbon_footprint. cbv zeta.
  destruct (resolve_scope_records query_details
              (CarbonFootprint.normalize_carbon_identifier identifier))
    as (r & records & -> & Hscope & Hs & _).
  destruct (cached_carbon_exact _
              (CarbonFootprint.normalize_carbon_identifier identifier)
              records clk cache Hscope Hs Hinv) as (c1 & -> & _).
  destruct (cached_carbon_exact _
              (CarbonFootprint.normalize_carbon_identifier identifier)
              records clk' cache' Hscope Hs Hinv') as (c2 & -> & _).
  now destruct (record_truthy
                  (Py.lookup records
                     (CarbonFootprint.normalize_carbon_identifier identifier))).
Qed.

Lemma reputation_transparent (identifier : string)
    (query_details : option string) (stamp : string) (clk clk' : clock)
    (cache cache' : gmap string cache_entry) :
  reputation_cache_exact cache ->
  reputation_cache_exact cache' ->
  snd (ReputationScore.fetch_reputation_score identifier query_details stamp
         clk cache)
  = snd (ReputationScore.fetch_reputation_score identifier query_details
           stamp clk' cache').
Proof.
  intros Hinv Hinv'. unfold ReputationScore.fetch_reputation_score. cbv zeta.
  destruct (Py.lookup ReputationScore.simulated_reputation_data
              (ReputationScore.normalize_reputation_identifier identifier))
    as [aspects|] eqn:Ha; [|reflexivity].
  destruct (cached_reputation_exact aspects _
              (ReputationScore.select_aspect (Py.keys aspects)
                 (ReputationScore.requested_aspect_of query_details)
                 (ReputationScore.normalize_reputation_identifier identifier))
              clk cache Ha Hinv) as (c1 & -> & _).
  destruct (cached_reputation_exact aspects _
              (ReputationScore.select_aspect (Py.keys aspects)
                 (ReputationScore.requested_aspect_of query_details)
                 (ReputationScore.normalize_reputation_identifier identifier))
              clk' cache' Ha Hinv') as (c2 & -> & _).
  now destruct (record_truthy
                  (Py.lookup aspects
                     (ReputationScore.select_aspect (Py.keys aspects)
                        (ReputationScore.requested_aspect_of query_details)
                        (ReputationScore.normalize_reputation_identifier
                           identifier)))).
Qed.

(** *** The caches of a resolver after a request *)

Lemma education_cache_after (identifier : string)
    (query_details : option string) (stamp : string) (clk : clock)
    (cache : gmap string cache_entry) :
  fst (EducationCredentials.fetch_education_credential identifier
         query_details stamp clk cache)
  = snd (EducationCredentials.cached_credential
           EducationCredentials.simulated_credentials identifier clk cache).
Proof.
  unfold EducationCredentials.fetch_education_credential.
  destruct (EducationCredentials.cached_credential _ identifier clk cache)
    as [edu_data cache'].
  now destruct (record_truthy edu_data).
Qed.

Lemma supply_cache_after (identifier : string)
    (query_details : option string) (stamp : string) (clk : clock)
    (cache : gmap string cache_entry) :
  fst (SupplyChain.fetch_supply_chain_status identifier query_details stamp
         clk cache)
  = snd (SupplyChain.cached_supply_chain SupplyChain.simulated_supply_chains
           identifier clk cache).
Proof.
  unfold SupplyChain.fetch_supply_chain_status.
  destruct (SupplyChain.cached_supply_chain _ identifier clk cache)
    as [supply_data cache'].
  now destruct (record_truthy supply_data).
Qed.

Lemma carbon_cache_after (identifier : string) (query_details : option string)
    (stamp : string) (clk : clock) (cache : gmap string cache_entry) :
  exists r,
    CarbonFootprint.resolve_scope CarbonFootprint.simulated_carbon_data
      query_details (CarbonFootprint.normalize_carbon_identifier identifier)
    = Ok r
    /\ fst (CarbonFootprint.fetch_carbon_footprint identifier query_details
              stamp clk cache)
       = snd (CarbonFootprint.cached_carbon_data
                CarbonFootprint.simulated_carbon_data
                (CarbonFootprint.data_scope r)
                (CarbonFootprint.normalize_carbon_identifier identifier)
                clk cache).
Proof.
  unfold CarbonFootprint.fetch_carbon_footprint. cbv zeta.
  destruct (resolve_scope_records query_details
              (CarbonFootprint.normalize_carbon_identifier identifier))
    as (r & records & -> & _).
  exists r. split; [reflexivity|].
  destruct (CarbonFootprint.cached_carbon_data _ _ _ clk cache)
    as [[carbon_data|e] cache']; [|reflexivity].
  now destruct (record_truthy carbon_data).
Qed.

Lemma cached_credential_writes (credentials : list (string * dict))
    (identifier : string) (clk : clock) (cache : gmap string cache_entry) :
  wrote_at_most_one clk cache
    (snd (EducationCredentials.cached_credential credentials identifier clk
            cache)).
Proof.
  unfold EducationCredentials.cached_credential. cbv zeta.
  destruct (cache !! ("education_" +:+ identifier));
    [destruct (cache_fresh cache ("education_" +:+ identifier) clk)|];
    destruct (Py.lookup credentials identifier);
    cbn [snd]; first [now left | right; eauto].
Qed.

Lemma cached_supply_chain_writes (supply_chains : list (string * dict))
    (identifier : string) (clk : clock) (cache : gmap string cache_entry) :
  wrote_at_most_one clk cache
    (snd (SupplyChain.cached_supply_chain supply_chains identifier clk cache)).
Proof.
  unfold SupplyChain.cached_supply_chain. cbv zeta.
  destruct (cache !! ("supply_chain_" +:+ identifier));
    [destruct (cache_fresh cache ("supply_chain_" +:+ identifier) clk)|];
    destruct (Py.lookup supply_chains identifier);
    cbn [snd]; first [now left | right; eauto].
Qed.

Lemma cached_carbon_writes
    (carbon_data : list (string * list (string * dict)))
    (data_scope normalized_identifier : string) (clk : clock)
    (cache : gmap string cache_entry) :
  wrote_at_most_one clk cache
    (snd (CarbonFootprint.cached_carbon_data carbon_data data_scope
            normalized_identifier clk cache)).
Proof.
  unfold CarbonFootprint.cached_carbon_data, Py.getitem. cbv zeta.
  destruct (cache !! CarbonFootprint.carbon_cache_key data_scope
                       normalized_identifier);
    [destruct (cache_fresh cache
                 (CarbonFootprint.carbon_cache_key data_scope
                    normalized_identifier) clk)|];
    destruct (Py.lookup carbon_data data_scope) as [records|];
    try destruct (Py.lookup records normalized_identifier);
    cbn [snd]; first [now left | right; eauto].
Qed.

Lemma cached_reputation_writes (aspects : list (string * dict))
    (normalized_identifier reputation_aspect : string) (clk : clock)
    (cache : gmap string cache_entry) :
  wrote_at_most_one clk cache
    (snd (ReputationScore.cached_reputation_data aspects
            normalized_identifier reputation_aspect clk cache)).
Proof.
  unfold ReputationScore.cached_reputation_data. cbv zeta.
  destruct (cache !! ReputationScore.reputation_cache_key
                       normalized_identifier reputation_aspect);
    [destruct (cache_fresh cache
                 (ReputationScore.reputation_cache_key normalized_identifier
                    reputation_aspect) clk)|];
    destruct (record_truthy (Py.lookup aspects reputation_aspect));
    cbn [snd]; first [now left | right; eauto].
Qed.

Lemma reputation_cache_after (identifier : string)
    (query_details : option string) (stamp : string) (clk : clock)
    (cache : gmap string cache_entry) :
  wrote_at_most_one clk cache
    (fst (ReputationScore.fetch_reputation_score identifier query_details
            stamp clk cache)).
Proof.
  unfold ReputationScore.fetch_reputation_score. cbv zeta.
  destruct (Py.lookup ReputationScore.simulated_reputation_data
              (ReputationScore.normalize_reputation_identifier identifier))
    as [aspects|]; [|now left].
  pose proof (cached_reputation_writes aspects
                (ReputationScore.normalize_reputation_identifier identifier)
                (ReputationScore.select_aspect (Py.keys aspects)
                   (ReputationScore.requested_aspect_of query_details)
                   (ReputationScore.normalize_reputation_identifier identifier))
                clk cache) as Hw.
  destruct (ReputationScore.cached_reputation_data _ _ _ clk cache)
    as [reputation_data cache'].
  now destruct (record_truthy reputation_data).
Qed.

(** *** The router *)

Lemma reputation_exact_after (identifier : string)
    (query_details : option string) (stamp : string) (clk : clock)
    (cache : gmap string cache_entry) :
  reputation_cache_exact cache ->
  reputation_cache_exact
    (fst (ReputationScore.fetch_reputation_score identifier query_details
            stamp clk cache)).
Proof.
  intros Hinv. unfold ReputationScore.fetch_reputation_score. cbv zeta.
  destruct (Py.lookup ReputationScore.simulated_reputation_data
              (ReputationScore.normalize_reputation_identifier identifier))
    as [aspects|] eqn:Ha; [|exact Hinv].
  destruct (cached_reputation_exact aspects _
              (ReputationScore.select_aspect (Py.keys aspects)
                 (ReputationScore.requested_aspect_of query_details)
                 (ReputationScore.normalize_reputation_identifier identifier))
              clk cache Ha Hinv) as (c1 & -> & Hinv' & _).
  now destruct (record_truthy _).
Qed.

Lemma carbon_exact_after (identifier : string) (query_details : option string)
    (stamp : string) (clk : clock) (cache : gmap string cache_entry) :
  carbon_cache_exact cache ->
  carbon_cache_exact
    (fst (CarbonFootprint.fetch_carbon_footprint identifier query_details
            stamp clk cache)).
Proof.
  intros Hinv.
  destruct (carbon_cache_after identifier query_details stamp clk cache)
    as (r & Hr & ->).
  destruct (resolve_scope_records query_details
              (CarbonFootprint.normalize_carbon_identifier identifier))
    as (r' & records & Hr' & Hscope & Hs & _).
  rewrite Hr in Hr'. injection Hr' as <-.
  destruct (cached_carbon_exact _
              (CarbonFootprint.normalize_carbon_identifier identifier)
              records clk cache Hscope Hs Hinv) as (c1 & -> & Hinv' & _).
  exact Hinv'.
Qed.

Lemma carbon_writes_after (identifier : string) (query_details : option string)
    (stamp : string) (clk : clock) (cache : gmap string cache_entry) :
  wrote_at_most_one clk cache
    (fst (CarbonFootprint.fetch_carbon_footprint identifier query_details
            stamp clk cache)).
Proof.
  destruct (carbon_cache_after identifier query_details stamp clk cache)
    as (r & _ & ->).
  apply cached_carbon_writes.
Qed.

Lemma fetch_keeps_exact (data_type identifier : string)
    (query_details : option string) (clk : clock) (response : upstream)
    (st : caches) :
  caches_exact st ->
  caches_exact
    (fst (fetch_verifiable_data data_type identifier query_details clk
            response st)).
Proof.
  intros (Hedu & Hsupply & Hcarbon & Hreputation).
  unfold fetch_verifiable_data. cbv zeta.
  destruct (String.eqb (Str.lower data_type) "crypto_price");
    [now repeat split|].
  destruct (String.eqb (Str.lower data_type) "education_credential").
  { pose proof (education_cache_after identifier query_details
                  (utcnow_iso clk +:+ "Z") clk (education_cache st)) as Hafter.
    destruct (cached_credential_exact identifier clk _ Hedu)
      as (c1 & Hc1 & Hinv' & _).
    rewrite Hc1 in Hafter.
    destruct (EducationCredentials.fetch_education_credential _ _ _ _ _)
      as [cache r]. cbn [fst snd] in *. subst cache. now repeat split. }
  destruct (String.eqb (Str.lower data_type) "supply_chain_status").
  { pose proof (supply_cache_after identifier query_details
                  (utcnow_iso clk +:+ "Z") clk (supply_chain_cache st))
      as Hafter.
    destruct (cached_supply_chain_exact identifier clk _ Hsupply)
      as (c1 & Hc1 & Hinv' & _).
    rewrite Hc1 in Hafter.
    destruct (SupplyChain.fetch_supply_chain_status _ _ _ _ _) as [cache r].
    cbn [fst snd] in *. subst cache. now repeat split. }
  destruct (String.eqb (Str.lower data_type) "carbon_footprint").
  { pose proof (carbon_exact_after identifier query_details
                  (utcnow_iso clk +:+ "Z") clk _ Hcarbon) as Hafter.
    destruct (CarbonFootprint.fetch_carbon_footprint _ _ _ _ _) as [cache r].
    now repeat split. }
  destruct (String.eqb (Str.lower data_type) "reputation_score").
  { pose proof (reputation_exact_after identifier query_details
                  (utcnow_iso clk +:+ "Z") clk _ Hreputation) as Hafter.
    destruct (ReputationScore.fetch_reputation_score _ _ _ _ _) as [cache r].
    now repeat split. }
  now repeat split.
Qed.

Lemma reachable_caches_exact (st : caches) : reachable st -> caches_exact st.
Proof.
  induction 1 as [|st data_type identifier query_details clk response _ IH].
  - repeat split; apply map_Forall_empty.
  - now apply fetch_keeps_exact.
Qed.

Lemma fetch_transparent (data_type identifier : string)
    (query_details : option string) (clk clk' : clock) (response : upstream)
    (st st' : caches) :
  caches_exact st -> caches_exact st' ->
  utcnow_iso clk = utcnow_iso clk' ->
  snd (fetch_verifiable_data data_type identifier query_details clk response
         st)
  = snd (fetch_verifiable_data data_type identifier query_details clk'
           response st').
Proof.
  intros (Hedu & Hsupply & Hcarbon & Hreputation)
    (Hedu' & Hsupply' & Hcarbon' & Hreputation') Hiso.
  unfold fetch_verifiable_data. cbv zeta. rewrite <- Hiso.
  destruct (String.eqb (Str.lower data_type) "crypto_price"); [reflexivity|].
  destruct (String.eqb (Str.lower data_type) "education_credential").
  { pose proof (education_transparent identifier query_details query_details
                  (utcnow_iso clk +:+ "Z") clk clk' _ _ Hedu Hedu') as Heq.
    do 2 destruct (EducationCredentials.fetch_education_credential _ _ _ _ _).
    exact Heq. }
  destruct (String.eqb (Str.lower data_type) "supply_chain_status").
  { pose proof (supply_transparent identifier query_details query_details
                  (utcnow_iso clk +:+ "Z") clk clk' _ _ Hsupply Hsupply')
      as Heq.
    do 2 destruct (SupplyChain.fetch_supply_chain_status _ _ _ _ _).
    exact Heq. }
  destruct (String.eqb (Str.lower data_type) "carbon_footprint").
  { pose proof (carbon_transparent identifier query_details
                  (utcnow_iso clk +:+ "Z") clk clk' _ _ Hcarbon Hcarbon')
      as Heq.
    do 2 destruct (CarbonFootprint.fetch_carbon_footprint _ _ _ _ _).
    exact Heq. }
  destruct (String.eqb (Str.lower data_type) "reputation_score").
  { pose proof (reputation_transparent identifier query_details
                  (utcnow_iso clk +:+ "Z") clk clk' _ _ Hreputation
                  Hreputation') as Heq.
    do 2 destruct (ReputationScore.fetch_reputation_score _ _ _ _ _).
    exact Heq. }
  reflexivity.
Qed.

(** X1: the answer of the router does not depend on what the caches hold
    nor on when it is asked: in any two states the agent can reach, at any
    two clocks that render the same timestamp, the same request with the
    same upstream outcome gets the same result. *)
Theorem answers_do_not_depend_on_caches (data_type identifier : string)
    (query_details : option string) (clk clk' : clock) (response : upstream)
    (st st' : caches) :
  reachable st -> reachable st' ->
  utcnow_iso clk = utcnow_iso clk' ->
  snd (fetch_verifiable_data data_type identifier query_details clk response
         st)
  = snd (fetch_verifiable_data data_type identifier query_details clk'
           response st').
Proof.
  intros Hst Hst'. apply fetch_transparent; now apply reachable_caches_exact.
Qed.

(** X2: in every state the agent can reach, each cache entry holds the
    record the store has for the identifier (and scope or aspect) its key
    names. *)
Theorem reachable_caches_hold_store_records (st : caches) :
  reachable st -> caches_exact st.
Proof.
  induction 1 as [|st data_type identifier query_details clk response _ IH].
  - repeat split; apply map_Forall_empty.
  - now apply fetch_keeps_exact.
Qed.

Lemma wrote_keeps_keys (clk : clock) (before after : gmap string cache_entry) :
  wrote_at_most_one clk before after -> dom before ⊆ dom after.
Proof.
  intros [->|(key & record & ->)]; [reflexivity|].
  rewrite dom_insert_L. set_solver.
Qed.

(** X3: one request writes at most one entry, stamped with the reading
    taken for the write, in the cache of its own data type; the three other
    caches are left as they are, and no key is ever removed from a cache. *)
Theorem one_request_writes_one_entry (data_type identifier : string)
    (query_details : option string) (clk : clock) (response : upstream)
    (st : caches) :
  let st' :=
    fst (fetch_verifiable_data data_type identifier query_details clk
           response st) in
  (wrote_at_most_one clk (education_cache st) (education_cache st')
   /\ wrote_at_most_one clk (supply_chain_cache st) (supply_chain_cache st')
   /\ wrote_at_most_one clk (carbon_footprint_cache st)
        (carbon_footprint_cache st')
   /\ wrote_at_most_one clk (reputation_cache st) (reputation_cache st'))
  /\ (education_cache st' = education_cache st
      \/ Str.lower data_type = "education_credential")
  /\ (supply_chain_cache st' = supply_chain_cache st
      \/ Str.lower data_type = "supply_chain_status")
  /\ (carbon_footprint_cache st' = carbon_footprint_cache st
      \/ Str.lower data_type = "carbon_footprint")
  /\ (reputation_cache st' = reputation_cache st
      \/ Str.lower data_type = "reputation_score")
  /\ dom (education_cache st) ⊆ dom (education_cache st')
  /\ dom (supply_chain_cache st) ⊆ dom (supply_chain_cache st')
  /\ dom (carbon_footprint_cache st) ⊆ dom (carbon_footprint_cache st')
  /\ dom (reputation_cache st) ⊆ dom (reputation_cache st').
Proof.
  intros st'.
  assert (Hwrote :
    wrote_at_most_one clk (education_cache st) (education_cache st')
    /\ wrote_at_most_one clk (supply_chain_cache st) (supply_chain_cache st')
    /\ wrote_at_most_one clk (carbon_footprint_cache st)
         (carbon_footprint_cache st')
    /\ wrote_at_most_one clk (reputation_cache st) (reputation_cache st')
    /\ (education_cache st' = education_cache st
        \/ Str.lower data_type = "education_credential")
    /\ (supply_chain_cache st' = supply_chain_cache st
        \/ Str.lower data_type = "supply_chain_status")
    /\ (carbon_footprint_cache st' = carbon_footprint_cache st
        \/ Str.lower data_type = "carbon_footprint")
    /\ (reputation_cache st' = reputation_cache st
        \/ Str.lower data_type = "reputation_score")).
  { subst st'. unfold fetch_verifiable_data. cbv zeta.
    destruct (String.eqb (Str.lower data_type) "crypto_price").
    { cbn [fst]. repeat split; now left. }
    destruct (String.eqb_spec (Str.lower data_type) "education_credential")
      as [Hty|_].
    { pose proof (education_cache_after identifier query_details
                    (utcnow_iso clk +:+ "Z") clk (education_cache st))
        as Hafter.
      pose proof (cached_credential_writes
                    EducationCredentials.simulated_credentials identifier clk
                    (education_cache st)) as Hw.
      rewrite <- Hafter in Hw.
      destruct (EducationCredentials.fetch_education_credential _ _ _ _ _)
        as [cache r]. cbn [fst education_cache supply_chain_cache
                             carbon_footprint_cache reputation_cache] in *.
      repeat split; first [exact Hw | now left | now right]. }
    destruct (String.eqb_spec (Str.lower data_type) "supply_chain_status")
      as [Hty|_].
    { pose proof (supply_cache_after identifier query_details
                    (utcnow_iso clk +:+ "Z") clk (supply_chain_cache st))
        as Hafter.
      pose proof (cached_supply_chain_writes
                    SupplyChain.simulated_supply_chains identifier clk
                    (supply_chain_cache st)) as Hw.
      rewrite <- Hafter in Hw.
      destruct (SupplyChain.fetch_supply_chain_status _ _ _ _ _)
        as [cache r]. cbn [fst education_cache supply_chain_cache
                             carbon_footprint_cache reputation_cache] in *.
      repeat split; first [exact Hw | now left | now right]. }
    destruct (String.eqb_spec (Str.lower data_type) "carbon_footprint")
      as [Hty|_].
    { pose proof (carbon_writes_after identifier query_details
                    (utcnow_iso clk +:+ "Z") clk (carbon_footprint_cache st))
        as Hw.
      destruct (CarbonFootprint.fetch_carbon_footprint _ _ _ _ _)
        as [cache r]. cbn [fst education_cache supply_chain_cache
                             carbon_footprint_cache reputation_cache] in *.
      repeat split; first [exact Hw | now left | now right]. }
    destruct (String.eqb_spec (Str.lower data_type) "reputation_score")
      as [Hty|_].
    { pose proof (reputation_cache_after identifier query_details
                    (utcnow_iso clk +:+ "Z") clk (reputation_cache st))
        as Hw.
      destruct (ReputationScore.fetch_reputation_score _ _ _ _ _)
        as [cache r]. cbn [fst education_cache supply_chain_cache
                             carbon_footprint_cache reputation_cache] in *.
      repeat split; first [exact Hw | now left | now right]. }
    cbn [fst]. repeat split; now left. }
  destruct Hwrote as (H1 & H2 & H3 & H4 & F1 & F2 & F3 & F4).
  repeat split; try assumption; eapply wrote_keeps_keys; eassumption.
Qed.

(** *** Found or not found *)

Lemma router_education (data_type identifier : string)
    (query_details : option string) (clk : clock) (response : upstream)
    (st : caches) :
  Str.lower data_type = "education_credential" ->
  snd (fetch_verifiable_data data_type identifier query_details clk response
         st)
  = snd (EducationCredentials.fetch_education_credential identifier
           query_details (utcnow_iso clk +:+ "Z") clk (education_cache st)).
Proof.
  intros Hty. unfold fetch_verifiable_data. cbv zeta. rewrite Hty.
  cbn [String.eqb Ascii.eqb Bool.eqb].
  now destruct (EducationCredentials.fetch_education_credential _ _ _ _ _).
Qed.

Lemma router_supply (data_type identifier : string)
    (query_details : option string) (clk : clock) (response : upstream)
    (st : caches) :
  Str.lower data_type = "supply_chain_status" ->
  snd (fetch_verifiable_data data_type identifier query_details clk response
         st)
  = snd (SupplyChain.fetch_supply_chain_status identifier query_details
           (utcnow_iso clk +:+ "Z") clk (supply_chain_cache st)).
Proof.
  intros Hty. unfold fetch_verifiable_data. cbv zeta. rewrite Hty.
  cbn [String.eqb Ascii.eqb Bool.eqb].
  now destruct (SupplyChain.fetch_supply_chain_status _ _ _ _ _).
Qed.



(** X4: an education request is answered from the record stored under the
    identifier exactly as given: when the store has that key, the envelope
    has no error_message and carries the record's name and credentials;
    when it has not, the envelope is the failure naming the identifier, with
    an empty payload. *)
Theorem education_found_iff_stored (data_type identifier : string)
    (query_details : option string) (clk : clock) (response : upstream)
    (st : caches) :
  reachable st ->
  Str.lower data_type = "education_credential" ->
  exists envelope,
    snd (fetch_verifiable_data data_type identifier query_details clk
           response st) = Ok envelope
    /\ match Py.lookup EducationCredentials.simulated_credentials identifier
       with
       | Some record =>
           Py.lookup envelope "error_message" = None
           /\ field_at ["data_payload"; "profile"; "name"] (VDict envelope)
              = Py.lookup record "name"
           /\ field_at ["data_payload"; "credentials"] (VDict envelope)
              = Py.lookup record "credentials"
       | None =>
           Py.lookup envelope "error_message"
           = Some (VStr ("No education credentials found for identifier '"
                         +:+ identifier +:+ "'."))
           /\ Py.lookup envelope "data_payload" = Some (VDict [])
       end.
Proof.
  intros Hreach Hty.
  rewrite (router_education _ _ _ _ _ _ Hty).
  destruct (reachable_caches_exact st Hreach) as (Hedu & _).
  unfold EducationCredentials.fetch_education_credential.
  destruct (cached_credential_exact identifier clk _ Hedu) as (c1 & -> & _).
  destruct (Py.lookup EducationCredentials.simulated_credentials identifier)
    as [record|] eqn:Hrec; [|cbn [record_truthy snd]].
  - pose proof (simulated_credentials_ok _ _ Hrec) as Hok.
    unfold education_record_ok in Hok.
    apply andb_true_iff in Hok as [Htruthy Hfields].
    rewrite Htruthy. cbn [default from_option id snd].
    destruct (has_fields_getitem _ _ "name" Hfields) as [name Hname];
      [simpl; tauto|].
    destruct (has_fields_getitem _ _ "credentials" Hfields)
      as [credentials Hcredentials]; [simpl; tauto|].
    unfold Py.getitem. rewrite Hname, Hcredentials. cbn [bind].
    eexists. split; [reflexivity|]. repeat split; reflexivity.
  - eexists. split; [reflexivity|]. split; reflexivity.
Qed.

(** X5: a supply-chain request is answered from the record stored under the
    identifier exactly as given: when the store has that key, the envelope
    has no error_message and carries the record's name, chain and
    certifications; when it has not, the envelope is the failure naming the
    identifier, with an empty payload. *)
Theorem supply_chain_found_iff_stored (data_type identifier : string)
    (query_details : option string) (clk : clock) (response : upstream)
    (st : caches) :
  reachable st ->
  Str.lower data_type = "supply_chain_status" ->
  exists envelope,
    snd (fetch_verifiable_data data_type identifier query_details clk
           response st) = Ok envelope
    /\ match Py.lookup SupplyChain.simulated_supply_chains identifier with
       | Some record =>
           Py.lookup envelope "error_message" = None
           /\ field_at ["data_payload"; "product"; "name"] (VDict envelope)
              = Py.lookup record "name"
           /\ field_at ["data_payload"; "supplyChain"] (VDict envelope)
              = Py.lookup record "chain"
           /\ field_at ["data_payload"; "certifications"] (VDict envelope)
              = Py.lookup record "certifications"
       | None =>
           Py.lookup envelope "error_message"
           = Some (VStr ("No supply chain information found for product identifier '"
                         +:+ identifier +:+ "'."))
           /\ Py.lookup envelope "data_payload" = Some (VDict [])
       end.
Proof.
  intros Hreach Hty.
  rewrite (router_supply _ _ _ _ _ _ Hty).
  destruct (reachable_caches_exact st Hreach) as (_ & Hsupply & _).
  unfold SupplyChain.fetch_supply_chain_status.
  destruct (cached_supply_chain_exact identifier clk _ Hsupply)
    as (c1 & -> & _).
  destruct (Py.lookup SupplyChain.simulated_supply_chains identifier)
    as [record|] eqn:Hrec; [|cbn [record_truthy snd]].
  - pose proof (simulated_supply_chains_ok _ _ Hrec) as Hok.
    unfold supply_record_ok in Hok.
    apply andb_true_iff in Hok as [Htruthy Hfields].
    rewrite Htruthy. cbn [default from_option id snd].
    destruct (has_fields_getitem _ _ "name" Hfields) as [v1 H1];
      [simpl; tauto|].
    destruct (has_fields_getitem _ _ "manufacturer" Hfields) as [v2 H2];
      [simpl; tauto|].
    destruct (has_fields_getitem _ _ "chain" Hfields) as [v3 H3];
      [simpl; tauto|].
    destruct (has_fields_getitem _ _ "certifications" Hfields) as [v4 H4];
      [simpl; tauto|].
    destruct (has_fields_getitem _ _ "carbonFootprint" Hfields) as [v5 H5];
      [simpl; tauto|].
    destruct (has_fields_getitem _ _ "blockchainRecords" Hfields) as [v6 H6];
      [simpl; tauto|].
    unfold Py.getitem. rewrite H1, H2, H3, H4, H5, H6. cbn [bind].
    eexists. split; [reflexivity|]. repeat split; reflexivity.
  - eexists. split; [reflexivity|]. split; reflexivity.
Qed.




(** *** Reputation: the aspect answered *)




End ExactCaches.

(** ** Identifiers count through their normal form *)

Section NormalForms.

Import DataSourceHandler Spec.
Context `{Runtime}.

Lemma lower_same_carbon (identifier identifier' : string) :
  Str.lower identifier = Str.lower identifier' ->
  CarbonFootprint.normalize_carbon_identifier identifier
  = CarbonFootprint.normalize_carbon_identifier identifier'.
Proof.
  intros Hlower. unfold CarbonFootprint.normalize_carbon_identifier.
  pose proof (truthy_lower identifier) as Htruthy.
  rewrite Hlower, truthy_lower in Htruthy.
  destruct identifier, identifier'; try discriminate; cbn [Str.truthy negb];
    [reflexivity|exact Hlower].
Qed.

Lemma carbon_by_normal_form (identifier identifier' : string)
    (query_details : option string) (stamp : string) (clk : clock)
    (cache : gmap string cache_entry) :
  CarbonFootprint.normalize_carbon_identifier identifier
  = CarbonFootprint.normalize_carbon_identifier identifier' ->
  fst (CarbonFootprint.fetch_carbon_footprint identifier query_details stamp
         clk cache)
  = fst (CarbonFootprint.fetch_carbon_footprint identifier' query_details
           stamp clk cache)
  /\ answer_payload
       (snd (CarbonFootprint.fetch_carbon_footprint identifier query_details
               stamp clk cache))
     = answer_payload
         (snd (CarbonFootprint.fetch_carbon_footprint identifier'
                 query_details stamp clk cache)).
Proof.
  intros Hnormal. unfold CarbonFootprint.fetch_carbon_footprint. cbv zeta.
  rewrite Hnormal.
  destruct (CarbonFootprint.resolve_scope _ query_details _) as [r|e];
    [|now split].
  destruct (CarbonFootprint.cached_carbon_data _ _ _ clk cache)
    as [[carbon_data|e] cache']; [|now split].
  destruct (record_truthy carbon_data); [|now split].
  now destruct (CarbonFootprint.carbon_payload _ _ stamp).
Qed.

(** X8: carbon identifiers are matched without regard to letter case: two
    requests whose identifiers have the same lowercase form, as [str.lower]
    gives it for any letters, leave the caches in the same state and get
    the same data_payload (or raise alike). *)
Theorem carbon_identifier_case_insensitive (data_type : string)
    (identifier identifier' : string) (query_details : option string)
    (clk : clock) (response : upstream) (st : caches) :
  Str.lower data_type = "carbon_footprint" ->
  Str.lower identifier = Str.lower identifier' ->
  fst (fetch_verifiable_data data_type identifier query_details clk response
         st)
  = fst (fetch_verifiable_data data_type identifier' query_details clk
           response st)
  /\ answer_payload
       (snd (fetch_verifiable_data data_type identifier query_details clk
               response st))
     = answer_payload
         (snd (fetch_verifiable_data data_type identifier' query_details clk
                 response st)).
Proof.
  intros Hty Hlower.
  destruct (carbon_by_normal_form identifier identifier' query_details
              (utcnow_iso clk +:+ "Z") clk (carbon_footprint_cache st)
              (lower_same_carbon _ _ Hlower)) as [Hcache Hanswer].
  unfold fetch_verifiable_data. cbv zeta. rewrite Hty.
  cbn [String.eqb Ascii.eqb Bool.eqb].
  destruct (CarbonFootprint.fetch_carbon_footprint identifier _ _ _ _)
    as [c1 r1].
  destruct (CarbonFootprint.fetch_carbon_footprint identifier' _ _ _ _)
    as [c2 r2].
  cbn [fst snd] in *. now subst c2.
Qed.

Lemma reputation_by_normal_form (identifier identifier' : string)
    (query_details : option string) (stamp : string) (clk : clock)
    (cache : gmap string cache_entry) :
  ReputationScore.normalize_reputation_identifier identifier
  = ReputationScore.normalize_reputation_identifier identifier' ->
  fst (ReputationScore.fetch_reputation_score identifier query_details stamp
         clk cache)
  = fst (ReputationScore.fetch_reputation_score identifier' query_details
           stamp clk cache)
  /\ answer_payload
       (snd (ReputationScore.fetch_reputation_score identifier query_details
               stamp clk cache))
     = answer_payload
         (snd (ReputationScore.fetch_reputation_score identifier'
                 query_details stamp clk cache)).
Proof.
  intros Hnormal. unfold ReputationScore.fetch_reputation_score. cbv zeta.
  rewrite Hnormal.
  destruct (Py.lookup ReputationScore.simulated_reputation_data _)
    as [aspects|]; [|now split].
  destruct (ReputationScore.cached_reputation_data _ _ _ clk cache)
    as [reputation_data cache'].
  destruct (record_truthy reputation_data); [|now split].
  destruct (ReputationScore.reputation_payload _ stamp); [|now split].
  cbn [bind].
  destruct (Py.getitem _ "verificationMethod"); [|now split]. cbn [bind].
  destruct (Py.getitem _ "attesters") as [attesters|]; [|now split].
  cbn [bind]. now destruct (Py.join ", " attesters).
Qed.

(** X9: reputation identifiers count through their normal form: two
    requests whose identifiers normalize alike (spellings that differ in
    letter case, or an alias and the entity it stands for) leave the caches
    in the same state and get the same data_payload (or raise alike). *)
Theorem reputation_identifier_by_normal_form (data_type : string)
    (identifier identifier' : string) (query_details : option string)
    (clk : clock) (response : upstream) (st : caches) :
  Str.lower data_type = "reputation_score" ->
  ReputationScore.normalize_reputation_identifier identifier
  = ReputationScore.normalize_reputation_identifier identifier' ->
  fst (fetch_verifiable_data data_type identifier query_details clk response
         st)
  = fst (fetch_verifiable_data data_type identifier' query_details clk
           response st)
  /\ answer_payload
       (snd (fetch_verifiable_data data_type identifier query_details clk
               response st))
     = answer_payload
         (snd (fetch_verifiable_data data_type identifier' query_details clk
                 response st)).
Proof.
  intros Hty Hnormal.
  destruct (reputation_by_normal_form identifier identifier' query_details
              (utcnow_iso clk +:+ "Z") clk (reputation_cache st) Hnormal)
    as [Hcache Hanswer].
  unfold fetch_verifiable_data. cbv zeta. rewrite Hty.
  cbn [String.eqb Ascii.eqb Bool.eqb].
  destruct (ReputationScore.fetch_reputation_score identifier _ _ _ _)
    as [c1 r1].
  destruct (ReputationScore.fetch_reputation_score identifier' _ _ _ _)
    as [c2 r2].
  cbn [fst snd] in *. now subst c2.
Qed.

(** X10: the data type is matched without regard to letter case: for a
    supported type, spelling it in capitals or in lowercase gives the same
    new caches and the same answer. *)
Theorem data_type_case_insensitive (data_type identifier : string)
    (query_details : option string) (clk : clock) (response : upstream)
    (st : caches) :
  In (Str.lower data_type) SUPPORTED ->
  fetch_verifiable_data data_type identifier query_details clk response st
  = fetch_verifiable_data (Str.lower data_type) identifier query_details clk
      response st.
Proof.
  intros Hsupported. unfold fetch_verifiable_data. cbv zeta.
  rewrite lower_idem.
  unfold SUPPORTED in Hsupported.
  destruct Hsupported as [<-|[<-|[<-|[<-|[<-|[]]]]]]; reflexivity.
Qed.

End NormalForms.

(** ** The live price path *)

Section Prices.

Import DataSourceHandler Spec.
Context `{Runtime}.

Lemma contains_self (s : string) : Str.contains s s = true.
Proof.
  rewrite <- (append_nil_r s) at 2. apply contains_app_l.
Qed.

Lemma crypto_price_cases (identifier : string)
    (query_details : option string) (stamp : string) (response : upstream) :
  let currency := requested_currency query_details in
  let envelope :=
    fetch_crypto_price identifier query_details stamp response in
  match response with
  | Ok api_data =>
      match quoted_price api_data identifier currency with
      | Some price =>
          Py.lookup envelope "error_message" = None
          /\ Py.lookup envelope "data_payload"
             = Some (VDict [ ("price", price);
                             ("currency", VStr currency);
                             ("asset_id", VStr identifier) ])
      | None =>
          (exists message,
              Py.lookup envelope "error_message" = Some (VStr message))
          /\ Py.lookup envelope "data_payload" = Some (VDict [])
      end
  | Raise e =>
      (exists message,
          Py.lookup envelope "error_message" = Some (VStr message)
          /\ Str.contains (failure_text e) message = true)
      /\ Py.lookup envelope "data_payload" = Some (VDict [])
  end.
Proof.
  intros currency envelope. subst envelope. unfold fetch_crypto_price.
  fold (requested_currency query_details). fold currency.
  destruct response as [api_data|e]; cbn [bind].
  - unfold quoted_price.
    destruct api_data as [|b|n|num scale|s|items|body];
      cbn [Py.contains bind];
      try (split; [eexists|]; reflexivity).
    + (* a string *)
      destruct (Str.contains identifier s); cbn [bind Py.subscript];
        split; try eexists; reflexivity.
    + (* a list *)
      destruct (existsb _ items); cbn [bind Py.subscript];
        split; try eexists; reflexivity.
    + (* a mapping *)
      unfold Py.mem, Py.subscript, Py.getitem.
      destruct (Py.lookup body identifier) as [quotes|]; cbn [bind];
        [|split; [eexists|]; reflexivity].
      destruct quotes as [|b|n|num scale|s|items|quotes];
        cbn [Py.contains bind];
        try (split; [eexists|]; reflexivity).
      * destruct (Str.contains currency s); cbn [bind];
          split; try eexists; reflexivity.
      * destruct (existsb _ items); cbn [bind];
          split; try eexists; reflexivity.
      * unfold Py.mem.
        destruct (Py.lookup quotes currency) as [price|]; cbn [bind];
          [split; reflexivity|split; [eexists|]; reflexivity].
  - destruct e; cbn [failure_text];
      (split; [eexists; split; [reflexivity|]|reflexivity]);
      repeat apply contains_app_r; apply contains_self.
Qed.

(** X11: a price request never raises and never touches the caches,
    whatever the caches hold and whatever the upstream does.  It succeeds
    exactly when the upstream body is a mapping whose entry for the
    identifier is a mapping with an entry for the requested currency; the
    payload then carries that entry unchanged, with the currency and the
    identifier.  Every other body, and every upstream exception, gives an
    error envelope with an empty payload; for an exception the error_message
    contains the text the failure carries. *)
Theorem price_request_outcomes (data_type identifier : string)
    (query_details : option string) (clk : clock) (response : upstream)
    (st : caches) :
  Str.lower data_type = "crypto_price" ->
  let currency := requested_currency query_details in
  exists envelope,
    fetch_verifiable_data data_type identifier query_details clk response st
    = (st, Ok envelope)
    /\ match response with
       | Ok api_data =>
           match quoted_price api_data identifier currency with
           | Some price =>
               Py.lookup envelope "error_message" = None
               /\ Py.lookup envelope "data_payload"
                  = Some (VDict [ ("price", price);
                                  ("currency", VStr currency);
                                  ("asset_id", VStr identifier) ])
           | None =>
               (exists message,
                   Py.lookup envelope "error_message" = Some (VStr message))
               /\ Py.lookup envelope "data_payload" = Some (VDict [])
           end
       | Raise e =>
           (exists message,
               Py.lookup envelope "error_message" = Some (VStr message)
               /\ Str.contains (failure_text e) message = true)
           /\ Py.lookup envelope "data_payload" = Some (VDict [])
       end.
Proof.
  intros Hty currency. unfold fetch_verifiable_data. cbv zeta. rewrite Hty.
  cbn [String.eqb Ascii.eqb Bool.eqb].
  eexists. split; [reflexivity|].
  apply crypto_price_cases.
Qed.

(** *** The currency hint *)

Lemma substring_all (s : string) : String.substring 0 (String.length s) s = s.
Proof. induction s as [|c s IH]; cbn; [reflexivity|now rewrite IH]. Qed.

Lemma substring_after (a t : string) :
  String.substring (String.length a)
    (String.length (a +:+ t) - String.length a) (a +:+ t) = t.
Proof.
  induction a as [|c a IH].
  - cbn [String.length String.append]. rewrite Nat.sub_0_r.
    apply substring_all.
  - change (String c a +:+ t) with (String c (a +:+ t)).
    cbn [String.length String.substring]. exact IH.
Qed.

Lemma split_last_no_match (sep t piece : string) :
  Str.contains sep t = false ->
  split_last_from sep 0 t piece = piece.
Proof.
  induction t as [|c t IH]; intros Hno; [reflexivity|].
  rewrite contains_cons in Hno. apply orb_false_iff in Hno as [Hpre Hrest].
  cbn [split_last_from]. rewrite Hpre. now apply IH.
Qed.

Lemma split_last_skip (sep u t piece : string) :
  split_last_from sep (String.length u) (u +:+ t) piece
  = split_last_from sep 0 t piece.
Proof.
  induction u as [|c u IH]; [reflexivity|].
  change (String c u +:+ t) with (String c (u +:+ t)).
  cbn [String.length split_last_from]. exact IH.
Qed.

(** [(sep + t).split(sep)[-1]] is [t] when [sep] does not occur in [t]. *)
Lemma split_last_after (sep t : string) :
  sep <> "" ->
  Str.contains sep t = false ->
  split_last sep (sep +:+ t) = t.
Proof.
  intros Hsep Hno. unfold split_last.
  destruct sep as [|c sep]; [congruence|].
  change (String c sep +:+ t) with (String c (sep +:+ t)).
  cbn [split_last_from].
  change (String c (sep +:+ t)) with (String c sep +:+ t).
  rewrite prefix_app, substring_after.
  replace (String.length (String c sep) - 1)%nat with (String.length sep)
    by (cbn [String.length]; lia).
  rewrite split_last_skip. now apply split_last_no_match.
Qed.

(** A match of the hint that starts before the hint starts before it by at
    least its whole length: the hint does not overlap itself. *)
Lemma hint_does_not_overlap (before after : string) :
  String.prefix "vs_currency=" (before +:+ "vs_currency=" +:+ after) = true ->
  before = "" \/ exists rest, before = "vs_currency=" +:+ rest.
Proof.
  intros Hpre.
  destruct before as [|c1 before]; [now left|]. right.
  do 11 (destruct before as [|? before];
         [exfalso; cbv [append] in Hpre; cbn [String.prefix] in Hpre;
          repeat match goal with
                 | H : context [Ascii.ascii_dec ?x ?y] |- _ =>
                     destruct (Ascii.ascii_dec x y); try discriminate
                 end|]).
  cbv [append] in Hpre. cbn [String.prefix] in Hpre.
  repeat match goal with
         | H : context [Ascii.ascii_dec ?x ?y] |- _ =>
             destruct (Ascii.ascii_dec x y); try discriminate; subst
         end.
  now exists before.
Qed.

Lemma split_last_hint (before currency piece : string) :
  Str.contains "vs_currency=" currency = false ->
  split_last_from "vs_currency=" 0
    (before +:+ "vs_currency=" +:+ currency) piece
  = currency.
Proof.
  intros Hno. revert piece.
  remember (String.length before) as n eqn:Hn.
  revert before Hn.
  induction n as [n IH] using lt_wf_ind. intros before Hn piece.
  destruct before as [|c before].
  - change ("" +:+ "vs_currency=" +:+ currency)
      with (String "v" ("s_currency=" +:+ currency)).
    cbn [split_last_from].
    change (String "v" ("s_currency=" +:+ currency))
      with ("vs_currency=" +:+ currency).
    rewrite prefix_app, substring_after.
    change (String.length "vs_currency=" - 1)%nat
      with (String.length "s_currency=").
    rewrite split_last_skip. now apply split_last_no_match.
  - change (String c before +:+ "vs_currency=" +:+ currency)
      with (String c (before +:+ "vs_currency=" +:+ currency)).
    cbn [split_last_from].
    change (String c (before +:+ "vs_currency=" +:+ currency))
      with (String c before +:+ "vs_currency=" +:+ currency).
    destruct (String.prefix "vs_currency="
                (String c before +:+ "vs_currency=" +:+ currency)) eqn:Hpre.
    + destruct (hint_does_not_overlap _ _ Hpre) as [|[rest Hrest]];
        [discriminate|].
      change ("vs_currency=" +:+ rest)
        with (String "v" ("s_currency=" +:+ rest)) in Hrest.
      injection Hrest as -> ->.
      change (String.length "vs_currency=" - 1)%nat
        with (String.length "s_currency=").
      assert (Hassoc : ("s_currency=" +:+ rest) +:+ "vs_currency=" +:+ currency
                       = "s_currency=" +:+ rest +:+ "vs_currency=" +:+ currency)
        by reflexivity.
      rewrite Hassoc, split_last_skip.
      apply (IH (String.length rest)); [|reflexivity].
      subst n. cbn [String.length]. rewrite length_app. lia.
    + apply (IH (String.length before)); [|reflexivity].
      subst n. cbn [String.length]. lia.
Qed.

Lemma requested_currency_hint (before currency : string) :
  Str.contains "vs_currency=" currency = false ->
  requested_currency (Some (before +:+ "vs_currency=" +:+ currency))
  = currency.
Proof.
  intros Hno. unfold requested_currency.
  rewrite (contains_app_r _ before), (proj2 (truthy_nonempty _))
    by (try apply contains_app_l; destruct before; discriminate).
  cbn [andb]. now apply split_last_hint.
Qed.

Lemma requested_currency_default (query_details : option string) :
  match query_details with
  | Some details => Str.contains "vs_currency=" details = false
  | None => True
  end ->
  requested_currency query_details = "usd".
Proof.
  unfold requested_currency. destruct query_details as [details|];
    [|reflexivity].
  intros ->. now rewrite andb_false_r.
Qed.

(** X12: the comparison currency of a price request.  When query_details
    holds the hint "vs_currency=", wherever it stands, the currency is the
    text after its last occurrence, and the quote looked up and reported is
    the one for that text; without a hint in query_details (or without
    query_details) it is the one for "usd". *)
Theorem currency_hint_selects_quote (identifier stamp : string)
    (api_data price : value) :
  (forall before currency,
      Str.contains "vs_currency=" currency = false ->
      quoted_price api_data identifier currency = Some price ->
      Py.lookup
        (fetch_crypto_price identifier
           (Some (before +:+ "vs_currency=" +:+ currency))
           stamp (Ok api_data)) "data_payload"
      = Some (VDict [ ("price", price);
                      ("currency", VStr currency);
                      ("asset_id", VStr identifier) ]))
  /\ (forall query_details,
         match query_details with
         | Some details => Str.contains "vs_currency=" details = false
         | None => True
         end ->
         quoted_price api_data identifier "usd" = Some price ->
         Py.lookup
           (fetch_crypto_price identifier query_details stamp (Ok api_data))
           "data_payload"
         = Some (VDict [ ("price", price);
                         ("currency", VStr "usd");
                         ("asset_id", VStr identifier) ])).
Proof.
  split.
  - intros before currency Hno Hquote.
    pose proof (crypto_price_cases identifier
                  (Some (before +:+ "vs_currency=" +:+ currency)) stamp
                  (Ok api_data))
      as Hcases.
    cbv zeta in Hcases. rewrite (requested_currency_hint _ _ Hno) in Hcases.
    rewrite Hquote in Hcases. exact (proj2 Hcases).
  - intros query_details Hno Hquote.
    pose proof (crypto_price_cases identifier query_details stamp
                  (Ok api_data)) as Hcases.
    cbv zeta in Hcases.
    rewrite (requested_currency_default _ Hno) in Hcases.
    rewrite Hquote in Hcases. exact (proj2 Hcases).
Qed.

End Prices.

(** ** What an answer says about its request *)

Section Echo.

Import DataSourceHandler Spec.
Context `{Runtime}.

Ltac echo_fields :=
  intros [= <-]; split; [reflexivity|]; split; [reflexivity|];
  eexists; reflexivity.

Lemma education_echo (identifier : string) (query_details : option string)
    (stamp : string) (clk : clock) (cache : gmap string cache_entry)
    (envelope : dict) :
  snd (EducationCredentials.fetch_education_credential identifier
         query_details stamp clk cache) = Ok envelope ->
  text_field envelope "request_identifier" = Some identifier
  /\ text_field envelope "request_data_type" = Some "education_credential"
  /\ exists source, text_field envelope "source_description" = Some source.
Proof.
  unfold EducationCredentials.fetch_education_credential.
  destruct (EducationCredentials.cached_credential _ identifier clk cache)
    as [edu_data cache'].
  destruct (record_truthy edu_data); cbn [snd]; [|echo_fields].
  destruct (Py.getitem _ "name"); cbn [bind]; [|discriminate].
  destruct (Py.getitem _ "credentials"); cbn [bind]; [|discriminate].
  echo_fields.
Qed.

Lemma supply_echo (identifier : string) (query_details : option string)
    (stamp : string) (clk : clock) (cache : gmap string cache_entry)
    (envelope : dict) :
  snd (SupplyChain.fetch_supply_chain_status identifier query_details stamp
         clk cache) = Ok envelope ->
  text_field envelope "request_identifier" = Some identifier
  /\ text_field envelope "request_data_type" = Some "supply_chain_status"
  /\ exists source, text_field envelope "source_description" = Some source.
Proof.
  unfold SupplyChain.fetch_supply_chain_status.
  destruct (SupplyChain.cached_supply_chain _ identifier clk cache)
    as [supply_data cache'].
  destruct (record_truthy supply_data); cbn [snd]; [|echo_fields].
  repeat (match goal with
          | |- context [bind (Py.getitem ?d ?k)] =>
              destruct (Py.getitem d k); cbn [bind]; [|discriminate]
          end).
  echo_fields.
Qed.

Lemma carbon_echo (identifier : string) (query_details : option string)
    (stamp : string) (clk : clock) (cache : gmap string cache_entry)
    (envelope : dict) :
  snd (CarbonFootprint.fetch_carbon_footprint identifier query_details stamp
         clk cache) = Ok envelope ->
  text_field envelope "request_identifier" = Some identifier
  /\ text_field envelope "request_data_type" = Some "carbon_footprint"
  /\ exists source, text_field envelope "source_description" = Some source.
Proof.
  unfold CarbonFootprint.fetch_carbon_footprint. cbv zeta.
  destruct (CarbonFootprint.resolve_scope _ query_details _) as [r|e];
    [|discriminate].
  destruct (CarbonFootprint.cached_carbon_data _ _ _ clk cache)
    as [[carbon_data|e] cache']; [|discriminate].
  destruct (record_truthy carbon_data); cbn [snd]; [|echo_fields].
  destruct (CarbonFootprint.carbon_payload _ _ stamp); cbn [bind];
    [|discriminate].
  echo_fields.
Qed.

Lemma reputation_echo (identifier : string) (query_details : option string)
    (stamp : string) (clk : clock) (cache : gmap string cache_entry)
    (envelope : dict) :
  snd (ReputationScore.fetch_reputation_score identifier query_details stamp
         clk cache) = Ok envelope ->
  text_field envelope "request_identifier" = Some identifier
  /\ text_field envelope "request_data_type" = Some "reputation_score"
  /\ exists source, text_field envelope "source_description" = Some source.
Proof.
  unfold ReputationScore.fetch_reputation_score. cbv zeta.
  destruct (Py.lookup ReputationScore.simulated_reputation_data _)
    as [aspects|]; cbn [snd]; [|echo_fields].
  destruct (ReputationScore.cached_reputation_data _ _ _ clk cache)
    as [reputation_data cache'].
  destruct (record_truthy reputation_data); cbn [snd]; [|echo_fields].
  destruct (ReputationScore.reputation_payload _ stamp); cbn [bind];
    [|discriminate].
  destruct (Py.getitem _ "verificationMethod"); cbn [bind]; [|discriminate].
  destruct (Py.getitem _ "attesters") as [attesters|]; cbn [bind];
    [|discriminate].
  destruct (Py.join ", " attesters); cbn [bind]; [|discriminate].
  echo_fields.
Qed.

Lemma crypto_echo (identifier : string) (query_details : option string)
    (stamp : string) (response : upstream) :
  let envelope :=
    fetch_crypto_price identifier query_details stamp response in
  text_field envelope "request_identifier" = Some identifier
  /\ text_field envelope "request_data_type" = Some "crypto_price"
  /\ exists source, text_field envelope "source_description" = Some source.
Proof.
  cbv zeta. unfold fetch_crypto_price.
  set (vs_currency := match query_details with
                      | Some details =>
                          if Str.truthy details
                             && Str.contains "vs_currency=" details
                          then split_last "vs_currency=" details
                          else "usd"
                      | None => "usd"
                      end).
  assert (Herror : forall summary message,
    text_field (crypto_error identifier stamp summary message)
      "request_identifier" = Some identifier
    /\ text_field (crypto_error identifier stamp summary message)
         "request_data_type" = Some "crypto_price"
    /\ exists source,
        text_field (crypto_error identifier stamp summary message)
          "source_description" = Some source).
  { intros. split; [reflexivity|]. split; [reflexivity|].
    eexists; reflexivity. }
  destruct response as [api_data|e]; cbn [bind];
    [|destruct e; apply Herror].
  destruct (Py.contains identifier api_data) as [[|]|e]; cbn [bind];
    [| apply Herror | destruct e; apply Herror].
  destruct (Py.subscript api_data identifier) as [quotes|e]; cbn [bind];
    [|destruct e; apply Herror].
  destruct (Py.contains vs_currency quotes) as [[|]|e]; cbn [bind];
    [| apply Herror | destruct e; apply Herror].
  destruct (Py.subscript quotes vs_currency) as [price|e]; cbn [bind];
    [|destruct e; apply Herror].
  split; [reflexivity|]. split; [reflexivity|]. eexists; reflexivity.
Qed.

Lemma fetch_echo (data_type identifier : string)
    (query_details : option string) (clk : clock) (response : upstream)
    (st : caches) (envelope : dict) :
  snd (fetch_verifiable_data data_type identifier query_details clk response
         st) = Ok envelope ->
  text_field envelope "request_identifier" = Some identifier
  /\ text_field envelope "request_data_type" = Some (named_type data_type)
  /\ exists source, text_field envelope "source_description" = Some source.
Proof.
  unfold fetch_verifiable_data, named_type, SUPPORTED. cbv zeta.
  cbn [existsb].
  destruct (String.eqb_spec (Str.lower data_type) "crypto_price") as [->|_].
  { cbn [snd orb]. intros [= <-]. apply crypto_echo. }
  destruct (String.eqb_spec (Str.lower data_type) "education_credential")
    as [->|_].
  { pose proof (education_echo identifier query_details
                  (utcnow_iso clk +:+ "Z") clk (education_cache st) envelope)
      as Hecho.
    destruct (EducationCredentials.fetch_education_credential _ _ _ _ _).
    exact Hecho. }
  destruct (String.eqb_spec (Str.lower data_type) "supply_chain_status")
    as [->|_].
  { pose proof (supply_echo identifier query_details
                  (utcnow_iso clk +:+ "Z") clk (supply_chain_cache st)
                  envelope) as Hecho.
    destruct (SupplyChain.fetch_supply_chain_status _ _ _ _ _).
    exact Hecho. }
  destruct (String.eqb_spec (Str.lower data_type) "carbon_footprint")
    as [->|_].
  { pose proof (carbon_echo identifier query_details
                  (utcnow_iso clk +:+ "Z") clk (carbon_footprint_cache st)
                  envelope) as Hecho.
    destruct (CarbonFootprint.fetch_carbon_footprint _ _ _ _ _).
    exact Hecho. }
  destruct (String.eqb_spec (Str.lower data_type) "reputation_score")
    as [->|_].
  { pose proof (reputation_echo identifier query_details
                  (utcnow_iso clk +:+ "Z") clk (reputation_cache st) envelope)
      as Hecho.
    destruct (ReputationScore.fetch_reputation_score _ _ _ _ _).
    exact Hecho. }
  cbn [snd orb]. intros [= <-].
  split; [reflexivity|]. split; [reflexivity|]. eexists; reflexivity.
Qed.

(** X13: whatever the caches hold, an envelope the router returns names the
    identifier exactly as it was given (not its normal form) and the data
    type by its canonical lowercase name when it is supported, as it was
    given when it is not; its source_description is a string. *)
Theorem answer_echoes_request (data_type identifier : string)
    (query_details : option string) (clk : clock) (response : upstream)
    (st : caches) (envelope : dict) :
  snd (fetch_verifiable_data data_type identifier query_details clk response
         st) = Ok envelope ->
  text_field envelope "request_identifier" = Some identifier
  /\ text_field envelope "request_data_type" = Some (named_type data_type)
  /\ exists source, text_field envelope "source_description" = Some source.
Proof.
  intros Hanswer.
  destruct (fetch_echo _ _ _ _ _ _ _ Hanswer) as (Hid & Hty & Hsource).
  auto.
Qed.

End Echo.

(** ** The handlers *)

Section Handlers.

Import DataSourceHandler MainAgent Spec.
Context `{Runtime}.

Lemma text_field_lookup (envelope : dict) (key text : string) :
  text_field envelope key = Some text ->
  Py.lookup envelope key = Some (VStr text).
Proof.
  unfold text_field.
  destruct (Py.lookup envelope key) as [[| | | |s| |]|]; try discriminate.
  now intros [= ->].
Qed.

(** The model the request handler builds from a well-formed envelope. *)
Lemma forwarded_model (request : VerifiableDataRequest) (envelope : dict)
    (stamp source : string) :
  well_formed_envelope stamp envelope ->
  text_field envelope "request_identifier" = Some (identifier request) ->
  text_field envelope "request_data_type"
  = Some (named_type (data_type request)) ->
  text_field envelope "source_description" = Some source ->
  Py.lookup envelope "error_message" = None ->
  exists payload summary,
    Py.lookup envelope "data_payload" = Some (VDict payload)
    /\ response_model_of request envelope
       = Ok {| session_id := req_session_id request;
               request_data_type := named_type (data_type request);
               request_identifier := identifier request;
               source_description := Some source;
               timestamp := Some stamp;
               data_payload := Some payload;
               verification_summary := Some summary;
               error_message := None |}.
Proof.
  intros ((summary & Hsummary & _) & Hstamp & payload & Hpayload & _)
    Hid Hty Hsource Herror.
  apply text_field_lookup in Hid, Hty, Hsource.
  exists payload, summary. split; [exact Hpayload|].
  unfold response_model_of, Py.get_default, Py.get.
  rewrite Hid, Hty, Hsource, Hstamp, Hpayload, Hsummary. reflexivity.
Qed.

(** The request handler on a request that has a session id. *)
Lemma request_handler_step (sender : string)
    (request : VerifiableDataRequest) (clk : clock) (response : upstream)
    (st : caches) (ctx : context) :
  reachable st ->
  Str.truthy (req_session_id request) = true ->
  let handled :=
    handle_verifiable_data_request sender request clk response st ctx in
  let fetched :=
    fetch_verifiable_data (data_type request) (identifier request)
      (query_details request) clk response st in
  snd handled = Ok tt
  /\ fst (fst handled) = fst fetched
  /\ storage (snd (fst handled)) = storage ctx
  /\ exists envelope forwarded,
      snd fetched = Ok envelope
      /\ sent (snd (fst handled))
         = (sent ctx ++ [(agent_address ctx, forwarded)])%list
      /\ match Py.lookup envelope "error_message" with
         | Some _ =>
             exists text,
               text_field envelope "error_message" = Some text
               /\ forwarded
                  = MsgError {| err_session_id := req_session_id request;
                                error := text |}
         | None =>
             exists payload source summary,
               Py.lookup envelope "data_payload" = Some (VDict payload)
               /\ forwarded
                  = MsgResponse
                      {| session_id := req_session_id request;
                         request_data_type := named_type (data_type request);
                         request_identifier := identifier request;
                         source_description := Some source;
                         timestamp := Some (utcnow_iso clk +:+ "Z");
                         data_payload := Some payload;
                         verification_summary := Some summary;
                         error_message := None |}
         end.
Proof.
  intros Hreach Hsession handled fetched. subst handled.
  unfold handle_verifiable_data_request. cbv zeta.
  rewrite Hsession. cbn [negb].
  fold fetched.
  destruct (fetch_step (data_type request) (identifier request)
              (query_details request) clk response st
              (reachable_caches_ok st Hreach))
    as (st' & envelope & Hfetch & _ & Hwf).
  fold fetched in Hfetch.
  assert (Hecho := fetch_echo (data_type request) (identifier request)
                     (query_details request) clk response st envelope).
  fold fetched in Hecho. rewrite Hfetch in *. cbn [fst snd] in *.
  destruct (Hecho eq_refl) as (Hid & Hty & source & Hsource).
  destruct (Py.lookup envelope "error_message") as [message|] eqn:Herror.
  - destruct Hwf as (_ & _ & payload & _ & Hfail).
    destruct (Hfail message Herror) as (_ & text & -> & Hne).
    unfold Py.get, Py.getitem. rewrite Herror.
    apply truthy_nonempty in Hne. cbn [Py.truthy]. rewrite Hne.
    cbn [bind required_str fst snd storage sent agent_address log send].
    repeat split. exists envelope. eexists. split; [reflexivity|].
    split; [reflexivity|]. rewrite Herror. exists text. split; [|reflexivity].
    unfold text_field. now rewrite Herror.
  - destruct (forwarded_model request envelope _ source Hwf Hid Hty Hsource
                Herror) as (payload & summary & Hpayload & Hmodel).
    unfold Py.get. rewrite Herror. cbn [Py.truthy]. rewrite Hmodel.
    cbn [fst snd storage sent agent_address log send].
    repeat split. exists envelope. eexists. split; [reflexivity|].
    split; [reflexivity|]. rewrite Herror. exists payload, source, summary.
    split; [exact Hpayload|reflexivity].
Qed.

(** X14: the request handler.  A request without session id is dropped:
    nothing is fetched, nothing is sent.  Otherwise, in any state the agent
    can reach, the handler does not raise, leaves the bindings as they are
    and sends exactly one message, to the agent's own address: the error of
    the envelope as an [ErrorMessage] of the session when the envelope has
    an error_message, and else a [VerifiableDataResponse] of the session
    carrying the identifier as given, the canonical data type, the
    timestamp and the payload of the envelope. *)
Theorem request_handler_forwards_once (sender : string)
    (request : VerifiableDataRequest) (clk : clock) (response : upstream)
    (st : caches) (ctx : context) :
  reachable st ->
  let handled :=
    handle_verifiable_data_request sender request clk response st ctx in
  let fetched :=
    fetch_verifiable_data (data_type request) (identifier request)
      (query_details request) clk response st in
  if Str.truthy (req_session_id request) then
    snd handled = Ok tt
    /\ fst (fst handled) = fst fetched
    /\ storage (snd (fst handled)) = storage ctx
    /\ exists envelope forwarded,
        snd fetched = Ok envelope
        /\ sent (snd (fst handled))
           = (sent ctx ++ [(agent_address ctx, forwarded)])%list
        /\ match Py.lookup envelope "error_message" with
           | Some _ =>
               exists text,
                 text_field envelope "error_message" = Some text
                 /\ forwarded
                    = MsgError {| err_session_id := req_session_id request;
                                  error := text |}
           | None =>
               exists payload source summary,
                 Py.lookup envelope "data_payload" = Some (VDict payload)
                 /\ forwarded
                    = MsgResponse
                        {| session_id := req_session_id request;
                           request_data_type := named_type (data_type request);
                           request_identifier := identifier request;
                           source_description := Some source;
                           timestamp := Some (utcnow_iso clk +:+ "Z");
                           data_payload := Some payload;
                           verification_summary := Some summary;
                           error_message := None |}
           end
  else
    snd handled = Ok tt
    /\ fst (fst handled) = st
    /\ storage (snd (fst handled)) = storage ctx
    /\ sent (snd (fst handled)) = sent ctx.
Proof.
  intros Hreach handled fetched.
  destruct (Str.truthy (req_session_id request)) eqn:Hsession.
  - exact (request_handler_step sender request clk response st ctx Hreach
             Hsession).
  - subst handled. unfold handle_verifiable_data_request. cbv zeta.
    rewrite Hsession. cbn [negb]. now repeat split.
Qed.

End Handlers.

(** ** The health check *)

Section HealthCheck.

Import DataSourceHandler MainAgent Health Spec.
Context `{Runtime}.

Lemma health_probe (stamp : string) (response : upstream) :
  let envelope :=
    fetch_crypto_price "bitcoin" (Some "vs_currency=usd") stamp response in
  match response with
  | Ok api_data =>
      match quoted_price api_data "bitcoin" "usd" with
      | Some _ => Py.lookup envelope "error_message" = None
      | None =>
          exists message,
            Py.lookup envelope "error_message" = Some (VStr message)
            /\ message <> ""
      end
  | Raise e =>
      exists message,
        Py.lookup envelope "error_message" = Some (VStr message)
        /\ message <> ""
        /\ Str.contains (failure_text e) message = true
  end.
Proof.
  intros envelope.
  pose proof (crypto_price_cases "bitcoin" (Some "vs_currency=usd") stamp
                response) as Hcases.
  pose proof (crypto_envelope_well_formed "bitcoin" (Some "vs_currency=usd")
                stamp response) as (_ & _ & payload & _ & Hfail).
  change (requested_currency (Some "vs_currency=usd")) with "usd" in Hcases.
  cbv zeta in Hcases. fold envelope in Hcases, Hfail.
  destruct response as [api_data|e].
  - destruct (quoted_price api_data "bitcoin" "usd").
    + apply Hcases.
    + destruct Hcases as ((message & Hmessage) & _).
      exists message. split; [exact Hmessage|].
      destruct (Hfail _ Hmessage) as (_ & text & [= ->] & Hne). exact Hne.
  - destruct Hcases as ((message & Hmessage & Hin) & _).
    exists message. split; [exact Hmessage|]. split; [|exact Hin].
    destruct (Hfail _ Hmessage) as (_ & text & [= ->] & Hne). exact Hne.
Qed.

(** X15: the health check reports HEALTHY exactly when the upstream body
    quotes bitcoin in usd, and then logs nothing.  Any other body and any
    upstream failure give UNHEALTHY: the price envelope for bitcoin in usd
    then has a non-empty error_message, the status text is that message
    after a fixed prefix, and one warning line with the same message is
    logged; for an upstream exception the message contains the text of the
    failure.  The branch for an exception of the router is never taken.
    The check sends nothing and leaves the caches and the session bindings
    as they are. *)
Theorem health_follows_bitcoin_quote (clk : clock) (response : upstream)
    (st : caches) (ctx : context) :
  let checked := check_agent_health clk response st ctx in
  let quoted :=
    match response with
    | Ok api_data => quoted_price api_data "bitcoin" "usd"
    | Raise _ => None
    end in
  let envelope :=
    fetch_crypto_price "bitcoin" (Some "vs_currency=usd")
      (utcnow_iso clk +:+ "Z") response in
  fst (fst checked) = st
  /\ storage (snd (fst checked)) = storage ctx
  /\ sent (snd (fst checked)) = sent ctx
  /\ match quoted with
     | Some _ =>
         Py.lookup envelope "error_message" = None
         /\ snd checked = (HEALTHY, "CoinGecko API connection successful.")
         /\ logged (snd (fst checked)) = logged ctx
     | None =>
         exists message,
           text_field envelope "error_message" = Some message
           /\ message <> ""
           /\ snd checked
              = (UNHEALTHY,
                 "Failed to fetch test data from CoinGecko: " +:+ message)
           /\ logged (snd (fst checked))
              = (logged ctx
                 ++ [(WARNING,
                      "Health check: Data fetch failed or returned error: "
                      +:+ message)])%list
           /\ forall e, response = Raise e ->
                        Str.contains (failure_text e) message = true
     end.
Proof.
  intros checked quoted envelope. subst checked quoted.
  unfold check_agent_health, fetch_verifiable_data. cbv zeta.
  change (String.eqb (Str.lower "crypto_price") "crypto_price") with true.
  cbv iota.
  pose proof (health_probe (utcnow_iso clk +:+ "Z") response) as Hprobe.
  cbv zeta in Hprobe. fold envelope in Hprobe |- *.
  unfold Py.get_default, Py.get, text_field.
  destruct response as [api_data|e].
  - destruct (quoted_price api_data "bitcoin" "usd").
    + rewrite Hprobe. cbn. repeat split.
    + destruct Hprobe as (message & Hlook & Hne). rewrite Hlook.
      pose proof (proj2 (truthy_nonempty message) Hne) as Htruthy.
      cbn [Py.truthy fstr]. rewrite Htruthy. cbn [negb fst snd].
      repeat split. exists message. repeat split; try assumption.
      discriminate.
  - destruct Hprobe as (message & Hlook & Hne & Hin). rewrite Hlook.
    pose proof (proj2 (truthy_nonempty message) Hne) as Htruthy.
    cbn [Py.truthy fstr]. rewrite Htruthy. cbn [negb fst snd].
    repeat split. exists message. repeat split; try assumption.
    now intros e' [= <-].
Qed.

End HealthCheck.

(** ** The chat handler *)

Section Chat.

Import MainAgent ChatProtocol ChatHandlers Spec.
Context `{Runtime}.

Lemma find_user_query_frame (sender : string) (content : list content_item)
    (ctx : context) :
  same_but_log ctx (fst (find_user_query sender content ctx)).
Proof.
  revert ctx.
  induction content as [|[text| |] rest IH]; intros ctx;
    cbn [find_user_query fst]; try (now repeat split).
  - destruct (IH (log INFO ("Session started with " +:+ sender) ctx))
      as (Hst & Hse & Had).
    now repeat split.
  - apply IH.
Qed.

Lemma gemini_frame (gemini_api_key : bool) (reply : option string)
    (json_loads : string -> json_outcome) (ctx : context) :
  same_but_log ctx
    (fst (get_structured_output_from_gemini gemini_api_key reply json_loads
            ctx)).
Proof.
  unfold get_structured_output_from_gemini.
  destruct gemini_api_key; cbn [negb]; [|now repeat split].
  destruct reply as [json_string|]; [|now repeat split].
  destruct (Str.truthy json_string); cbn [negb]; [|now repeat split].
  destruct (json_loads _); now repeat split.
Qed.

(** A message whose first content item is a text, or that has no content. *)
Lemma chat_handler_answers
    (parse_obj : dict -> result VerifiableDataRequest)
    (gemini_api_key : bool) (reply : option string)
    (json_loads : string -> json_outcome) (session : string) (at_ : stamps)
    (sender : string) (msg : ChatMessage) (ctx : context) (text : string) :
  first_text (content msg) = Ok text ->
  let handled :=
    handle_chat_message parse_obj gemini_api_key reply json_loads session
      at_ sender msg ctx in
  snd handled = Ok tt
  /\ storage (fst handled) = <[session := sender]> (storage ctx)
  /\ exists destination answer,
      sent (fst handled)
      = (sent ctx
         ++ [(sender, acknowledgement at_ msg); (destination, answer)])%list
      /\ ((destination = sender
           /\ exists text, answer = closing_message at_ text)
          \/ (destination = agent_address ctx
              /\ exists request, answer = MsgRequest request)).
Proof.
  intros Hfirst handled. subst handled. unfold handle_chat_message.
  rewrite Hfirst. cbv zeta.
  set (bound :=
         send sender
           (MsgAck {| ack_timestamp := ack_now at_;
                      acknowledged_msg_id := msg_id msg |})
           (storage_set session sender
              (log INFO ("Received ChatMessage from " +:+ sender +:+ ": "
                         +:+ text) ctx))).
  pose proof (find_user_query_frame sender (content msg) bound) as Hfind.
  destruct (find_user_query sender (content msg) bound)
    as [found user_query].
  cbn [fst] in Hfind. destruct Hfind as (Hst & Hse & Had).
  assert (Hbound : storage bound = <[session := sender]> (storage ctx)
                   /\ sent bound
                      = (sent ctx ++ [(sender, acknowledgement at_ msg)])%list
                   /\ agent_address bound = agent_address ctx)
    by now repeat split.
  destruct Hbound as (Hbst & Hbse & Hbad).
  rewrite <- Hst in Hbst. rewrite <- Hse in Hbse. rewrite <- Had in Hbad.
  clearbody bound. clear Hst Hse Had bound.
  assert (Hanswer :
    forall (pre : context) (shown : string),
      same_but_log found pre ->
      let done :=
        send sender
          (MsgChat (create_chat_message shown true (reply_now at_)
                      (reply_uuid at_))) pre in
      storage done = <[session := sender]> (storage ctx)
      /\ exists destination answer,
          sent done
          = (sent ctx
             ++ [(sender, acknowledgement at_ msg);
                 (destination, answer)])%list
          /\ ((destination = sender
               /\ exists text, answer = closing_message at_ text)
              \/ (destination = agent_address ctx
                  /\ exists request, answer = MsgRequest request))).
  { intros pre shown (Hst & Hse & _). cbn [send storage sent].
    rewrite Hst, Hse, Hbst, Hbse. split; [reflexivity|].
    exists sender, (closing_message at_ shown).
    rewrite <- app_assoc. split; [reflexivity|].
    left. split; [reflexivity|]. now exists shown. }
  destruct (match user_query with
            | Some query => Str.truthy query
            | None => false
            end); cbn [negb].
  2:{ cbn [fst snd]. split; [reflexivity|].
      apply Hanswer. now repeat split. }
  destruct gemini_api_key; cbn [negb].
  2:{ cbn [fst snd]. split; [reflexivity|].
      apply Hanswer. now repeat split. }
  pose proof (gemini_frame true reply json_loads found) as Hframe.
  destruct (get_structured_output_from_gemini true reply json_loads found)
    as [asked structured_data_from_gemini].
  cbn [fst] in Hframe.
  destruct (match structured_data_from_gemini with
            | Some structured => Py.truthy structured
            | None => false
            end).
  2:{ cbn [fst snd]. split; [reflexivity|].
      apply Hanswer. destruct Hframe as (? & ? & ?). now repeat split. }
  destruct (setitem _ "session_id" (VStr session)) as [with_session|e].
  2:{ cbn [fst snd]. split; [reflexivity|].
      apply Hanswer. destruct Hframe as (? & ? & ?). now repeat split. }
  destruct (parse_obj with_session) as [data_request|e].
  2:{ cbn [fst snd]. split; [reflexivity|].
      apply Hanswer. destruct Hframe as (? & ? & ?). now repeat split. }
  cbn [fst snd]. split; [reflexivity|].
  destruct Hframe as (Hst & Hse & Had).
  cbn [send log storage sent agent_address].
  rewrite Hst, Hse, Had, Hbst, Hbse, Hbad. split; [reflexivity|].
  exists (agent_address ctx), (MsgRequest data_request).
  rewrite <- app_assoc. split; [reflexivity|].
  right. split; [reflexivity|]. now exists data_request.
Qed.

(** X16: a chat message whose first content item is a session marker makes
    the handler raise before anything is stored or sent.  Every other
    message is handled without an exception: the session is bound to the
    sender, the sender gets the acknowledgement of the message id first,
    and exactly one more message is sent, either a closing chat message to
    the sender or a request to the agent's own address. *)
Theorem chat_message_acknowledged_then_answered
    (parse_obj : dict -> result VerifiableDataRequest)
    (gemini_api_key : bool) (reply : option string)
    (json_loads : string -> json_outcome) (session : string) (at_ : stamps)
    (sender : string) (msg : ChatMessage) (ctx : context) :
  let handled :=
    handle_chat_message parse_obj gemini_api_key reply json_loads session
      at_ sender msg ctx in
  match content msg with
  | StartSessionContent :: _ | EndSessionContent :: _ =>
      handled = (ctx, Raise AttributeError)
  | _ =>
      snd handled = Ok tt
      /\ storage (fst handled) = <[session := sender]> (storage ctx)
      /\ exists destination answer,
          sent (fst handled)
          = (sent ctx
             ++ [(sender, acknowledgement at_ msg); (destination, answer)])%list
          /\ ((destination = sender
               /\ exists text, answer = closing_message at_ text)
              \/ (destination = agent_address ctx
                  /\ exists request, answer = MsgRequest request))
  end.
Proof.
  intros handled.
  destruct (content msg) as [|[text| |] rest] eqn:Hcontent.
  - apply (chat_handler_answers _ _ _ _ _ _ _ _ _ "Empty").
    now rewrite Hcontent.
  - apply (chat_handler_answers _ _ _ _ _ _ _ _ _ text).
    now rewrite Hcontent.
  - subst handled. unfold handle_chat_message. now rewrite Hcontent.
  - subst handled. unfold handle_chat_message. now rewrite Hcontent.
Qed.

End Chat.

Section Understanding.

Import MainAgent ChatProtocol ChatHandlers Spec.
Context `{Runtime}.

Lemma lookup_dict_set (d : dict) (k : string) (v : value) :
  Py.lookup (dict_set d k v) k = Some v.
Proof.
  induction d as [|[k' v'] d IH]; cbn [dict_set Py.lookup].
  - now rewrite String.eqb_refl.
  - destruct (String.eqb k' k) eqn:Hk; cbn [Py.lookup]; now rewrite Hk.
Qed.

Lemma lookup_dict_set_other (d : dict) (k key : string) (v : value) :
  key <> k -> Py.lookup (dict_set d k v) key = Py.lookup d key.
Proof.
  intros Hne.
  induction d as [|[k' v'] d IH]; cbn [dict_set Py.lookup].
  - destruct (String.eqb_spec k key); congruence.
  - destruct (String.eqb_spec k' k) as [->|_]; cbn [Py.lookup].
    + destruct (String.eqb_spec k key); congruence.
    + now rewrite IH.
Qed.

(** X17: a chat message that opens with a non-empty text, with the model
    configured and a non-empty reply.  When the reply decodes to a
    non-empty JSON object, the object handed to the request parser has the
    chat session as its session_id, whatever the reply had there, and
    every other key as decoded; the parsed request goes to the agent's own
    address, and a parser failure is reported to the sender with its text.
    A reply that decodes to another truthy value is reported as a
    structuring failure; a reply that does not decode, or decodes to an
    empty or null value, is answered with the request to rephrase.  In
    each case the acknowledgement precedes the answer. *)
Theorem reply_session_id_is_overwritten
    (parse_obj : dict -> result VerifiableDataRequest)
    (json_string : string) (json_loads : string -> json_outcome)
    (session : string) (at_ : stamps) (sender : string) (msg : ChatMessage)
    (ctx : context) (query : string) (rest : list content_item) :
  content msg = TextContent query :: rest ->
  query <> "" ->
  json_string <> "" ->
  let handled :=
    handle_chat_message parse_obj true (Some json_string) json_loads session
      at_ sender msg ctx in
  let answered (destination : string) (answer : message) : Prop :=
    sent (fst handled)
    = (sent ctx
       ++ [(sender, acknowledgement at_ msg); (destination, answer)])%list in
  let rephrase : message :=
    closing_message at_
      "Sorry, I couldn't understand or structure your request using the LLM. Please try rephrasing." in
  let trouble (e : exn) : message :=
    closing_message at_
      ("Sorry, I had trouble structuring your request after the LLM processed it. Details: "
       +:+ str_exn e) in
  match json_loads (clean_json_string json_string) with
  | Decoded (VDict structured) =>
      let with_session := dict_set structured "session_id" (VStr session) in
      Py.lookup with_session "session_id" = Some (VStr session)
      /\ (forall key,
             key <> "session_id" ->
             Py.lookup with_session key = Py.lookup structured key)
      /\ match structured with
         | [] => answered sender rephrase
         | _ :: _ =>
             match parse_obj with_session with
             | Ok request => answered (agent_address ctx) (MsgRequest request)
             | Raise e => answered sender (trouble e)
             end
         end
  | Decoded parsed_json =>
      if Py.truthy parsed_json then answered sender (trouble TypeError)
      else answered sender rephrase
  | JSONDecodeError _ | DecodingFailed _ => answered sender rephrase
  end.
Proof.
  intros Hcontent Hquery Hreply handled answered rephrase trouble.
  apply truthy_nonempty in Hquery, Hreply.
  subst handled answered rephrase trouble. cbv beta.
  unfold handle_chat_message, get_structured_output_from_gemini.
  rewrite Hcontent. cbn [first_text find_user_query]. cbv zeta.
  rewrite Hquery, Hreply. cbn [negb].
  destruct (json_loads (clean_json_string json_string))
    as [parsed_json|text|text].
  - destruct parsed_json as [|b|n|num scale|s|items|structured].
    + cbn. now rewrite <- app_assoc.
    + destruct b; cbn; now rewrite <- app_assoc.
    + cbn [Py.truthy default from_option id setitem].
      destruct (negb (n =? 0)); cbn; now rewrite <- app_assoc.
    + cbn [Py.truthy default from_option id setitem].
      destruct (negb (num =? 0)); cbn; now rewrite <- app_assoc.
    + cbn [Py.truthy default from_option id setitem].
      destruct (Str.truthy s); cbn; now rewrite <- app_assoc.
    + destruct items; cbn; now rewrite <- app_assoc.
    + split; [apply lookup_dict_set|].
      split; [intros key Hkey; now apply lookup_dict_set_other|].
      destruct structured as [|entry structured].
      * cbn. now rewrite <- app_assoc.
      * cbn [Py.truthy default from_option id setitem].
        destruct (parse_obj _); cbn; now rewrite <- app_assoc.
  - cbn. now rewrite <- app_assoc.
  - cbn. now rewrite <- app_assoc.
Qed.

End Understanding.

Section Pipeline.

Import DataSourceHandler MainAgent ChatProtocol Spec.
Context `{Runtime}.

(** What the response handler does for a bound session. *)
Lemma routing_delivers (sender : string) (response : message) (now : Z)
    (uuid : string) (ctx : context) (sid address : string) :
  session_id_of response = Some sid ->
  Str.truthy sid = true ->
  Str.truthy address = true ->
  storage ctx !! sid = Some address ->
  let routed := handle_internal_response sender response now uuid ctx in
  let report :=
    match response with
    | MsgResponse r => format_response_for_chat r
    | MsgError e => format_response_for_chat (error_response sid (error e))
    | _ =>
        Ok (error_block
              "An unexpected internal error occurred while processing your request.")
    end in
  storage (fst routed) = storage ctx
  /\ match report with
     | Ok text =>
         snd routed = Ok tt
         /\ sent (fst routed)
            = (sent ctx ++ [(address, final_message now uuid text)])%list
     | Raise e => snd routed = Raise e /\ sent (fst routed) = sent ctx
     end.
Proof.
  intros Hsid Hs Ha Hbound routed report. subst routed report.
  unfold handle_internal_response, storage_get.
  rewrite Hsid, Hs, Hbound, Ha. cbn [negb default from_option id].
  destruct response as [r|r|e|m|a]; cbn [session_id_of] in Hsid;
    try discriminate.
  - now repeat split.
  - destruct (format_response_for_chat r); now repeat split.
  - fold (error_response sid (error e)).
    destruct (format_response_for_chat (error_response sid (error e)));
      now repeat split.
Qed.

(** The request handler followed by the response handler. *)
Lemma request_then_response (sender : string)
    (request : VerifiableDataRequest) (clk : clock) (response : upstream)
    (st : caches) (ctx : context) (now : Z) (uuid user : string) :
  reachable st ->
  Str.truthy (req_session_id request) = true ->
  Str.truthy user = true ->
  storage ctx !! req_session_id request = Some user ->
  let handled :=
    handle_verifiable_data_request sender request clk response st ctx in
  let requested := snd (fst handled) in
  exists envelope forwarded,
    snd (fetch_verifiable_data (data_type request) (identifier request)
           (query_details request) clk response st) = Ok envelope
    /\ sent requested = (sent ctx ++ [(agent_address ctx, forwarded)])%list
    /\ agent_address requested = agent_address ctx
    /\ let routed :=
         handle_internal_response (agent_address ctx) forwarded now uuid
           requested in
       storage (fst routed) !! req_session_id request = Some user
       /\ match text_field envelope "error_message" with
          | Some message =>
              snd routed = Ok tt
              /\ sent (fst routed)
                 = (sent requested
                    ++ [(user,
                         final_message now uuid (error_block message))])%list
          | None =>
              exists r,
                forwarded = MsgResponse r
                /\ error_message r = None
                /\ data_payload r
                   = match Py.lookup envelope "data_payload" with
                     | Some (VDict payload) => Some payload
                     | _ => None
                     end
                /\ match render_report r with
                   | Ok text =>
                       snd routed = Ok tt
                       /\ sent (fst routed)
                          = (sent requested
                             ++ [(user, final_message now uuid text)])%list
                   | Raise e =>
                       snd routed = Raise e
                       /\ sent (fst routed) = sent requested
                   end
          end.
Proof.
  intros Hreach Hsession Huser Hbound handled requested.
  destruct (request_handler_step sender request clk response st ctx Hreach
              Hsession)
    as (_ & _ & Hstorage & envelope & forwarded & Hfetch & Hsent & Hshape).
  fold handled in Hstorage, Hsent. fold requested in Hstorage, Hsent.
  exists envelope, forwarded.
  assert (Hsid : session_id_of forwarded = Some (req_session_id request)).
  { destruct (Py.lookup envelope "error_message").
    - now destruct Hshape as (text & _ & ->).
    - now destruct Hshape as (payload & source & summary & _ & ->). }
  assert (Haddress : agent_address requested = agent_address ctx).
  { subst requested handled. unfold handle_verifiable_data_request.
    cbv zeta. rewrite Hsession. cbn [negb].
    destruct (fetch_verifiable_data _ _ _ _ _ _) as [st' [data|e]];
      [|reflexivity].
    destruct (Py.truthy (Py.get data "error_message")).
    - now destruct (bind _ _).
    - now destruct (response_model_of request data). }
  rewrite <- Hstorage in Hbound.
  destruct (routing_delivers (agent_address ctx) forwarded now uuid requested
              _ user Hsid Hsession Huser Hbound)
    as (Hkept & Hrouted).
  split; [exact Hfetch|]. split; [exact Hsent|]. split; [exact Haddress|].
  cbv zeta. rewrite Hkept. split; [exact Hbound|].
  unfold text_field.
  destruct (Py.lookup envelope "error_message") as [message|] eqn:Herror.
  - destruct Hshape as (shown & Hshown & ->).
    unfold text_field in Hshown. rewrite Herror in Hshown.
    destruct message as [| | | |s| |]; try discriminate.
    injection Hshown as ->.
    destruct (fetch_step (data_type request) (identifier request)
                (query_details request) clk response st
                (reachable_caches_ok st Hreach))
      as (st' & envelope' & Hfetch' & _ & Hwf).
    rewrite Hfetch' in Hfetch. cbn [snd] in Hfetch. injection Hfetch as ->.
    destruct Hwf as (_ & _ & payload & _ & Hfail).
    destruct (Hfail _ Herror) as (_ & text' & [= <-] & Hne).
    apply truthy_nonempty in Hne.
    cbn [error] in Hrouted.
    unfold format_response_for_chat, error_response in Hrouted.
    cbn [error_message] in Hrouted. rewrite Hne in Hrouted.
    exact Hrouted.
  - destruct Hshape as (payload & source & summary & Hpayload & ->).
    eexists. split; [reflexivity|]. split; [reflexivity|].
    cbn [data_payload]. rewrite Hpayload. split; [reflexivity|].
    exact Hrouted.
Qed.

(** X18: the two internal handlers in sequence.  For a request whose
    session is bound to a user, in any state the agent can reach, the
    request handler forwards one message to the agent itself.  Given that
    message the response handler keeps the binding and, when the lookup
    failed, sends the user exactly one chat message: the Error Report
    block with the error_message of the envelope, then the end of the
    session.  When the lookup succeeded, the forwarded response carries the
    payload of the envelope; the user gets exactly one chat message with
    the rendered report when the renderer returns it, and nothing when the
    renderer raises, in which case the handler raises too. *)
Theorem answer_returns_to_the_asker (sender : string)
    (request : VerifiableDataRequest) (clk : clock) (response : upstream)
    (st : caches) (ctx : context) (now : Z) (uuid user : string) :
  reachable st ->
  req_session_id request <> "" ->
  user <> "" ->
  storage ctx !! req_session_id request = Some user ->
  let handled :=
    handle_verifiable_data_request sender request clk response st ctx in
  let requested := snd (fst handled) in
  exists envelope forwarded,
    snd (fetch_verifiable_data (data_type request) (identifier request)
           (query_details request) clk response st) = Ok envelope
    /\ sent requested = (sent ctx ++ [(agent_address ctx, forwarded)])%list
    /\ let routed :=
         handle_internal_response (agent_address ctx) forwarded now uuid
           requested in
       storage (fst routed) !! req_session_id request = Some user
       /\ match text_field envelope "error_message" with
          | Some message =>
              snd routed = Ok tt
              /\ sent (fst routed)
                 = (sent requested
                    ++ [(user,
                         final_message now uuid (error_block message))])%list
          | None =>
              exists r,
                forwarded = MsgResponse r
                /\ error_message r = None
                /\ data_payload r
                   = match Py.lookup envelope "data_payload" with
                     | Some (VDict payload) => Some payload
                     | _ => None
                     end
                /\ match render_report r with
                   | Ok text =>
                       snd routed = Ok tt
                       /\ sent (fst routed)
                          = (sent requested
                             ++ [(user, final_message now uuid text)])%list
                   | Raise e =>
                       snd routed = Raise e
                       /\ sent (fst routed) = sent requested
                   end
          end.
Proof.
  intros Hreach Hsession Huser Hbound handled requested.
  apply truthy_nonempty in Hsession, Huser.
  destruct (request_then_response sender request clk response st ctx now
              uuid user Hreach Hsession Huser Hbound)
    as (envelope & forwarded & Hfetch & Hsent & _ & Hrouted).
  exists envelope, forwarded. split; [exact Hfetch|].
  split; [exact Hsent|exact Hrouted].
Qed.

End Pipeline.

Section Conversation.

Import DataSourceHandler MainAgent ChatProtocol ChatHandlers Spec.
Context `{Runtime}.

(** The chat handler on a message it understands. *)
Lemma chat_handler_forwards
    (parse_obj : dict -> result VerifiableDataRequest)
    (json_string : string) (json_loads : string -> json_outcome)
    (session : string) (at_ : stamps) (sender : string) (msg : ChatMessage)
    (ctx : context) (query : string) (rest : list content_item)
    (entry : string * value) (structured : dict)
    (request : VerifiableDataRequest) :
  content msg = TextContent query :: rest ->
  Str.truthy query = true ->
  Str.truthy json_string = true ->
  json_loads (clean_json_string json_string)
  = Decoded (VDict (entry :: structured)) ->
  parse_obj (dict_set (entry :: structured) "session_id" (VStr session))
  = Ok request ->
  let chatted :=
    fst (handle_chat_message parse_obj true (Some json_string) json_loads
           session at_ sender msg ctx) in
  storage chatted = <[session := sender]> (storage ctx)
  /\ agent_address chatted = agent_address ctx
  /\ sent chatted
     = (sent ctx
        ++ [(sender, acknowledgement at_ msg);
            (agent_address ctx, MsgRequest request)])%list.
Proof.
  intros Hcontent Hquery Hreply Hdecoded Hparsed chatted. subst chatted.
  unfold handle_chat_message, get_structured_output_from_gemini.
  rewrite Hcontent. cbn [first_text find_user_query]. cbv zeta.
  rewrite Hquery, Hreply. cbn [negb]. rewrite Hdecoded.
  cbn [Py.truthy default from_option id setitem]. rewrite Hparsed.
  cbn. now rewrite <- app_assoc.
Qed.

(** X19: one conversation.  A user's chat message that opens with a text
    the model turns into a request of the chat session is acknowledged,
    forwarded to the agent itself and resolved; the result is forwarded to
    the agent itself and routed back.  After the three handlers the agent
    has sent, in this order and nothing else: the acknowledgement to the
    user, the request and its result to itself, and then to the user one
    chat message that ends the session, carrying the Error Report block
    with the error_message of the envelope when the lookup failed and the
    rendered report when it succeeded and the renderer returned; when the
    renderer raises, the last handler raises and the user gets nothing
    after the acknowledgement.  This holds in any state the agent can
    reach and whatever address the session was bound to before. *)
Theorem conversation_round_trip
    (parse_obj : dict -> result VerifiableDataRequest)
    (json_string : string) (json_loads : string -> json_outcome)
    (session : string) (at_ : stamps) (sender : string) (msg : ChatMessage)
    (ctx : context) (query : string) (rest : list content_item)
    (entry : string * value) (structured : dict)
    (request : VerifiableDataRequest) (clk : clock) (response : upstream)
    (st : caches) (now : Z) (uuid : string) :
  reachable st ->
  session <> "" ->
  sender <> "" ->
  content msg = TextContent query :: rest ->
  query <> "" ->
  json_string <> "" ->
  json_loads (clean_json_string json_string)
  = Decoded (VDict (entry :: structured)) ->
  parse_obj (dict_set (entry :: structured) "session_id" (VStr session))
  = Ok request ->
  req_session_id request = session ->
  let chatted :=
    fst (handle_chat_message parse_obj true (Some json_string) json_loads
           session at_ sender msg ctx) in
  let requested :=
    snd (fst (handle_verifiable_data_request (agent_address ctx) request clk
                response st chatted)) in
  exists envelope forwarded,
    snd (fetch_verifiable_data (data_type request) (identifier request)
           (query_details request) clk response st) = Ok envelope
    /\ sent requested
       = (sent ctx
          ++ [(sender, acknowledgement at_ msg);
              (agent_address ctx, MsgRequest request);
              (agent_address ctx, forwarded)])%list
    /\ let routed :=
         handle_internal_response (agent_address ctx) forwarded now uuid
           requested in
       match text_field envelope "error_message" with
       | Some message =>
           snd routed = Ok tt
           /\ sent (fst routed)
              = (sent requested
                 ++ [(sender,
                      final_message now uuid (error_block message))])%list
       | None =>
           exists r,
             forwarded = MsgResponse r
             /\ match render_report r with
                | Ok text =>
                    snd routed = Ok tt
                    /\ sent (fst routed)
                       = (sent requested
                          ++ [(sender, final_message now uuid text)])%list
                | Raise e =>
                    snd routed = Raise e
                    /\ sent (fst routed) = sent requested
                end
       end.
Proof.
  intros Hreach Hsession Hsender Hcontent Hquery Hreply Hdecoded Hparsed
    Hid chatted requested.
  apply truthy_nonempty in Hsession, Hsender, Hquery, Hreply.
  destruct (chat_handler_forwards parse_obj json_string json_loads session
              at_ sender msg ctx query rest entry structured request
              Hcontent Hquery Hreply Hdecoded Hparsed)
    as (Hbound & Haddress & Hsent).
  fold chatted in Hbound, Haddress, Hsent.
  rewrite <- Hid in Hsession.
  assert (Hkept : storage chatted !! req_session_id request = Some sender).
  { rewrite Hbound, Hid. apply lookup_insert_eq. }
  destruct (request_then_response (agent_address ctx) request clk response
              st chatted now uuid sender Hreach Hsession Hsender Hkept)
    as (envelope & forwarded & Hfetch & Hforwarded & _ & Hrouted).
  fold requested in Hforwarded, Hrouted.
  rewrite Haddress in Hforwarded, Hrouted.
  exists envelope, forwarded. split; [exact Hfetch|]. split.
  - rewrite Hforwarded, Hsent. now rewrite <- app_assoc.
  - cbv zeta in Hrouted |- *. destruct Hrouted as [_ Hrouted].
    destruct (text_field envelope "error_message"); [exact Hrouted|].
    destruct Hrouted as (r & Hr & _ & _ & Hrender).
    exists r. split; [exact Hr|exact Hrender].
Qed.

End Conversation.

(** ** The reply of the language model *)

Section Fences.

Import Utf8 MainAgent ChatHandlers Spec.

Lemma no_json_after_fence (body : string) :
  Str.startswith body "json" = false ->
  Str.startswith ("```" +:+ body +:+ "```") "```json" = false.
Proof.
  unfold Str.startswith.
  change (String.prefix "```json" ("```" +:+ body +:+ "```"))
    with (String.prefix "json" (body +:+ "```")).
  destruct body as [|a [|b [|c [|d body]]]]; simpl;
    repeat match goal with
           | |- context [Ascii.ascii_dec ?x ?y] =>
               destruct (Ascii.ascii_dec x y); try subst; simpl;
               try discriminate; try reflexivity
           end;
    try reflexivity; try congruence.
  now destruct body.
Qed.

(** X20: a reply wrapped in a Markdown fence, with or without the json tag
    and with white space around it, is decoded from the text between the
    fences without its surrounding white space; white space is every
    character [str.strip] removes, the no-break space among them. *)
Theorem fenced_reply_is_unwrapped (lead body trail : string) :
  blank lead = true ->
  blank trail = true ->
  clean_json_string (lead +:+ "```json" +:+ body +:+ "```" +:+ trail)
  = strip body
  /\ (Str.startswith body "json" = false ->
      clean_json_string (lead +:+ "```" +:+ body +:+ "```" +:+ trail)
      = strip body).
Proof.
  intros Hlead Htrail. unfold clean_json_string. split.
  - pose proof (strip_fenced lead "``json" body trail Hlead Htrail
                  eq_refl eq_refl) as Hstrip.
    change ("`" +:+ "``json") with "```json" in Hstrip. rewrite Hstrip.
    unfold Str.startswith at 1. rewrite prefix_app.
    pose proof (slice_fenced "``json" body eq_refl) as Hslice.
    change ("`" +:+ "``json") with "```json" in Hslice.
    change (List.length (units "```json")) with 7%nat in Hslice.
    now rewrite Hslice.
  - intros Hjson.
    pose proof (strip_fenced lead "``" body trail Hlead Htrail
                  eq_refl eq_refl) as Hstrip.
    change ("`" +:+ "``") with "```" in Hstrip. rewrite Hstrip.
    rewrite (no_json_after_fence body Hjson).
    unfold Str.startswith at 1. rewrite prefix_app.
    pose proof (slice_fenced "``" body eq_refl) as Hslice.
    change ("`" +:+ "``") with "```" in Hslice.
    change (List.length (units "```")) with 3%nat in Hslice.
    now rewrite Hslice.
Qed.

(** X21: the text handed to the JSON decoder never has white space at
    either end: [str.strip] leaves it as it is. *)
Theorem cleaned_reply_is_stripped (json_string : string) :
  strip (clean_json_string json_string) = clean_json_string json_string.
Proof.
  unfold clean_json_string.
  destruct (Str.startswith (strip json_string) "```json");
    [apply strip_idem|].
  destruct (Str.startswith (strip json_string) "```"); apply strip_idem.
Qed.

End Fences.

(** ** The demo client *)

Section Client.

Import MainAgent ChatProtocol ChatHandlers DemoClient Spec.
Context `{Runtime}.

(** X22: the chat message the demo client builds for a query opens with
    the session marker, so the agent's chat handler raises on it before
    anything is stored, acknowledged or answered, although its loop over
    the content would find the query. *)
Theorem demo_query_raises_in_chat_handler (command : SendUserQuery)
    (now : Z) (uuid : string) (client : context)
    (parse_obj : dict -> result VerifiableDataRequest)
    (gemini_api_key : bool) (reply : option string)
    (json_loads : string -> json_outcome) (session : string) (at_ : stamps)
    (ctx : context) :
  exists msg,
    sent (handle_send_user_query_command command now uuid client)
    = (sent client ++ [(target_agent_address command, MsgChat msg)])%list
    /\ snd (find_user_query (agent_address client) (content msg) ctx)
       = Some (user_query command)
    /\ handle_chat_message parse_obj gemini_api_key reply json_loads session
         at_ (agent_address client) msg ctx
       = (ctx, Raise AttributeError).
Proof.
  eexists. split; [reflexivity|]. split; reflexivity.
Qed.

(** X23: what the demo client shows for the closing message of the agent:
    the line for the end of the session, then the text of the message
    without the white space [str.strip] removes at either end, between the
    two rules, then the prompt. *)
Theorem closing_message_as_shown (text : string) (now : Z) (uuid : string) :
  handle_response_message (create_chat_message text true now uuid)
  = [ "(Session ended by agent)";
      newline +:+ "AGENT RESPONSE:" +:+ newline
      +:+ "-------------------" +:+ newline
      +:+ strip text
      +:+ newline +:+ "-------------------";
      newline +:+ "Enter your next query (or type 'exit'): " ].
Proof.
  unfold handle_response_message, create_chat_message.
  cbn [content session_end_lines full_response_text app].
  now rewrite (strip_app_blank text (newline +:+ "") eq_refl eq_refl).
Qed.

End Client.

(** * The further properties on concrete requests *)

Lemma answers_do_not_depend_on_caches_witness :
  let warm :=
    fst (@DataSourceHandler.fetch_verifiable_data Spec.placeholder_runtime
           "carbon_footprint" "MacBook_Pro" None
           (Spec.clock_at "2025-01-01T00:00:00" 0) (Raise (RequestError ""))
           DataSourceHandler.no_caches) in
  @Spec.reachable Spec.placeholder_runtime DataSourceHandler.no_caches
  /\ @Spec.reachable Spec.placeholder_runtime warm
  /\ snd (@DataSourceHandler.fetch_verifiable_data Spec.placeholder_runtime
            "carbon_footprint" "MacBook_Pro" None
            (Spec.clock_at "2025-01-01T00:00:00" 0) (Raise (RequestError ""))
            DataSourceHandler.no_caches)
     = snd (@DataSourceHandler.fetch_verifiable_data Spec.placeholder_runtime
              "carbon_footprint" "MacBook_Pro" None
              (Spec.clock_at "2025-01-01T00:00:00" 60000000)
              (Raise (RequestError "")) warm).
Proof.
  intros warm.
  assert (Hcold : @Spec.reachable Spec.placeholder_runtime
                    DataSourceHandler.no_caches)
    by apply Spec.reachable_start.
  assert (Hwarm : @Spec.reachable Spec.placeholder_runtime warm)
    by (apply Spec.reachable_fetch; exact Hcold).
  split; [exact Hcold|]. split; [exact Hwarm|].
  apply (@answers_do_not_depend_on_caches Spec.placeholder_runtime
           "carbon_footprint" "MacBook_Pro" None
           (Spec.clock_at "2025-01-01T00:00:00" 0)
           (Spec.clock_at "2025-01-01T00:00:00" 60000000)
           (Raise (RequestError "")) DataSourceHandler.no_caches warm
           Hcold Hwarm).
  reflexivity.
Defined.

Lemma reachable_caches_hold_store_records_witness :
  let warm :=
    fst (@DataSourceHandler.fetch_verifiable_data Spec.placeholder_runtime
           "reputation_score" "Alex" (Some "aspect=developer")
           (Spec.clock_at "2025-01-01T00:00:00" 0) (Raise (RequestError ""))
           DataSourceHandler.no_caches) in
  @Spec.reachable Spec.placeholder_runtime warm /\ Spec.caches_exact warm.
Proof.
  intros warm.
  assert (Hwarm : @Spec.reachable Spec.placeholder_runtime warm)
    by (apply Spec.reachable_fetch; apply Spec.reachable_start).
  split; [exact Hwarm|].
  apply (@reachable_caches_hold_store_records Spec.placeholder_runtime warm
           Hwarm).
Defined.

Lemma education_found_iff_stored_witness :
  @Spec.reachable Spec.placeholder_runtime DataSourceHandler.no_caches
  /\ Str.lower "Education_Credential" = "education_credential"
  /\ exists envelope,
      snd (@DataSourceHandler.fetch_verifiable_data Spec.placeholder_runtime
             "Education_Credential" "Alex Chen" None
             (Spec.clock_at "2025-01-01T00:00:00" 0)
             (Raise (RequestError "")) DataSourceHandler.no_caches)
      = Ok envelope
      /\ Py.lookup envelope "error_message"
         = Some (VStr "No education credentials found for identifier 'Alex Chen'.")
      /\ Py.lookup envelope "data_payload" = Some (VDict []).
Proof.
  split; [apply Spec.reachable_start|]. split; [reflexivity|].
  apply (@education_found_iff_stored Spec.placeholder_runtime
           "Education_Credential" "Alex Chen" None
           (Spec.clock_at "2025-01-01T00:00:00" 0) (Raise (RequestError ""))
           DataSourceHandler.no_caches Spec.reachable_start eq_refl).
Defined.

Lemma supply_chain_found_iff_stored_witness :
  @Spec.reachable Spec.placeholder_runtime DataSourceHandler.no_caches
  /\ Str.lower "supply_chain_status" = "supply_chain_status"
  /\ exists envelope,
      snd (@DataSourceHandler.fetch_verifiable_data Spec.placeholder_runtime
             "supply_chain_status" "ecophone_x2" None
             (Spec.clock_at "2025-01-01T00:00:00" 0)
             (Raise (RequestError "")) DataSourceHandler.no_caches)
      = Ok envelope
      /\ Py.lookup envelope "error_message"
         = Some (VStr "No supply chain information found for product identifier 'ecophone_x2'.")
      /\ Py.lookup envelope "data_payload" = Some (VDict []).
Proof.
  split; [apply Spec.reachable_start|]. split; [reflexivity|].
  apply (@supply_chain_found_iff_stored Spec.placeholder_runtime
           "supply_chain_status" "ecophone_x2" None
           (Spec.clock_at "2025-01-01T00:00:00" 0) (Raise (RequestError ""))
           DataSourceHandler.no_caches Spec.reachable_start eq_refl).
Defined.



Lemma carbon_identifier_case_insensitive_witness :
  let kelvin_sign := Utf8.encode 0x212A in
  Str.lower "carbon_footprint" = "carbon_footprint"
  /\ Str.lower ("MACBOO" +:+ kelvin_sign +:+ "_PRO") = Str.lower "MacBook_Pro"
  /\ Spec.answer_payload
       (snd (@DataSourceHandler.fetch_verifiable_data Spec.placeholder_runtime
               "carbon_footprint" ("MACBOO" +:+ kelvin_sign +:+ "_PRO") None
               (Spec.clock_at "2025-01-01T00:00:00" 0)
               (Raise (RequestError "")) DataSourceHandler.no_caches))
     = Spec.answer_payload
         (snd (@DataSourceHandler.fetch_verifiable_data
                 Spec.placeholder_runtime "carbon_footprint" "MacBook_Pro"
                 None (Spec.clock_at "2025-01-01T00:00:00" 0)
                 (Raise (RequestError "")) DataSourceHandler.no_caches)).
Proof.
  split; [reflexivity|]. split; [reflexivity|].
  apply (@carbon_identifier_case_insensitive Spec.placeholder_runtime
           "carbon_footprint" ("MACBOO" +:+ Utf8.encode 0x212A +:+ "_PRO")
           "MacBook_Pro" None
           (Spec.clock_at "2025-01-01T00:00:00" 0) (Raise (RequestError ""))
           DataSourceHandler.no_caches eq_refl eq_refl).
Defined.

Lemma reputation_identifier_by_normal_form_witness :
  Str.lower "reputation_score" = "reputation_score"
  /\ ReputationScore.normalize_reputation_identifier "Alex"
     = ReputationScore.normalize_reputation_identifier "alex_developer"
  /\ Spec.answer_payload
       (snd (@DataSourceHandler.fetch_verifiable_data Spec.placeholder_runtime
               "reputation_score" "Alex" None
               (Spec.clock_at "2025-01-01T00:00:00" 0)
               (Raise (RequestError "")) DataSourceHandler.no_caches))
     = Spec.answer_payload
         (snd (@DataSourceHandler.fetch_verifiable_data
                 Spec.placeholder_runtime "reputation_score" "alex_developer"
                 None (Spec.clock_at "2025-01-01T00:00:00" 0)
                 (Raise (RequestError "")) DataSourceHandler.no_caches)).
Proof.
  split; [reflexivity|]. split; [reflexivity|].
  apply (@reputation_identifier_by_normal_form Spec.placeholder_runtime
           "reputation_score" "Alex" "alex_developer" None
           (Spec.clock_at "2025-01-01T00:00:00" 0) (Raise (RequestError ""))
           DataSourceHandler.no_caches eq_refl eq_refl).
Defined.

Lemma data_type_case_insensitive_witness :
  In (Str.lower "Supply_Chain_Status") Spec.SUPPORTED
  /\ @DataSourceHandler.fetch_verifiable_data Spec.placeholder_runtime
       "Supply_Chain_Status" "ecophone_x1" None
       (Spec.clock_at "2025-01-01T00:00:00" 0) (Raise (RequestError ""))
       DataSourceHandler.no_caches
     = @DataSourceHandler.fetch_verifiable_data Spec.placeholder_runtime
         "supply_chain_status" "ecophone_x1" None
         (Spec.clock_at "2025-01-01T00:00:00" 0) (Raise (RequestError ""))
         DataSourceHandler.no_caches.
Proof.
  assert (Hin : In (Str.lower "Supply_Chain_Status") Spec.SUPPORTED)
    by (vm_compute; tauto).
  split; [exact Hin|].
  apply (@data_type_case_insensitive Spec.placeholder_runtime
           "Supply_Chain_Status" "ecophone_x1" None
           (Spec.clock_at "2025-01-01T00:00:00" 0) (Raise (RequestError ""))
           DataSourceHandler.no_caches Hin).
Defined.

Lemma price_request_outcomes_witness :
  Str.lower "Crypto_Price" = "crypto_price"
  /\ exists envelope,
      @DataSourceHandler.fetch_verifiable_data Spec.placeholder_runtime
        "Crypto_Price" "bitcoin" (Some "vs_currency=eur")
        (Spec.clock_at "2025-01-01T00:00:00" 0)
        (Ok (VDict [("bitcoin", VDict [("eur", VInt 60000)])]))
        DataSourceHandler.no_caches
      = (DataSourceHandler.no_caches, Ok envelope)
      /\ Py.lookup envelope "error_message" = None
      /\ Py.lookup envelope "data_payload"
         = Some (VDict [ ("price", VInt 60000);
                         ("currency", VStr "eur");
                         ("asset_id", VStr "bitcoin") ]).
Proof.
  split; [reflexivity|].
  apply (@price_request_outcomes Spec.placeholder_runtime "Crypto_Price"
           "bitcoin" (Some "vs_currency=eur")
           (Spec.clock_at "2025-01-01T00:00:00" 0)
           (Ok (VDict [("bitcoin", VDict [("eur", VInt 60000)])]))
           DataSourceHandler.no_caches eq_refl).
Defined.

Lemma currency_hint_selects_quote_witness :
  let api_data := VDict [("bitcoin", VDict [("eur", VInt 60000)])] in
  Str.contains "vs_currency=" "eur" = false
  /\ Spec.quoted_price api_data "bitcoin" "eur" = Some (VInt 60000)
  /\ Py.lookup
       (@DataSourceHandler.fetch_crypto_price Spec.placeholder_runtime
          "bitcoin" (Some "precision=2&vs_currency=eur")
          "2025-01-01T00:00:00Z" (Ok api_data)) "data_payload"
     = Some (VDict [ ("price", VInt 60000);
                     ("currency", VStr "eur");
                     ("asset_id", VStr "bitcoin") ]).
Proof.
  intros api_data.
  split; [reflexivity|]. split; [reflexivity|].
  apply (proj1 (@currency_hint_selects_quote Spec.placeholder_runtime
                  "bitcoin" "2025-01-01T00:00:00Z" api_data (VInt 60000))
           "precision=2&" "eur" eq_refl eq_refl).
Defined.

Lemma answer_echoes_request_witness :
  exists envelope,
    snd (@DataSourceHandler.fetch_verifiable_data Spec.placeholder_runtime
           "Reputation_Score" "Alex Rodriguez" None
           (Spec.clock_at "2025-01-01T00:00:00" 0) (Raise (RequestError ""))
           DataSourceHandler.no_caches)
    = Ok envelope
    /\ Spec.text_field envelope "request_identifier" = Some "Alex Rodriguez"
    /\ Spec.text_field envelope "request_data_type" = Some "reputation_score".
Proof.
  eexists. split; [reflexivity|].
  destruct (@answer_echoes_request Spec.placeholder_runtime
              "Reputation_Score" "Alex Rodriguez" None
              (Spec.clock_at "2025-01-01T00:00:00" 0)
              (Raise (RequestError "")) DataSourceHandler.no_caches _ eq_refl)
    as (Hid & Hty & _).
  split; [exact Hid|exact Hty].
Defined.

Lemma request_handler_forwards_once_witness :
  let request :=
    {| req_session_id := "S1"; data_type := "carbon_footprint";
       identifier := "Tesla"; query_details := None |} in
  @Spec.reachable Spec.placeholder_runtime DataSourceHandler.no_caches
  /\ exists text,
      MainAgent.sent
        (snd (fst (@MainAgent.handle_verifiable_data_request
                     Spec.placeholder_runtime "agent1q0" request
                     (Spec.clock_at "2025-01-01T00:00:00" 0)
                     (Raise (RequestError "")) DataSourceHandler.no_caches
                     (Spec.idle_context "agent1q0"))))
      = [("agent1q0",
          MsgError {| err_session_id := "S1"; error := text |})].
Proof.
  intros request.
  split; [apply Spec.reachable_start|].
  destruct (@request_handler_forwards_once Spec.placeholder_runtime
              "agent1q0" request (Spec.clock_at "2025-01-01T00:00:00" 0)
              (Raise (RequestError "")) DataSourceHandler.no_caches
              (Spec.idle_context "agent1q0") Spec.reachable_start)
    as (_ & _ & _ & envelope & forwarded & Hfetch & Hsent & Hshape).
  injection Hfetch as <-.
  destruct Hshape as (text & _ & ->).
  exists text. exact Hsent.
Defined.

Lemma reply_session_id_is_overwritten_witness :
  let msg :=
    {| chat_timestamp := 0; msg_id := "m-1";
       content := [TextContent "carbon footprint of a macbook pro"] |} in
  let at_ :=
    {| ChatHandlers.ack_now := 1; ChatHandlers.reply_now := 2;
       ChatHandlers.reply_uuid := "m-2" |} in
  let request :=
    {| req_session_id := "S1"; data_type := "carbon_footprint";
       identifier := "macbook_pro"; query_details := None |} in
  content msg = [TextContent "carbon footprint of a macbook pro"]
  /\ "carbon footprint of a macbook pro" <> ""
  /\ "{...}" <> ""
  /\ MainAgent.sent
       (fst (@ChatHandlers.handle_chat_message Spec.placeholder_runtime
               Spec.placeholder_parse_obj true (Some "{...}")
               Spec.placeholder_json_loads "S1" at_ "agent1qA" msg
               (Spec.idle_context "agent1q0")))
     = [("agent1qA", Spec.acknowledgement at_ msg);
        ("agent1q0", MsgRequest request)].
Proof.
  intros msg at_ request.
  split; [reflexivity|]. split; [discriminate|]. split; [discriminate|].
  apply (proj2 (proj2 (@reply_session_id_is_overwritten
                         Spec.placeholder_runtime Spec.placeholder_parse_obj
                         "{...}" Spec.placeholder_json_loads "S1" at_
                         "agent1qA" msg (Spec.idle_context "agent1q0")
                         "carbon footprint of a macbook pro" [] eq_refl
                         ltac:(discriminate) ltac:(discriminate)))).
Defined.

Lemma fenced_reply_is_unwrapped_witness :
  let no_break_space := Utf8.encode 0xA0 in
  let line_separator := Utf8.encode 0x2028 in
  Spec.blank (no_break_space +:+ " ") = true
  /\ Spec.blank line_separator = true
  /\ ChatHandlers.clean_json_string
       ((no_break_space +:+ " ") +:+ "```json" +:+ " {} " +:+ "```"
        +:+ line_separator)
     = "{}".
Proof.
  split; [reflexivity|]. split; [reflexivity|].
  apply (proj1 (fenced_reply_is_unwrapped (Utf8.encode 0xA0 +:+ " ") " {} "
                  (Utf8.encode 0x2028) eq_refl eq_refl)).
Defined.

Lemma answer_returns_to_the_asker_witness :
  let found :=
    {| req_session_id := "S1"; data_type := "carbon_footprint";
       identifier := "MacBook_Pro"; query_details := None |} in
  let missing :=
    {| req_session_id := "S1"; data_type := "carbon_footprint";
       identifier := "Tesla"; query_details := None |} in
  let ctx :=
    MainAgent.storage_set "S1" "agent1qA" (Spec.idle_context "agent1q0") in
  let requested (request : VerifiableDataRequest) :=
    snd (fst (@MainAgent.handle_verifiable_data_request
                Spec.placeholder_runtime "agent1q0" request
                (Spec.clock_at "2025-01-01T00:00:00" 0)
                (Raise (RequestError "")) DataSourceHandler.no_caches ctx)) in
  @Spec.reachable Spec.placeholder_runtime DataSourceHandler.no_caches
  /\ "S1" <> ""
  /\ "agent1qA" <> ""
  /\ MainAgent.storage ctx !! "S1" = Some "agent1qA"
  /\ (exists forwarded,
         MainAgent.sent (requested found) = [("agent1q0", forwarded)]
         /\ MainAgent.sent
              (fst (@MainAgent.handle_internal_response
                      Spec.placeholder_runtime "agent1q0" forwarded 5 "m-3"
                      (requested found)))
            = [("agent1q0", forwarded);
               ("agent1qA",
                Spec.final_message 5 "m-3" "# Verifiable Data Report")])
  /\ (exists forwarded,
         MainAgent.sent (requested missing) = [("agent1q0", forwarded)]
         /\ MainAgent.sent
              (fst (@MainAgent.handle_internal_response
                      Spec.placeholder_runtime "agent1q0" forwarded 5 "m-3"
                      (requested missing)))
            = [("agent1q0", forwarded);
               ("agent1qA",
                Spec.final_message 5 "m-3"
                  (Spec.error_block
                     "No carbon footprint information found for identifier 'Tesla' in any scope (product, company, activity)."))]).
Proof.
  intros found missing ctx requested.
  assert (Hbound : MainAgent.storage ctx !! "S1" = Some "agent1qA")
    by apply lookup_insert_eq.
  split; [apply Spec.reachable_start|]. split; [discriminate|].
  split; [discriminate|]. split; [exact Hbound|]. split.
  - destruct (@answer_returns_to_the_asker Spec.placeholder_runtime
                "agent1q0" found (Spec.clock_at "2025-01-01T00:00:00" 0)
                (Raise (RequestError "")) DataSourceHandler.no_caches ctx 5
                "m-3" "agent1qA" Spec.reachable_start ltac:(discriminate)
                ltac:(discriminate) Hbound)
      as (envelope & forwarded & Hfetch & Hsent & _ & Hrouted).
    vm_compute in Hfetch. injection Hfetch as <-.
    destruct Hrouted as (r & _ & _ & _ & _ & Hrouted).
    exists forwarded. split; [exact Hsent|].
    etransitivity; [exact Hrouted|]. now rewrite Hsent.
  - destruct (@answer_returns_to_the_asker Spec.placeholder_runtime
                "agent1q0" missing (Spec.clock_at "2025-01-01T00:00:00" 0)
                (Raise (RequestError "")) DataSourceHandler.no_caches ctx 5
                "m-3" "agent1qA" Spec.reachable_start ltac:(discriminate)
                ltac:(discriminate) Hbound)
      as (envelope & forwarded & Hfetch & Hsent & _ & Hrouted).
    vm_compute in Hfetch. injection Hfetch as <-.
    destruct Hrouted as (_ & Hrouted).
    exists forwarded. split; [exact Hsent|].
    etransitivity; [exact Hrouted|]. now rewrite Hsent.
Defined.

Lemma conversation_round_trip_witness :
  let msg :=
    {| chat_timestamp := 0; msg_id := "m-1";
       content := [TextContent "carbon footprint of a macbook pro"] |} in
  let at_ :=
    {| ChatHandlers.ack_now := 1; ChatHandlers.reply_now := 2;
       ChatHandlers.reply_uuid := "m-2" |} in
  let request :=
    {| req_session_id := "S1"; data_type := "carbon_footprint";
       identifier := "macbook_pro"; query_details := None |} in
  let ctx :=
    MainAgent.storage_set "S1" "agent1qB" (Spec.idle_context "agent1q0") in
  let chatted :=
    fst (@ChatHandlers.handle_chat_message Spec.placeholder_runtime
           Spec.placeholder_parse_obj true (Some "{...}")
           Spec.placeholder_json_loads "S1" at_ "agent1qA" msg ctx) in
  let requested :=
    snd (fst (@MainAgent.handle_verifiable_data_request
                Spec.placeholder_runtime "agent1q0" request
                (Spec.clock_at "2025-01-01T00:00:00" 0)
                (Raise (RequestError "")) DataSourceHandler.no_caches
                chatted)) in
  @Spec.reachable Spec.placeholder_runtime DataSourceHandler.no_caches
  /\ MainAgent.storage ctx !! "S1" = Some "agent1qB"
  /\ Spec.placeholder_parse_obj
       (ChatHandlers.dict_set
          [ ("data_type", VStr "carbon_footprint");
            ("identifier", VStr "macbook_pro");
            ("session_id", VStr "made-up") ] "session_id" (VStr "S1"))
     = Ok request
  /\ exists forwarded,
      MainAgent.sent
        (fst (@MainAgent.handle_internal_response Spec.placeholder_runtime
                "agent1q0" forwarded 5 "m-3" requested))
      = [("agent1qA", Spec.acknowledgement at_ msg);
         ("agent1q0", MsgRequest request);
         ("agent1q0", forwarded);
         ("agent1qA",
          Spec.final_message 5 "m-3" "# Verifiable Data Report")].
Proof.
  intros msg at_ request ctx chatted requested.
  split; [apply Spec.reachable_start|].
  split; [apply lookup_insert_eq|]. split; [reflexivity|].
  destruct (@conversation_round_trip Spec.placeholder_runtime
              Spec.placeholder_parse_obj "{...}" Spec.placeholder_json_loads
              "S1" at_ "agent1qA" msg ctx
              "carbon footprint of a macbook pro" []
              ("data_type", VStr "carbon_footprint")
              [ ("identifier", VStr "macbook_pro");
                ("session_id", VStr "made-up") ]
              request (Spec.clock_at "2025-01-01T00:00:00" 0)
              (Raise (RequestError "")) DataSourceHandler.no_caches 5 "m-3"
              Spec.reachable_start ltac:(discriminate) ltac:(discriminate)
              eq_refl ltac:(discriminate) ltac:(discriminate) eq_refl eq_refl
              eq_refl)
    as (envelope & forwarded & Hfetch & Hsent & Hrouted).
  vm_compute in Hfetch. injection Hfetch as <-.
  destruct Hrouted as (r & _ & _ & Hrouted).
  exists forwarded.
  etransitivity; [exact Hrouted|]. fold requested. now rewrite Hsent.
Defined.
